(** * The Jira plugin's request dispatch core, embedded in Rocq

  A shallow embedding of the Go sources of the [jira-plugin]:
  - [credentials/credentials.go]: the per-space credential store;
  - [handlers.go] / [actions/issues/handlers.go]: the topic router
    [extractSpaceIdFromSubject] and the dispatch helper
    [handleActionWithCredentialsCheckSync] (direct-reply and handshake
    revisions);
  - [client/jira_client.go]: the Jira REST client;
  - [actions/issues/actions.go], [actions/projects/handlers.go]: the
    business functions of the four actions.

  Go strings are [string], [map[string]T] is [gmap string T] (a nil map is
  [None] where the code tells them apart), [any] is an inductive type of
  dynamically typed values, a Go [(value, error)] result is a pair of
  options, and side effects are threaded through a small state-and-trace
  monad. *)

From Stdlib Require Import ZArith String Ascii List DecimalString.
From stdpp Require Import gmap strings list fin_maps sorting.

#[local] Set Warnings "-register-all".
#[local] Open Scope string_scope.

(** ** Go's [strings] package, as far as the plugin uses it *)

Module strings.

(** [strings.Split(s, sep)] for a one-character separator: the fields
    between the separators, [[""]] for the empty string. *)
Fixpoint Split (s : string) (sep : ascii) : list string :=
  match s with
  | EmptyString => [EmptyString]
  | String c s' =>
      if Ascii.eqb c sep then EmptyString :: Split s' sep
      else match Split s' sep with
           | [] => [String c EmptyString]
           | p :: ps => String c p :: ps
           end
  end.

(** [strings.Join(elems, sep)]. *)
Fixpoint Join (elems : list string) (sep : string) : string :=
  match elems with
  | [] => EmptyString
  | [e] => e
  | e :: es => e ++ sep ++ Join es sep
  end.

(** [strings.HasPrefix(s, prefix)]. *)
Fixpoint HasPrefix (s prefix : string) : bool :=
  match prefix, s with
  | EmptyString, _ => true
  | String _ _, EmptyString => false
  | String p ps, String c cs => Ascii.eqb c p && HasPrefix cs ps
  end.

(** [strings.Contains(s, substr)]. *)
Fixpoint Contains (s substr : string) : bool :=
  HasPrefix s substr ||
  match s with
  | EmptyString => false
  | String _ s' => Contains s' substr
  end.

(** [strings.TrimSuffix(s, suffix)] for a one-character suffix. *)
Fixpoint TrimSuffix (s : string) (suffix : ascii) : string :=
  match s with
  | EmptyString => EmptyString
  | String c EmptyString => if Ascii.eqb c suffix then EmptyString else s
  | String c s' => String c (TrimSuffix s' suffix)
  end.

(** Does the byte [c] occur in [s]? *)
Fixpoint IndexByte (s : string) (c : ascii) : bool :=
  match s with
  | EmptyString => false
  | String c' s' => Ascii.eqb c' c || IndexByte s' c
  end.

End strings.

(** [fmt.Sprintf("%d", z)]. *)
Definition itoa (z : Z) : string := NilEmpty.string_of_int (Z.to_int z).

(** ** Topic router ([extractSpaceIdFromSubject])

  The function is defined twice in the repository, in [handlers.go] and in
  [actions/issues/handlers.go], with the same text. *)

Module Router.

(** The [for i, part := range parts] loop: [rest] is what is left of
    [parts] from index [i] on. *)
Fixpoint scan (parts : list string) (i : nat) (rest : list string) : string :=
  match rest with
  | [] => ""
  | part :: rest' =>
      if String.eqb part "bin" && (i + 1 <? length parts)%nat
      then nth (i + 1) parts ""
      else scan parts (i + 1) rest'
  end.

Definition extractSpaceIdFromSubject (subject : string) : string :=
  let parts := strings.Split subject "."%char in
  scan parts 0 parts.

(** A topic is a non-empty sequence of segments, none of which holds a
    dot. *)
Definition segment (s : string) : Prop := strings.IndexByte s "."%char = false.

Definition topic_of (segs : list string) : string := strings.Join segs ".".

End Router.

(** ** Dynamic values and errors *)

(** A Go [any] as the plugin meets it: what a JSON document decodes to
    ([nil], [bool], [float64], [string], [[]any], [map[string]any]) and the
    [int]s the handlers put into their results. A decoded number keeps its
    literal. *)
Inductive any : Type :=
| VNil
| VBool (b : bool)
| VInt (z : Z)
| VFloat (lit : string)
| VString (s : string)
| VArray (l : list any)
| VMap (m : gmap string any).

(** [m[key]] on a [map[string]any]: the zero value [nil] when absent. *)
Definition index (m : gmap string any) (key : string) : any :=
default VNil (m !! key).

(** [v.(string)], [v.(bool)] and [v.(map[string]interface{})] in their
    comma-ok form: the zero value and [false] when the dynamic type
    differs. *)
Definition assert_string (v : any) : string * bool :=
match v with VString s => (s, true) | _ => ("", false) end.

Definition assert_bool (v : any) : bool * bool :=
match v with VBool b => (b, true) | _ => (false, false) end.

Definition assert_map (v : any) : option (gmap string any) * bool :=
match v with VMap m => (Some m, true) | _ => (None, false) end.

(** [value != nil] and [value != ""] on an interface value: the second
    compares dynamic type and value, so only the string [""] is equal. *)
Definition is_nil (v : any) : bool :=
match v with VNil => true | _ => false end.

Definition is_empty_string (v : any) : bool :=
match v with VString EmptyString => true | _ => false end.

(** A [map[string]any] stored in an [any]: a nil map is written as
    [null]. *)
Definition mapValue (m : option (gmap string any)) : any :=
match m with Some m => VMap m | None => VNil end.

(** [len(m)], [m[key]] and [range m] read a nil map as an empty one. *)
Definition or_empty {A} (m : option (gmap string A)) : gmap string A :=
default ∅ m.

(** Go [error] values. [OsError] comes from package [os] and knows whether
    it means "file does not exist"; [LibError] comes from a library
    (a JSON decoder, the HTTP transport, a reader); [Errorf] is
    [fmt.Errorf], holding the formatted message and, for the [%w] verb, the
    wrapped cause. *)
Inductive error : Type :=
| OsError (notExist : bool) (msg : string)
| LibError (msg : string)
| Errorf (msg : string) (cause : option error).

(** [err.Error()]. *)
Definition Error (e : error) : string :=
match e with
| OsError _ msg => msg
| LibError msg => msg
| Errorf msg _ => msg
end.

(** [fmt.Errorf(prefix + "%w", err)] and [fmt.Errorf(msg)]. *)
Definition Errorf_w (prefix : string) (err : error) : error :=
Errorf (prefix ++ Error err) (Some err).

Definition Errorf_s (msg : string) : error := Errorf msg None.

(** [os.IsNotExist(err)]: it looks at the error itself and does not unwrap
    a [fmt.Errorf] chain. *)
Definition os_IsNotExist (err : option error) : bool :=
match err with
| Some (OsError notExist _) => notExist
| _ => false
end.

(** A Go [(T, error)] result. *)
Definition result (T : Type) : Type := (T * option error)%type.

(** ** The records of the plugin *)

(** [credentials.JiraCredentials]. *)
Record JiraCredentials : Type := mkCreds {
  InstanceURL : string;
  Email : string;
  APIToken : string;
}.

(** Modelled from the spec: the SDK's [models.ActionRequestContent] is not
    part of the sources; the dispatch helper reads its [Body] field only,
    "a structured envelope containing a body field (mapping of field name
    to value)"; [None] is a nil map. *)
Record ActionRequestContent : Type := mkRequestContent {
  Body : option (gmap string any);
}.

(** The anonymous struct the client decodes a Jira error body into. *)
Record jiraError : Type := mkJiraError {
  ErrorMessages : list string;
  Errors : option (gmap string string);
}.

(** [nats.Msg], as far as the handlers read it. *)
Record Msg : Type := mkMsg {
  Subject : string;
  Data : string;
}.

(** [http.Request] as [makeRequest] builds it, and [http.Response] as the
    client reads it: the status code and what [io.ReadAll(resp.Body)]
    returns. *)
Record Request : Type := mkRequest {
  Method : string;
  URL : string;
  Header : list (string * string);
  ReqBody : option string;
}.

Record Response : Type := mkResponse {
  StatusCode : Z;
  RespBody : string;
  ReadErr : option error;
}.

(** ** The libraries and services around the plugin

    The JSON codecs ([encoding/json] for the credentials file, [sonic] for
    messages and HTTP bodies) and the outer world (HTTP transport, UUID
    source) are interfaces: the plugin's functions are defined, and its
    properties proved, for every implementation. A reference
    implementation follows further down. *)

Class JSON : Type := {
  json_MarshalIndent : gmap string JiraCredentials → result string;
  json_Unmarshal : string → result (option (gmap string JiraCredentials));
  sonic_Marshal : any → result string;
  sonic_Unmarshal_request : string → result ActionRequestContent;
  sonic_Unmarshal_jiraError : string → result jiraError;
  sonic_Unmarshal_map : string → result (option (gmap string any));
  sonic_Unmarshal_maps : string → result (list (gmap string any));
}.

Class Env : Type := {
  (** [http.NewRequest(method, url, body)]: the error, if any. *)
  http_NewRequest : string → string → option error;
  (** [HTTPClient.Do(req)]: the remote service's answer. *)
  http_Do : Request → result Response;
  (** [uuid.New().String()], by draw number. *)
  uuid_New : nat → string;
  (** Does [sdkv2.GetPlugin()] return an instance? [plugin.go] creates it
      once, before any handler is subscribed. *)
  sdk_hasPlugin : bool;
}.

(** ** State, events and the monad of handlers *)

(** The credentials file on disk: missing, present but unreadable, or
    present with contents. *)
Inductive File : Type :=
| NoFile
| Unreadable (err : error)
| Contents (data : string).

(** How a write of the credentials file fails. [os.WriteFile] opens the
    file with [O_WRONLY|O_CREATE|O_TRUNC], writes the data and closes the
    file. When the open fails, the file is as it was. When the write or
    the close fails, the file has been truncated already and holds the
    bytes written until then: [written] of them, from none to all. *)
Inductive WriteFault : Type :=
| OpenFails (err : error)
| WriteFails (err : error) (written : nat).

(** What a handler can change: the credentials file, the job table of the
    SDK's plugin instance (job id to space id) and the number of UUIDs
    drawn. [writeErr] is the fault [os.WriteFile] meets, if any. *)
Record World : Type := mkWorld {
  credsFile : File;
  writeErr : option WriteFault;
  jobs : gmap string string;
  drawn : nat;
}.

(** What a handler does to the outside, in order. *)
Inductive Event : Type :=
| EvRespond (data : string)
| EvReject (body : gmap string any)
| EvHTTP (req : Request)
| EvSleep (seconds : Z)
| EvDone (jobID : string) (result : gmap string any).

(** A computation reads and changes the world and emits events. *)
Definition M (A : Type) : Type := World → A * list Event * World.

#[global] Instance M_ret : MRet M := fun A a w => (a, [], w).

#[global] Instance M_bind : MBind M := fun A B k m w =>
  let '(a, t1, w1) := m w in
  let '(b, t2, w2) := k a w1 in
  (b, (t1 ++ t2)%list, w2).

Definition emit (e : Event) : M unit := fun w => (tt, [e], w).

Definition gets {A} (f : World → A) : M A := fun w => (f w, [], w).

Definition modify (f : World → World) : M unit := fun w => (tt, [], f w).

Definition value_of {A} (r : A * list Event * World) : A := r.1.1.
Definition trace_of {A} (r : A * list Event * World) : list Event := r.1.2.
Definition world_of {A} (r : A * list Event * World) : World := r.2.

(** Package [os], on the one file the plugin touches. *)
Definition os_ReadFile : M (result string) :=
gets (fun w =>
  match credsFile w with
  | NoFile => ("", Some (OsError true "open jira_credentials.json: no such file or directory"))
  | Unreadable err => ("", Some err)
  | Contents data => (data, None)
  end).

(** [os.WriteFile(cs.filePath, data, 0600)]: a write that fails after the
    open leaves the part of [data] that was written. *)
Definition os_WriteFile (data : string) : M (option error) :=
fun w =>
  match writeErr w with
  | Some (OpenFails err) => (Some err, [], w)
  | Some (WriteFails err written) =>
      (Some err, [],
       {| credsFile := Contents (String.substring 0 written data); writeErr := writeErr w;
          jobs := jobs w; drawn := drawn w |})
  | None =>
      (None, [],
       {| credsFile := Contents data; writeErr := writeErr w;
          jobs := jobs w; drawn := drawn w |})
  end.

(** ** Credential store ([credentials/credentials.go])

    The storage is a process-wide singleton on one file path, so its
    methods act on the world's [credsFile]. *)

Module credentials.
Section Storage.
Context {json : JSON}.

(** [spaceKey := spaceID; if spaceKey == "" { spaceKey = "default" }]. *)
Definition spaceKey (spaceID : string) : string :=
if String.eqb spaceID "" then "default" else spaceID.

Definition loadAllCredentials : M (result (option (gmap string JiraCredentials))) :=
'(data, err) ← os_ReadFile;
match err with
| Some err => mret (None, Some err)
| None =>
    let '(allCreds, err) := json_Unmarshal data in
    match err with
    | Some err => mret (None, Some (Errorf_w "failed to unmarshal credentials: " err))
    | None => mret (allCreds, None)
    end
end.

Definition SaveCredentials (spaceID : string) (creds : JiraCredentials) : M (option error) :=
'(allCreds, err) ← loadAllCredentials;
let store : M (option error) :=
  let spaceKey := spaceKey spaceID in
  let allCreds := match allCreds with None => ∅ | Some m => m end in
  let allCreds := <[spaceKey := creds]> allCreds in
  let '(data, err) := json_MarshalIndent allCreds in
  match err with
  | Some err => mret (Some (Errorf_w "failed to marshal credentials: " err))
  | None =>
      err ← os_WriteFile data;
      match err with
      | Some err => mret (Some (Errorf_w "failed to write credentials file: " err))
      | None => mret None
      end
  end in
match err with
| Some e =>
    if negb (os_IsNotExist err)
    then mret (Some (Errorf_w "failed to load existing credentials: " e))
    else store
| None => store
end.

(** The Go function returns [(nil, err)] or [(&creds, nil)]: a sum. *)
Definition GetCredentials (spaceID : string) : M (error + JiraCredentials) :=
'(allCreds, err) ← loadAllCredentials;
match err with
| Some err => mret (inl err)
| None =>
    let spaceKey := spaceKey spaceID in
    match or_empty allCreds !! spaceKey with
    | None => mret (inl (Errorf_s ("credentials not found for space: " ++ spaceKey)))
    | Some creds => mret (inr creds)
    end
end.

(** [return err == nil && creds != nil]. *)
Definition HasCredentials (spaceID : string) : M bool :=
r ← GetCredentials spaceID;
mret (match r with inr _ => true | inl _ => false end).

(** [for spaceID := range allCreds { spaces = append(spaces, spaceID) }];
    Go leaves the order of a map range unspecified, [map_fold] fixes
    one. *)
Definition GetAllSpaces : M (result (list string)) :=
'(allCreds, err) ← loadAllCredentials;
match err with
| Some err => mret ([], Some err)
| None =>
    mret (map_fold (fun spaceID _ spaces => (spaces ++ [spaceID])%list) [] (or_empty allCreds),
          None)
end.

End Storage.
End credentials.

(** ** API adapter ([client/jira_client.go]) *)

Module client.
Section Client.
Context {json : JSON} {env : Env}.

(** [JiraClient]; its [HTTPClient] (timeout 30 s) is the environment's
    transport. *)
Record JiraClient : Type := mkJiraClient {
  BaseURL : string;
  ClientEmail : string;
  ClientAPIToken : string;
}.

Definition NewJiraClient (creds : JiraCredentials) : JiraClient :=
{| BaseURL := InstanceURL creds;
   ClientEmail := Email creds;
   ClientAPIToken := APIToken creds |}.

(** The URL and the request [makeRequest] builds: the base URL without
    its trailing slash, the endpoint with a leading slash. *)
Definition requestURL (jc : JiraClient) (endpoint : string) : string :=
let baseURL := strings.TrimSuffix (BaseURL jc) "/"%char in
let endpoint := if negb (strings.HasPrefix endpoint "/") then "/" ++ endpoint else endpoint in
baseURL ++ endpoint.

Definition requestOf (jc : JiraClient) (method endpoint : string) (body : option string)
    : Request :=
{| Method := method; URL := requestURL jc endpoint;
   Header := [("Authorization", "Bearer " ++ ClientAPIToken jc);
              ("Content-Type", "application/json");
              ("Accept", "application/json")];
   ReqBody := body |}.

Definition makeRequest (jc : JiraClient) (method endpoint : string)
    (body : option string) : M (error + Response) :=
let url := requestURL jc endpoint in
match http_NewRequest method url with
| Some err => mret (inl (Errorf_w "failed to create request: " err))
| None =>
    let req := requestOf jc method endpoint body in
    emit (EvHTTP req);;
    let '(resp, err) := http_Do req in
    match err with
    | Some err => mret (inl (Errorf_w "failed to make request: " err))
    | None => mret (inr resp)
    end
end.

(** [fmt.Errorf("Jira API error (status %d): %s", status, text)]. *)
Definition apiError (status : Z) (text : string) : error :=
Errorf_s ("Jira API error (status " ++ itoa status ++ "): " ++ text).

(** The block [CreateIssue], [DeleteIssue] and [AddComment] each repeat on
    an unexpected status: decode the body as a Jira error, join the error
    messages and the field errors, and fall back to the raw body when the
    body does not decode or holds neither. [label] is
    ["Missing or invalid fields: "] in [CreateIssue] and ["Errors: "] in the
    other two. *)
Definition fieldErrorsOf (errors : option (gmap string string)) : list string :=
map_fold (fun field msg fieldErrors => (fieldErrors ++ [(field ++ ": " ++ msg)%string])%list)
  [] (or_empty errors).

Definition errorPartsOf (label : string) (je : jiraError) : list string :=
let errorParts := ErrorMessages je in
if (0 <? size (or_empty (Errors je)))%nat then
  let fieldErrors := fieldErrorsOf (Errors je) in
  if (0 <? length fieldErrors)%nat
  then (errorParts ++ [(label ++ strings.Join fieldErrors "; ")%string])%list
  else errorParts
else errorParts.

Definition statusError (label : string) (status : Z) (bodyBytes : string) : error :=
let '(je, err) := sonic_Unmarshal_jiraError bodyBytes in
match err with
| None =>
    let errorParts := errorPartsOf label je in
    if (0 <? length errorParts)%nat
    then apiError status (strings.Join errorParts ". ")
    else apiError status bodyBytes
| Some _ => apiError status bodyBytes
end.

Definition ListProjects (jc : JiraClient) : M (result (list (gmap string any))) :=
r ← makeRequest jc "GET" "/rest/api/2/project" None;
match r with
| inl err => mret ([], Some err)
| inr resp =>
    if negb (StatusCode resp =? 200)%Z then
      let bodyBytes := RespBody resp in
      mret ([], Some (apiError (StatusCode resp) bodyBytes))
    else
      match ReadErr resp with
      | Some err => mret ([], Some (Errorf_w "failed to read response: " err))
      | None =>
          let '(projects, err) := sonic_Unmarshal_maps (RespBody resp) in
          match err with
          | Some err => mret ([], Some (Errorf_w "failed to unmarshal projects: " err))
          | None => mret (projects, None)
          end
      end
end.

(** [for key, value := range additionalFields] with
    [if value != nil && value != "" { target[key] = value }]. *)
Definition addFields (additionalFields target : gmap string any) : gmap string any :=
map_fold (fun key value target =>
            if negb (is_nil value) && negb (is_empty_string value)
            then <[key := value]> target else target)
  target additionalFields.

Definition issueFields (projectKey issueType summary description : string)
    (additionalFields : option (gmap string any)) : gmap string any :=
let fields : gmap string any :=
  {[ "project" := VMap {[ "key" := VString projectKey ]};
     "summary" := VString summary;
     "issuetype" := VMap {[ "name" := VString issueType ]} ]} in
let fields :=
  if negb (String.eqb description "")
  then <["description" := VString description]> fields else fields in
addFields (or_empty additionalFields) fields.

Definition CreateIssue (jc : JiraClient) (projectKey issueType summary description : string)
    (additionalFields : option (gmap string any)) : M (result (option (gmap string any))) :=
let fields := issueFields projectKey issueType summary description additionalFields in
let requestBody : gmap string any := {[ "fields" := VMap fields ]} in
let '(bodyBytes, err) := sonic_Marshal (VMap requestBody) in
match err with
| Some err => mret (None, Some (Errorf_w "failed to marshal request body: " err))
| None =>
    r ← makeRequest jc "POST" "/rest/api/2/issue" (Some bodyBytes);
    match r with
    | inl err => mret (None, Some err)
    | inr resp =>
        match ReadErr resp with
        | Some err => mret (None, Some (Errorf_w "failed to read response: " err))
        | None =>
            let bodyBytes := RespBody resp in
            if negb (StatusCode resp =? 201)%Z then
              mret (None, Some (statusError "Missing or invalid fields: " (StatusCode resp) bodyBytes))
            else
              let '(issue, err) := sonic_Unmarshal_map bodyBytes in
              match err with
              | Some err => mret (None, Some (Errorf_w "failed to unmarshal issue: " err))
              | None => mret (issue, None)
              end
        end
    end
end.

Definition DeleteIssue (jc : JiraClient) (issueKeyOrId : string) (deleteSubtasks : bool)
    : M (option error) :=
let endpoint := "/rest/api/2/issue/" ++ issueKeyOrId in
let endpoint := if deleteSubtasks then endpoint ++ "?deleteSubtasks=true" else endpoint in
r ← makeRequest jc "DELETE" endpoint None;
match r with
| inl err => mret (Some err)
| inr resp =>
    match ReadErr resp with
    | Some err => mret (Some (Errorf_w "failed to read response: " err))
    | None =>
        let bodyBytes := RespBody resp in
        if negb (StatusCode resp =? 204)%Z && negb (StatusCode resp =? 200)%Z
        then mret (Some (statusError "Errors: " (StatusCode resp) bodyBytes))
        else mret None
    end
end.

Definition commentBodyOf (commentBody : string) (visibility additionalFields : option (gmap string any))
    : gmap string any :=
let requestBody : gmap string any := {[ "body" := VString commentBody ]} in
let requestBody :=
  if (0 <? size (or_empty visibility))%nat
  then <["visibility" := VMap (or_empty visibility)]> requestBody else requestBody in
addFields (or_empty additionalFields) requestBody.

Definition AddComment (jc : JiraClient) (issueKeyOrId commentBody : string)
    (visibility additionalFields : option (gmap string any))
    : M (result (option (gmap string any))) :=
let requestBody := commentBodyOf commentBody visibility additionalFields in
let '(bodyBytes, err) := sonic_Marshal (VMap requestBody) in
match err with
| Some err => mret (None, Some (Errorf_w "failed to marshal request body: " err))
| None =>
    let endpoint := "/rest/api/2/issue/" ++ issueKeyOrId ++ "/comment" in
    r ← makeRequest jc "POST" endpoint (Some bodyBytes);
    match r with
    | inl err => mret (None, Some err)
    | inr resp =>
        match ReadErr resp with
        | Some err => mret (None, Some (Errorf_w "failed to read response: " err))
        | None =>
            let bodyBytes := RespBody resp in
            if negb (StatusCode resp =? 201)%Z then
              mret (None, Some (statusError "Errors: " (StatusCode resp) bodyBytes))
            else
              let '(comment, err) := sonic_Unmarshal_map bodyBytes in
              match err with
              | Some err => mret (None, Some (Errorf_w "failed to unmarshal comment: " err))
              | None => mret (comment, None)
              end
        end
    end
end.

End Client.
End client.

(** ** Business functions of the actions

    The closures the handlers pass to the dispatch helper
    ([actions/issues/actions.go], [actions/projects/handlers.go]). *)

Module issues.
Section Actions.
Context {json : JSON} {env : Env}.

(** [body[key].(string)] with the flag dropped. *)
Definition stringField (body : gmap string any) (key : string) : string :=
(assert_string (index body key)).1.

(** The [additionalFields] (and [visibility]) extraction: the first
    assertion takes every map; the second, on the same type, copies it. *)
Definition objectField (body : gmap string any) (key : string) : option (gmap string any) :=
match body !! key with
| Some raw =>
    match assert_map raw with
    | (afMap, true) => afMap
    | (_, false) =>
        match assert_map raw with
        | (Some afMap, true) => Some (map_fold (fun k v copy => <[k := v]> copy) ∅ afMap)
        | _ => None
        end
    end
| None => None
end.

(** The merge loop over [body]: [knownFields[key]] is [false] for a key
    the table does not hold. *)
Definition mergeOtherFields (knownFields : gmap string bool)
    (body : gmap string any) (additionalFields : option (gmap string any))
    : gmap string any :=
let additionalFields := match additionalFields with None => ∅ | Some m => m end in
map_fold (fun key value additionalFields =>
            if negb (default false (knownFields !! key))
               && negb (is_nil value) && negb (is_empty_string value)
            then <[key := value]> additionalFields else additionalFields)
  additionalFields body.

Definition validation_error (message : string) : gmap string any :=
{[ "error" := VString "validation_error"; "message" := VString message ]}.

Definition jira_api_error (message : string) : gmap string any :=
{[ "error" := VString "jira_api_error"; "message" := VString message ]}.

Definition createKnownFields : gmap string bool :=
{[ "projectKey" := true; "issueType" := true; "summary" := true;
   "description" := true; "additionalFields" := true ]}.

Definition CreateIssueAction (creds : JiraCredentials) (body : gmap string any)
    : M (gmap string any) :=
let projectKey := stringField body "projectKey" in
let issueType := stringField body "issueType" in
let summary := stringField body "summary" in
let description := stringField body "description" in
let additionalFields := objectField body "additionalFields" in
let additionalFields := mergeOtherFields createKnownFields body additionalFields in
if String.eqb projectKey "" then mret (validation_error "Project key is required")
else if String.eqb issueType "" then mret (validation_error "Issue type is required")
else if String.eqb summary "" then mret (validation_error "Summary is required")
else
  let jiraClient := client.NewJiraClient creds in
  '(issue, err) ← client.CreateIssue jiraClient projectKey issueType summary description
                    (Some additionalFields);
  match err with
  | Some err => mret (jira_api_error ("Failed to create issue: " ++ Error err))
  | None =>
      let issueKey := stringField (or_empty issue) "key" in
      let issueId := stringField (or_empty issue) "id" in
      mret {[ "result" := VString "success";
              "message" := VString "Issue created successfully";
              "issueKey" := VString issueKey;
              "issueId" := VString issueId;
              "issue" := mapValue issue ]}
  end.

Definition DeleteIssueAction (creds : JiraCredentials) (body : gmap string any)
    : M (gmap string any) :=
let issueKey := stringField body "issueKey" in
let deleteSubtasks :=
  match assert_bool (index body "deleteSubtasks") with
  | (ds, true) => ds
  | (_, false) => false
  end in
if String.eqb issueKey "" then mret (validation_error "Issue key or ID is required")
else
  let jiraClient := client.NewJiraClient creds in
  err ← client.DeleteIssue jiraClient issueKey deleteSubtasks;
  match err with
  | Some err => mret (jira_api_error ("Failed to delete issue: " ++ Error err))
  | None =>
      mret {[ "result" := VString "success";
              "message" := VString ("Issue " ++ issueKey ++ " deleted successfully");
              "issueKey" := VString issueKey ]}
  end.

Definition commentKnownFields : gmap string bool :=
{[ "issueKey" := true; "commentBody" := true; "visibility" := true;
   "additionalFields" := true ]}.

Definition AddCommentAction (creds : JiraCredentials) (body : gmap string any)
    : M (gmap string any) :=
let issueKey := stringField body "issueKey" in
let commentBody := stringField body "commentBody" in
let visibility := objectField body "visibility" in
let additionalFields := objectField body "additionalFields" in
let additionalFields := mergeOtherFields commentKnownFields body additionalFields in
if String.eqb issueKey "" then mret (validation_error "Issue key or ID is required")
else if String.eqb commentBody "" then mret (validation_error "Comment body is required")
else
  let jiraClient := client.NewJiraClient creds in
  '(comment, err) ← client.AddComment jiraClient issueKey commentBody visibility
                      (Some additionalFields);
  match err with
  | Some err => mret (jira_api_error ("Failed to add comment: " ++ Error err))
  | None =>
      let commentId := stringField (or_empty comment) "id" in
      let commentAuthor := (assert_map (index (or_empty comment) "author")).1 in
      mret {[ "result" := VString "success";
              "message" := VString ("Comment added successfully to issue " ++ issueKey);
              "issueKey" := VString issueKey;
              "commentId" := VString commentId;
              "comment" := mapValue comment;
              "commentAuthor" := mapValue commentAuthor ]}
  end.

End Actions.
End issues.

Module projects.
Section Actions.
Context {json : JSON} {env : Env}.

Definition ListProjectsAction (creds : JiraCredentials) (body : gmap string any)
    : M (gmap string any) :=
let jiraClient := client.NewJiraClient creds in
'(projects, err) ← client.ListProjects jiraClient;
match err with
| Some err => mret (issues.jira_api_error ("Failed to fetch projects: " ++ Error err))
| None =>
    let count := Z.of_nat (length projects) in
    mret {[ "result" := VString "success";
            "message" := VString ("Successfully retrieved " ++ itoa count ++ " projects");
            "projects" := VArray (VMap <$> projects);
            "count" := VInt count ]}
end.

End Actions.
End projects.

(** ** Dispatch pipeline ([handleActionWithCredentialsCheckSync])

    The helper of package [issues] exists in two revisions with one name:
    the direct-reply one of [actions/issues/handlers.go], and the
    handshake one, which rejects through the SDK and publishes the result
    under a job id. The helper of package [projects], which
    [ListProjectsHandler] calls, is not among the sources: of that handler
    only the closure it passes is embedded ([projects.ListProjectsAction]). *)

(** The message of the "credentials not configured" reply. *)
Definition notConfiguredMsg (spaceID : string) : string :=
if String.eqb spaceID ""
then "Jira credentials not configured. Please complete the onboarding process first."
else "Jira credentials not configured for space '" ++ spaceID
     ++ "'. Please complete the onboarding process first.".

Definition notConfiguredBody (actionName spaceID : string) : gmap string any :=
{[ "error" := VString "credentials_not_configured";
   "message" := VString (notConfiguredMsg spaceID);
   "action" := VString actionName;
   "spaceId" := VString spaceID ]}.

Definition credentialsErrorBody (err : error) : gmap string any :=
{[ "error" := VString "credentials_error";
   "message" := VString ("Failed to retrieve credentials: " ++ Error err) ]}.

Definition internalErrorBody : gmap string any :=
{[ "error" := VString "internal_error";
   "message" := VString "Failed to serialize response" ]}.

Definition ActionFunc : Type := JiraCredentials → gmap string any → M (gmap string any).

Module Direct.
Section Dispatch.
Context {json : JSON} {env : Env}.

(** [msg.Respond(response)] with [response, _ := sonic.Marshal(body)]. *)
Definition respond (body : gmap string any) : M unit :=
emit (EvRespond (sonic_Marshal (VMap body)).1).

Definition invalidRequestBody : gmap string any :=
{[ "error" := VString "Invalid request data";
   "message" := VString "Failed to parse request" ]}.

(** The helper from its credentials check on, for the decoded [body]. *)
Definition authorized (spaceID actionName : string) (actionFunc : ActionFunc)
    (body : gmap string any) : M unit :=
has ← credentials.HasCredentials spaceID;
if negb has then respond (notConfiguredBody actionName spaceID)
else
  r ← credentials.GetCredentials spaceID;
  match r with
  | inl err => respond (credentialsErrorBody err)
  | inr creds =>
      result ← actionFunc creds body;
      let '(response, err) := sonic_Marshal (VMap result) in
      match err with
      | Some _ => respond internalErrorBody
      | None => emit (EvRespond response)
      end
  end.

Definition handleActionWithCredentialsCheckSync (msg : Msg) (actionName : string)
    (actionFunc : ActionFunc) : M unit :=
let spaceID := Router.extractSpaceIdFromSubject (Subject msg) in
if (0 <? String.length (Data msg))%nat then
  let '(requestData, err) := sonic_Unmarshal_request (Data msg) in
  match err with
  | Some _ => respond invalidRequestBody
  | None =>
      match Body requestData with
      | Some body => authorized spaceID actionName actionFunc body
      | None => authorized spaceID actionName actionFunc ∅
      end
  end
else authorized spaceID actionName actionFunc ∅.

Definition CreateIssueHandler (msg : Msg) : M unit :=
handleActionWithCredentialsCheckSync msg "issues.create" issues.CreateIssueAction.

Definition DeleteIssueHandler (msg : Msg) : M unit :=
handleActionWithCredentialsCheckSync msg "issues.delete" issues.DeleteIssueAction.

Definition AddCommentHandler (msg : Msg) : M unit :=
handleActionWithCredentialsCheckSync msg "issues.comment" issues.AddCommentAction.

End Dispatch.
End Direct.

Module Handshake.
Section Dispatch.
Context {json : JSON} {env : Env}.

(** Modelled from the spec: the SDK ([go-plugin-sdk]) is not part of the
    sources. [sdkv2.RejectWithBody] replies to the message with an error
    mapping; [plugin.StoreEntityIdForJob] records the "job-handle to tenant
    association"; [plugin.Done] publishes "a completion event keyed by the
    job handle carrying the final result mapping". *)
Definition sdk_RejectWithBody (body : gmap string any) : M unit :=
emit (EvReject body).

Definition sdk_StoreEntityIdForJob (jobID spaceID : string) : M unit :=
modify (fun w =>
  {| credsFile := credsFile w; writeErr := writeErr w;
     jobs := <[jobID := spaceID]> (jobs w); drawn := drawn w |}).

Definition sdk_Done (jobID : string) (result : gmap string any) : M unit :=
emit (EvDone jobID result).

(** [uuid.New().String()]. *)
Definition uuid_draw : M string :=
fun w =>
  (uuid_New (drawn w), [],
   {| credsFile := credsFile w; writeErr := writeErr w;
      jobs := jobs w; drawn := S (drawn w) |}).

Definition invalidRequestBody : gmap string any :=
{[ "error" := VString "invalid_request";
   "message" := VString "Failed to parse request" ]}.

Definition initResponse (jobID : string) : gmap string any :=
{[ "jobId" := VString jobID; "progress" := VInt 0 ]}.

(** The helper from its credentials check on, for the decoded [body]. *)
Definition authorized (spaceID actionName : string) (actionFunc : ActionFunc)
    (body : gmap string any) : M unit :=
has ← credentials.HasCredentials spaceID;
if negb has then sdk_RejectWithBody (notConfiguredBody actionName spaceID)
else
  r ← credentials.GetCredentials spaceID;
  match r with
  | inl err => sdk_RejectWithBody (credentialsErrorBody err)
  | inr creds =>
      jobID ← uuid_draw;
      (if sdk_hasPlugin then sdk_StoreEntityIdForJob jobID spaceID else mret tt);;
      let '(response, err) := sonic_Marshal (VMap (initResponse jobID)) in
      match err with
      | Some _ => sdk_RejectWithBody internalErrorBody
      | None =>
          emit (EvRespond response);;
          emit (EvSleep 1);;
          result ← actionFunc creds body;
          if sdk_hasPlugin then sdk_Done jobID result else mret tt
      end
  end.

Definition handleActionWithCredentialsCheckSync (msg : Msg) (actionName : string)
    (actionFunc : ActionFunc) : M unit :=
let spaceID := Router.extractSpaceIdFromSubject (Subject msg) in
if (0 <? String.length (Data msg))%nat then
  let '(requestData, err) := sonic_Unmarshal_request (Data msg) in
  match err with
  | Some _ => sdk_RejectWithBody invalidRequestBody
  | None =>
      match Body requestData with
      | Some body => authorized spaceID actionName actionFunc body
      | None => authorized spaceID actionName actionFunc ∅
      end
  end
else authorized spaceID actionName actionFunc ∅.

Definition CreateIssueHandler (msg : Msg) : M unit :=
handleActionWithCredentialsCheckSync msg "issues.create" issues.CreateIssueAction.

Definition DeleteIssueHandler (msg : Msg) : M unit :=
handleActionWithCredentialsCheckSync msg "issues.delete" issues.DeleteIssueAction.

Definition AddCommentHandler (msg : Msg) : M unit :=
handleActionWithCredentialsCheckSync msg "issues.comment" issues.AddCommentAction.

End Dispatch.
End Handshake.

(** ** A reference implementation of the JSON codecs

    Modelled on RFC 8259 and on how [encoding/json] and [sonic] fill Go
    values: a missing or [null] member leaves the zero value, a member of the
    wrong JSON type is an error, unknown members are skipped. It is what
    the concrete runs further down execute; no general statement depends on
    it. *)

Module Reference.

Definition quote : ascii := "034"%char.

(** Write JSON text with ['] for the double quote. *)
Fixpoint dq (s : string) : string :=
match s with
| EmptyString => EmptyString
| String c s' => String (if Ascii.eqb c "'"%char then quote else c) (dq s')
end.

Definition is_ws (c : ascii) : bool :=
let n := nat_of_ascii c in
(n =? 32)%nat || (n =? 9)%nat || (n =? 10)%nat || (n =? 13)%nat.

Fixpoint skip_ws (s : string) : string :=
match s with
| String c s' => if is_ws c then skip_ws s' else s
| EmptyString => EmptyString
end.

Definition hex_digit (c : ascii) : option N :=
let n := N_of_ascii c in
if (48 <=? n)%N && (n <=? 57)%N then Some (n - 48)%N
else if (97 <=? n)%N && (n <=? 102)%N then Some (n - 87)%N
else if (65 <=? n)%N && (n <=? 70)%N then Some (n - 55)%N
else None.

(** UTF-8 of a code point of the basic plane; surrogates are left out. *)
Definition utf8 (cp : N) : option string :=
if (cp <? 128)%N then Some (String (ascii_of_N cp) EmptyString)
else if (cp <? 2048)%N then
  Some (String (ascii_of_N (192 + cp / 64))
       (String (ascii_of_N (128 + cp mod 64)) EmptyString))
else if (55296 <=? cp)%N && (cp <=? 57343)%N then None
else
  Some (String (ascii_of_N (224 + cp / 4096))
       (String (ascii_of_N (128 + (cp / 64) mod 64))
       (String (ascii_of_N (128 + cp mod 64)) EmptyString))).

Definition unescape (c : ascii) : option ascii :=
if Ascii.eqb c quote then Some quote
else if Ascii.eqb c "\"%char then Some "\"%char
else if Ascii.eqb c "/"%char then Some "/"%char
else if Ascii.eqb c "b"%char then Some "008"%char
else if Ascii.eqb c "f"%char then Some "012"%char
else if Ascii.eqb c "n"%char then Some "010"%char
else if Ascii.eqb c "r"%char then Some "013"%char
else if Ascii.eqb c "t"%char then Some "009"%char
else None.

(** The rest of a string literal, after its opening quote. *)
Fixpoint parse_string (s : string) : option (string * string) :=
match s with
| EmptyString => None
| String c r =>
    if Ascii.eqb c quote then Some (EmptyString, r)
    else if Ascii.eqb c "\"%char then
      match r with
      | String e r' =>
          if Ascii.eqb e "u"%char then
            match r' with
            | String h1 (String h2 (String h3 (String h4 r''))) =>
                match hex_digit h1, hex_digit h2, hex_digit h3, hex_digit h4 with
                | Some d1, Some d2, Some d3, Some d4 =>
                    match utf8 (((d1 * 16 + d2) * 16 + d3) * 16 + d4)%N, parse_string r'' with
                    | Some u, Some (t, rest) => Some (u ++ t, rest)
                    | _, _ => None
                    end
                | _, _, _, _ => None
                end
            | _ => None
            end
          else
            match unescape e, parse_string r' with
            | Some ch, Some (t, rest) => Some (String ch t, rest)
            | _, _ => None
            end
      | EmptyString => None
      end
    else if (nat_of_ascii c <? 32)%nat then None
    else
      match parse_string r with
      | Some (t, rest) => Some (String c t, rest)
      | None => None
      end
end.

Definition is_digit (c : ascii) : bool :=
let n := nat_of_ascii c in (48 <=? n)%nat && (n <=? 57)%nat.

Fixpoint digits (s : string) : string * string :=
match s with
| String c r => if is_digit c then let '(d, rest) := digits r in (String c d, rest)
                else (EmptyString, s)
| EmptyString => (EmptyString, EmptyString)
end.

(** A number literal: sign, digits, fraction, exponent. *)
Definition parse_number (s : string) : option (string * string) :=
let '(sign, s1) :=
  match s with
  | String c r => if Ascii.eqb c "-"%char then ("-", r) else (EmptyString, s)
  | EmptyString => (EmptyString, s)
  end in
let '(int, s2) := digits s1 in
if String.eqb int EmptyString then None else
let frac :=
  match s2 with
  | String c r =>
      if Ascii.eqb c "."%char then
        let '(f, s3) := digits r in
        if String.eqb f EmptyString then None else Some ("." ++ f, s3)
      else Some (EmptyString, s2)
  | EmptyString => Some (EmptyString, s2)
  end in
match frac with
| None => None
| Some (frac, s3) =>
    let exp :=
      match s3 with
      | String c r =>
          if Ascii.eqb c "e"%char || Ascii.eqb c "E"%char then
            let '(esign, r1) :=
              match r with
              | String c' r' =>
                  if Ascii.eqb c' "-"%char || Ascii.eqb c' "+"%char
                  then (String c' EmptyString, r') else (EmptyString, r)
              | EmptyString => (EmptyString, r)
              end in
            let '(e, s4) := digits r1 in
            if String.eqb e EmptyString then None
            else Some (String c esign ++ e, s4)
          else Some (EmptyString, s3)
      | EmptyString => Some (EmptyString, s3)
      end in
    match exp with
    | None => None
    | Some (exp, s4) => Some (sign ++ int ++ frac ++ exp, s4)
    end
end.

Definition expect (word s : string) : option string :=
if strings.HasPrefix s word then Some (String.substring (String.length word) (String.length s - String.length word) s)
else None.

Fixpoint parse_value (fuel : nat) (s : string) {struct fuel} : option (any * string) :=
match fuel with
| O => None
| S fuel =>
    match skip_ws s with
    | EmptyString => None
    | String c r =>
        if Ascii.eqb c "{"%char then
          match skip_ws r with
          | String c' r' =>
              if Ascii.eqb c' "}"%char then Some (VMap ∅, r')
              else parse_members fuel (String c' r') ∅
          | EmptyString => None
          end
        else if Ascii.eqb c "["%char then
          match skip_ws r with
          | String c' r' =>
              if Ascii.eqb c' "]"%char then Some (VArray [], r')
              else parse_elems fuel (String c' r') []
          | EmptyString => None
          end
        else if Ascii.eqb c quote then
          match parse_string r with
          | Some (str, rest) => Some (VString str, rest)
          | None => None
          end
        else if Ascii.eqb c "t"%char then
          match expect "true" (String c r) with
          | Some rest => Some (VBool true, rest) | None => None end
        else if Ascii.eqb c "f"%char then
          match expect "false" (String c r) with
          | Some rest => Some (VBool false, rest) | None => None end
        else if Ascii.eqb c "n"%char then
          match expect "null" (String c r) with
          | Some rest => Some (VNil, rest) | None => None end
        else
          match parse_number (String c r) with
          | Some (lit, rest) => Some (VFloat lit, rest)
          | None => None
          end
    end
end
with parse_members (fuel : nat) (s : string) (acc : gmap string any) {struct fuel}
    : option (any * string) :=
match fuel with
| O => None
| S fuel =>
    match skip_ws s with
    | String c r =>
        if Ascii.eqb c quote then
          match parse_string r with
          | Some (key, r1) =>
              match skip_ws r1 with
              | String c1 r2 =>
                  if Ascii.eqb c1 ":"%char then
                    match parse_value fuel r2 with
                    | Some (v, r3) =>
                        match skip_ws r3 with
                        | String c3 r4 =>
                            if Ascii.eqb c3 ","%char then parse_members fuel r4 (<[key := v]> acc)
                            else if Ascii.eqb c3 "}"%char then Some (VMap (<[key := v]> acc), r4)
                            else None
                        | EmptyString => None
                        end
                    | None => None
                    end
                  else None
              | EmptyString => None
              end
          | None => None
          end
        else None
    | EmptyString => None
    end
end
with parse_elems (fuel : nat) (s : string) (acc : list any) {struct fuel}
    : option (any * string) :=
match fuel with
| O => None
| S fuel =>
    match parse_value fuel s with
    | Some (v, r) =>
        match skip_ws r with
        | String c r' =>
            if Ascii.eqb c ","%char then parse_elems fuel r' (acc ++ [v])%list
            else if Ascii.eqb c "]"%char then Some (VArray (acc ++ [v])%list, r')
            else None
        | EmptyString => None
        end
    | None => None
    end
end.

(** A whole document: one value and nothing but white space after it. *)
Definition parse (s : string) : option any :=
match parse_value (2 * String.length s + 2) s with
| Some (v, rest) => if String.eqb (skip_ws rest) EmptyString then Some v else None
| None => None
end.



(** *** Printing *)

Definition hex_char (n : N) : ascii :=
if (n <? 10)%N then ascii_of_N (48 + n) else ascii_of_N (87 + n).

Definition escape_u (c : ascii) : string :=
let n := N_of_ascii c in
"\u00" ++ String (hex_char (n / 16)) (String (hex_char (n mod 16)) EmptyString).

(** One byte of a string literal below [0x80]; [html] is
    [encoding/json]'s escaping of [<], [>] and [&]. *)
Definition escape_char (html : bool) (c : ascii) : string :=
if Ascii.eqb c quote then String "\"%char (String quote EmptyString)
else if Ascii.eqb c "\"%char then "\\"
else if Ascii.eqb c "010"%char then "\n"
else if Ascii.eqb c "013"%char then "\r"
else if Ascii.eqb c "009"%char then "\t"
else if (N_of_ascii c <? 32)%N then escape_u c
else if html && (Ascii.eqb c "<"%char || Ascii.eqb c ">"%char || Ascii.eqb c "&"%char)
then escape_u c
else String c EmptyString.

Fixpoint escape (html : bool) (s : string) : string :=
match s with
| EmptyString => EmptyString
| String c s' => escape_char html c ++ escape html s'
end.

(** UTF-8 as [encoding/json] checks it. [rune_width s] is the length of
    the UTF-8 sequence that starts [s], and [0] when the first byte starts
    none ([utf8.DecodeRuneInString] answers [RuneError] with width 1): a
    stray continuation byte, an overlong form, a surrogate, a code point
    above U+10FFFF or a sequence cut short. *)
Definition byte_in (lo hi : N) (c : ascii) : bool :=
(lo <=? N_of_ascii c)%N && (N_of_ascii c <=? hi)%N.

Definition rune_width (s : string) : nat :=
match s with
| EmptyString => 0
| String b0 r =>
    if byte_in 0 127 b0 then 1
    else if byte_in 194 223 b0 then
      match r with
      | String b1 _ => if byte_in 128 191 b1 then 2 else 0
      | EmptyString => 0
      end
    else if byte_in 224 239 b0 then
      match r with
      | String b1 (String b2 _) =>
          if byte_in (if byte_in 224 224 b0 then 160 else 128)
                     (if byte_in 237 237 b0 then 159 else 191) b1
             && byte_in 128 191 b2
          then 3 else 0
      | _ => 0
      end
    else if byte_in 240 244 b0 then
      match r with
      | String b1 (String b2 (String b3 _)) =>
          if byte_in (if byte_in 240 240 b0 then 144 else 128)
                     (if byte_in 244 244 b0 then 143 else 191) b1
             && byte_in 128 191 b2 && byte_in 128 191 b3
          then 4 else 0
      | _ => 0
      end
    else 0
end.

(** U+FFFD, the replacement character, in UTF-8. *)
Definition replacement : string :=
String "239"%char (String "191"%char (String "189"%char EmptyString)).

(** A string with every byte that belongs to no UTF-8 sequence replaced
    by U+FFFD: what [encoding/json] makes of a string literal it reads.
    [pending] bytes of a checked sequence are still to copy. *)
Fixpoint coerce_from (pending : nat) (s : string) : string :=
match s with
| EmptyString => EmptyString
| String c s' =>
    match pending with
    | S p => String c (coerce_from p s')
    | O =>
        match rune_width s with
        | O => replacement ++ coerce_from 0 s'
        | S p => String c (coerce_from p s')
        end
    end
end.

Definition coerce (s : string) : string := coerce_from 0 s.

(** U+2028 and U+2029, which [encoding/json] writes as escapes: the last
    digit of the escape. *)
Definition line_separator (s : string) : option ascii :=
match s with
| String b0 (String b1 (String b2 _)) =>
    if byte_in 226 226 b0 && byte_in 128 128 b1 then
      if byte_in 168 168 b2 then Some "8"%char
      else if byte_in 169 169 b2 then Some "9"%char
      else None
    else None
| _ => None
end.

(** The inside of a string literal as [encoding/json] writes it: a byte
    that belongs to no UTF-8 sequence becomes the escape of U+FFFD, the
    rest is written as it is, but for the escapes of [escape_char] and of
    the two line separators. [copy] bytes of a checked sequence are still
    to copy, [drop] bytes of an escaped one to skip. *)
Fixpoint escape_std (copy drop : nat) (s : string) : string :=
match s with
| EmptyString => EmptyString
| String c s' =>
    match drop, copy with
    | S d, _ => escape_std copy d s'
    | O, S p => String c (escape_std p 0 s')
    | O, O =>
        match rune_width s with
        | 0 => "\ufffd" ++ escape_std 0 0 s'
        | 1 => escape_char true c ++ escape_std 0 0 s'
        | S (S p) =>
            match line_separator s with
            | Some d => "\u202" ++ String d (escape_std 0 2 s')
            | None => String c (escape_std (S p) 0 s')
            end
        end
    end
end.

(** A string literal: [std] is [encoding/json]'s writing; without it the
    bytes are written as [sonic] writes them, unchecked. *)
Definition print_string (std : bool) (s : string) : string :=
String quote (if std then escape_std 0 0 s else escape false s) ++ String quote EmptyString.

(** Compact text of a value, as [sonic.Marshal] writes it (members in the
    order of [map_to_list]). *)
Fixpoint print (v : any) : string :=
match v with
| VNil => "null"
| VBool true => "true"
| VBool false => "false"
| VInt z => itoa z
| VFloat lit => lit
| VString s => print_string false s
| VArray l => "[" ++ strings.Join (map print l) "," ++ "]"
| VMap m =>
    "{" ++ strings.Join
             (map (fun kv => print_string false kv.1 ++ ":" ++ kv.2)
                  (map_to_list (print <$> m))) ","
        ++ "}"
end.

Definition key_le (a b : string * JiraCredentials) : Prop :=
String.leb a.1 b.1 = true.

#[local] Instance key_le_dec a b : Decision (key_le a b) :=
decide (String.leb a.1 b.1 = true).

Definition newline : string := String "010"%char EmptyString.

Definition print_creds (creds : JiraCredentials) : string :=
"{" ++ newline
++ "    " ++ print_string true "instanceUrl" ++ ": " ++ print_string true (InstanceURL creds) ++ "," ++ newline
++ "    " ++ print_string true "email" ++ ": " ++ print_string true (Email creds) ++ "," ++ newline
++ "    " ++ print_string true "apiToken" ++ ": " ++ print_string true (APIToken creds) ++ newline
++ "  }".

(** [json.MarshalIndent(allCreds, "", "  ")]: keys in byte order. *)
Definition print_collection (allCreds : gmap string JiraCredentials) : string :=
match merge_sort key_le (map_to_list allCreds) with
| [] => "{}"
| entries =>
    "{" ++ newline
    ++ strings.Join
         (map (fun kv => "  " ++ print_string true kv.1 ++ ": " ++ print_creds kv.2) entries)
         ("," ++ newline)
    ++ newline ++ "}"
end.

(** *** Filling Go values from a parsed document *)

Definition type_error : option error :=
Some (LibError "json: cannot unmarshal value into Go value").

Definition syntax_error : option error :=
Some (LibError "json: invalid character or unexpected end of input").

(** A string member of a struct: the zero value when missing or [null]. *)
Definition string_member (o : gmap string any) (key : string) : option string :=
match o !! key with
| None | Some VNil => Some EmptyString
| Some (VString s) => Some s
| Some _ => None
end.

Definition map_traverse {A B} (f : A → option B) (m : gmap string A) : option (gmap string B) :=
map_fold (fun k a acc =>
            match acc, f a with
            | Some acc, Some b => Some (<[k := b]> acc)
            | _, _ => None
            end) (Some ∅) m.

Definition to_string (v : any) : option string :=
match v with VString s => Some s | VNil => Some EmptyString | _ => None end.

Definition to_map (v : any) : option (gmap string any) :=
match v with VMap m => Some m | VNil => Some ∅ | _ => None end.

(** The struct [JiraCredentials]; [encoding/json] reads a string with its
    invalid bytes replaced by U+FFFD. *)
Definition to_creds (v : any) : option JiraCredentials :=
match v with
| VNil => Some {| InstanceURL := EmptyString; Email := EmptyString; APIToken := EmptyString |}
| VMap o =>
    match string_member o "instanceUrl", string_member o "email", string_member o "apiToken" with
    | Some u, Some e, Some t =>
        Some {| InstanceURL := coerce u; Email := coerce e; APIToken := coerce t |}
    | _, _, _ => None
    end
| _ => None
end.

(** The keys of a map read by [encoding/json], coerced like every string;
    of two keys that coerce to one text, one entry stays. *)
Definition coerce_keys {A} (m : gmap string A) : gmap string A :=
map_fold (fun k a acc => <[coerce k := a]> acc) ∅ m.

Definition unmarshal_collection (data : string)
    : result (option (gmap string JiraCredentials)) :=
match parse data with
| None => (None, syntax_error)
| Some VNil => (None, None)
| Some (VMap o) =>
    match map_traverse to_creds o with
    | Some m => (Some (coerce_keys m), None)
    | None => (None, type_error)
    end
| Some _ => (None, type_error)
end.

Definition unmarshal_request (data : string) : result ActionRequestContent :=
match parse data with
| None => ({| Body := None |}, syntax_error)
| Some VNil => ({| Body := None |}, None)
| Some (VMap o) =>
    match o !! "body" with
    | None | Some VNil => ({| Body := None |}, None)
    | Some (VMap body) => ({| Body := Some body |}, None)
    | Some _ => ({| Body := None |}, type_error)
    end
| Some _ => ({| Body := None |}, type_error)
end.

Definition unmarshal_jiraError (data : string) : result jiraError :=
let zero := {| ErrorMessages := []; Errors := None |} in
match parse data with
| None => (zero, syntax_error)
| Some VNil => (zero, None)
| Some (VMap o) =>
    let messages :=
      match o !! "errorMessages" with
      | None | Some VNil => Some []
      | Some (VArray l) => mapM to_string l
      | Some _ => None
      end in
    let errors :=
      match o !! "errors" with
      | None | Some VNil => Some None
      | Some (VMap m) => Some <$> map_traverse to_string m
      | Some _ => None
      end in
    match messages, errors with
    | Some messages, Some errors => ({| ErrorMessages := messages; Errors := errors |}, None)
    | _, _ => (zero, type_error)
    end
| Some _ => (zero, type_error)
end.

Definition unmarshal_map (data : string) : result (option (gmap string any)) :=
match parse data with
| None => (None, syntax_error)
| Some VNil => (None, None)
| Some (VMap o) => (Some o, None)
| Some _ => (None, type_error)
end.

Definition unmarshal_maps (data : string) : result (list (gmap string any)) :=
match parse data with
| None => ([], syntax_error)
| Some VNil => ([], None)
| Some (VArray l) =>
    match mapM to_map l with
    | Some maps => (maps, None)
    | None => ([], type_error)
    end
| Some _ => ([], type_error)
end.

#[global] Instance codec : JSON := {
  json_MarshalIndent allCreds := (print_collection allCreds, None);
  json_Unmarshal := unmarshal_collection;
  sonic_Marshal v := (print v, None);
  sonic_Unmarshal_request := unmarshal_request;
  sonic_Unmarshal_jiraError := unmarshal_jiraError;
  sonic_Unmarshal_map := unmarshal_map;
  sonic_Unmarshal_maps := unmarshal_maps;
}.

End Reference.

(** ** Concrete worlds for the runs below *)

(** A Jira that refuses every request with the spec's sample error. *)
Definition sampleErrorBody : string :=
Reference.dq "{'errorMessages':['bad'],'errors':{'summary':'required'}}".

Definition jobName (n : nat) : string := "job-" ++ itoa (Z.of_nat n).

Definition refusingJira : Env := {|
  http_NewRequest _ _ := None;
  http_Do _ := ({| StatusCode := 400; RespBody := sampleErrorBody; ReadErr := None |}, None);
  uuid_New := jobName;
  sdk_hasPlugin := true;
|}.

(** A Jira that creates whatever it is asked to. *)
Definition acceptingJira : Env := {|
  http_NewRequest _ _ := None;
  http_Do _ :=
    ({| StatusCode := 201; RespBody := Reference.dq "{'id':'10001','key':'P-1'}";
        ReadErr := None |}, None);
  uuid_New := jobName;
  sdk_hasPlugin := true;
|}.

(** A process without an SDK plugin instance. *)
Definition noPlugin : Env := {|
  http_NewRequest _ _ := None;
  http_Do _ :=
    ({| StatusCode := 201; RespBody := Reference.dq "{'id':'10001','key':'P-1'}";
        ReadErr := None |}, None);
  uuid_New := jobName;
  sdk_hasPlugin := false;
|}.

(** A fresh installation: no credentials file, a writable directory. *)
Definition freshWorld : World :=
{| credsFile := NoFile; writeErr := None; jobs := ∅; drawn := 0 |}.

Definition sampleCreds : JiraCredentials :=
{| InstanceURL := "https://x.atlassian.net"; Email := "a@b.com"; APIToken := "tok" |}.

(** The world after space [S1] was onboarded with [sampleCreds]. *)
Definition onboardedWorld : World :=
{| credsFile := Contents (Reference.print_collection {[ "S1" := sampleCreds ]});
   writeErr := None; jobs := ∅; drawn := 0 |}.

(** ** Notions the statements use *)

Section Notions.
Context {json : JSON}.

(** The collection a save starts from: what the file decodes to, the empty
    collection when the file is missing or holds [null]. *)
Definition stored_before (w : World) : gmap string JiraCredentials :=
or_empty (value_of (credentials.loadAllCredentials w)).1.

(** The codec reads back what it has written for the collection [m]:
    [json.Unmarshal] inverts [json.MarshalIndent] there. *)
Definition decodes_back (m : gmap string JiraCredentials) : Prop :=
∀ data, json_MarshalIndent m = (data, None) → json_Unmarshal data = (Some m, None).

(** [saved_by w m]: the world [w] is a fresh installation, or comes from
    one by successful saves whose files decode back, and [m] holds what
    these saves stored, by key. *)
Inductive saved_by : World → gmap string JiraCredentials → Prop :=
| saved_fresh w :
    credsFile w = NoFile → saved_by w ∅
| saved_step w m spaceID creds t w' :
    saved_by w m →
    credentials.SaveCredentials spaceID creds w = (None, t, w') →
    decodes_back (<[credentials.spaceKey spaceID := creds]> m) →
    saved_by w' (<[credentials.spaceKey spaceID := creds]> m).

End Notions.

Section RequestNotions.
Context {json : JSON} {env : Env}.

(** The [fields] object and the request [CreateIssueHandler]'s function
    sends for a body, and the same for [AddCommentHandler]. *)
Definition createRequestFields (body : gmap string any) : gmap string any :=
client.issueFields
  (issues.stringField body "projectKey") (issues.stringField body "issueType")
  (issues.stringField body "summary") (issues.stringField body "description")
  (Some (issues.mergeOtherFields issues.createKnownFields body
           (issues.objectField body "additionalFields"))).

Definition createRequest (creds : JiraCredentials) (bodyBytes : string) : Request :=
client.requestOf (client.NewJiraClient creds) "POST" "/rest/api/2/issue" (Some bodyBytes).

Definition commentRequestBody (body : gmap string any) : gmap string any :=
client.commentBodyOf
  (issues.stringField body "commentBody") (issues.objectField body "visibility")
  (Some (issues.mergeOtherFields issues.commentKnownFields body
           (issues.objectField body "additionalFields"))).

Definition commentRequest (creds : JiraCredentials) (body : gmap string any)
    (bodyBytes : string) : Request :=
client.requestOf (client.NewJiraClient creds) "POST"
  ("/rest/api/2/issue/" ++ issues.stringField body "issueKey" ++ "/comment")
  (Some bodyBytes).

End RequestNotions.

(** A required field of a body: [given] when the body holds a non-empty
    string under the key, [missing] otherwise (no entry, an entry that is
    no string, or the empty string). *)
Definition given (body : gmap string any) (key : string) : Prop :=
∃ s, body !! key = Some (VString s) ∧ s ≠ "".

Definition missing (body : gmap string any) (key : string) : Prop :=
∀ s, body !! key = Some (VString s) → s = "".

(** The headers [makeRequest] sets for a token. *)
Definition jiraHeaders (token : string) : list (string * string) :=
[("Authorization", "Bearer " ++ token);
 ("Content-Type", "application/json");
 ("Accept", "application/json")].

(** The run of [SaveCredentials] from its serialisation on: the result of
    [json.MarshalIndent], then the write. *)
Definition store_run (w : World) (marshalled : result string)
    : option error * list Event * World :=
match marshalled with
| (_, Some err) => (Some (Errorf_w "failed to marshal credentials: " err), [], w)
| (data, None) =>
    match writeErr w with
    | None =>
        (None, [],
         {| credsFile := Contents data; writeErr := writeErr w;
            jobs := jobs w; drawn := drawn w |})
    | Some (OpenFails err) =>
        (Some (Errorf_w "failed to write credentials file: " err), [], w)
    | Some (WriteFails err written) =>
        (Some (Errorf_w "failed to write credentials file: " err), [],
         {| credsFile := Contents (String.substring 0 written data); writeErr := writeErr w;
            jobs := jobs w; drawn := drawn w |})
    end
end.

(** The world a write leaves when it fails after the open: the file holds
    the first [written] bytes of [data]. *)
Definition cut_short (w : World) (data : string) (written : nat) : World :=
{| credsFile := Contents (String.substring 0 written data); writeErr := writeErr w;
   jobs := jobs w; drawn := drawn w |}.

(** A byte that starts no UTF-8 sequence, a bundle whose token ends in
    it, and the bundle with U+FFFD in its place. *)
Definition strayByte : string := String "255"%char EmptyString.

Definition brokenCreds : JiraCredentials :=
{| InstanceURL := "https://x.atlassian.net"; Email := "a@b.com";
   APIToken := "tok" ++ strayByte |}.

Definition coercedCreds : JiraCredentials :=
{| InstanceURL := "https://x.atlassian.net"; Email := "a@b.com";
   APIToken := "tok" ++ Reference.replacement |}.

(** A disk that fills up while the credentials file is written: the open
    has truncated the file, ten bytes arrive. *)
Definition fullDiskWorld : World :=
{| credsFile := Contents (Reference.print_collection {[ "S1" := sampleCreds ]});
   writeErr := Some (WriteFails (LibError "write jira_credentials.json: no space left on device") 10);
   jobs := ∅; drawn := 0 |}.

(** Request bodies for the runs below. *)
Definition bodyWithoutKeyAndSummary : gmap string any :=
{[ "issueType" := VString "Task" ]}.

Definition bodyWithoutSummary : gmap string any :=
{[ "projectKey" := VString "P"; "issueType" := VString "Task" ]}.

Definition bodyWithDueDate : gmap string any :=
{[ "projectKey" := VString "P"; "issueType" := VString "Task";
   "summary" := VString "s"; "duedate" := VString "2024-12-31" ]}.

Definition commentWithExtra : gmap string any :=
{[ "issueKey" := VString "COM-69"; "commentBody" := VString "This is a comment";
   "properties" := VArray [] ]}.

Section DispatchNotions.
Context {json : JSON} {env : Env}.

(** The payload is empty or decodes as a request envelope. *)
Definition payload_decodes (msg : Msg) : Prop :=
String.length (Data msg) = 0 ∨ (sonic_Unmarshal_request (Data msg)).2 = None.

(** The body mapping the dispatch helper passes on for such a payload. *)
Definition decoded_body (msg : Msg) : gmap string any :=
if (0 <? String.length (Data msg))%nat
then or_empty (Body (sonic_Unmarshal_request (Data msg)).1)
else ∅.

(** The world once the handshake has drawn its job id and recorded the
    job's space. *)
Definition job_recorded (w : World) (jobID spaceID : string) : World :=
{| credsFile := credsFile w; writeErr := writeErr w;
   jobs := <[jobID := spaceID]> (jobs w); drawn := S (drawn w) |}.

End DispatchNotions.

(** Messages for the runs below. *)
Definition createTopic (spaceID : string) : string :=
"soren.cpu.bin." ++ spaceID ++ ".5b37cdee-0fe9-4d1b-407e-b4b44cf05f30.issues.create".

Definition brokenMsg : Msg :=
{| Subject := createTopic "S9"; Data := "{" |}.

Definition emptyMsg : Msg :=
{| Subject := createTopic "S9"; Data := "" |}.

Definition createMsg : Msg :=
{| Subject := createTopic "S1";
   Data := Reference.dq "{'body':{'projectKey':'P','issueType':'Task','summary':'s'}}" |}.

(** The business function of [issues.create] against the accepting Jira. *)
Definition createAction : ActionFunc :=
issues.CreateIssueAction (json := Reference.codec) (env := acceptingJira).

(** ** Onboarding and the intro responder ([handlers.go], [plugin.go])

    The onboarding handler serialises its replies with [encoding/json];
    that encoder is one more interface. *)

Class StdJSON : Type := {
  json_Marshal : any → result string;
}.

(** Modelled from the spec: the SDK's [models.PluginIntro] is not part of
    the sources; these are the fields [plugin.go] sets or reads, the
    requirements form kept as one value. *)
Record PluginIntro : Type := mkIntro {
  IntroName : string;
  IntroVersion : string;
  IntroAuthor : string;
  IntroSummary : string;
  IconBase64 : string;
  Requirements : any;
  Meta : option (gmap string any);
}.

Module main.
Section Handlers.
Context {json : JSON} {std : StdJSON}.

(** [getStringValue]: the value under [key] when it is a string, [""]
    otherwise; a nil map holds nothing. *)
Definition getStringValue (m : option (gmap string any)) (key : string) : string :=
match or_empty m !! key with
| Some val =>
    match assert_string val with
    | (str, true) => str
    | (_, false) => ""
    end
| None => ""
end.

(** [msg.Respond(response)] with [response, _ := json.Marshal(body)]. *)
Definition respond (body : gmap string any) : M unit :=
emit (EvRespond (json_Marshal (VMap body)).1).

Definition errorReply (text : string) : gmap string any :=
{[ "status" := VString "error"; "error" := VString text ]}.

Definition acceptedReply : gmap string any :=
{[ "status" := VString "accepted";
   "message" := VString "Credentials saved successfully" ]}.

Definition onboardingHandler (msg : Msg) : M unit :=
let spaceID := Router.extractSpaceIdFromSubject (Subject msg) in
let '(onboardingData, err) := sonic_Unmarshal_map (Data msg) in
match err with
| Some _ => respond (errorReply "Invalid request data")
| None =>
    let creds :=
      {| InstanceURL := getStringValue onboardingData "instanceUrl";
         Email := getStringValue onboardingData "email";
         APIToken := getStringValue onboardingData "apiToken" |} in
    if String.eqb (InstanceURL creds) "" || String.eqb (Email creds) ""
       || String.eqb (APIToken creds) ""
    then respond (errorReply
                    "Missing required fields: instanceUrl, email, and apiToken are required")
    else
      err ← credentials.SaveCredentials spaceID creds;
      match err with
      | Some err => respond (errorReply ("Failed to save credentials: " ++ Error err))
      | None => respond acceptedReply
      end
end.

(** The closure [main] passes to [plugin.SetIntroResponder], on the
    plugin's intro: a fresh [meta] map takes the intro's entries, then the
    two entries of the space. *)
Definition introResponder (intro : PluginIntro) (msg : Msg) : M PluginIntro :=
let spaceID := Router.extractSpaceIdFromSubject (Subject msg) in
hasCreds ← credentials.HasCredentials spaceID;
let meta : gmap string any :=
  map_fold (fun key value meta => <[key := value]> meta) ∅ (or_empty (Meta intro)) in
let meta := <["credentialsConfigured" := VBool hasCreds]> meta in
let meta := <["spaceId" := VString spaceID]> meta in
mret {| IntroName := IntroName intro; IntroVersion := IntroVersion intro;
        IntroAuthor := IntroAuthor intro; IntroSummary := IntroSummary intro;
        IconBase64 := IconBase64 intro; Requirements := Requirements intro;
        Meta := Some meta |}.

End Handlers.
End main.

(** [encoding/json]'s compact text of a value: members in byte order of
    their keys, [<], [>] and [&] escaped. *)
Module ReferenceStd.

Definition member_le (a b : string * string) : Prop :=
String.leb a.1 b.1 = true.

#[local] Instance member_le_dec a b : Decision (member_le a b) :=
decide (String.leb a.1 b.1 = true).

Fixpoint print (v : any) : string :=
match v with
| VNil => "null"
| VBool true => "true"
| VBool false => "false"
| VInt z => itoa z
| VFloat lit => lit
| VString s => Reference.print_string true s
| VArray l => "[" ++ strings.Join (map print l) "," ++ "]"
| VMap m =>
    "{" ++ strings.Join
             (map (fun kv => Reference.print_string true kv.1 ++ ":" ++ kv.2)
                  (merge_sort member_le (map_to_list (print <$> m)))) ","
        ++ "}"
end.

#[global] Instance codec : StdJSON := {
  json_Marshal v := (print v, None);
}.

End ReferenceStd.

(** Messages and worlds for the onboarding runs. *)
Definition onboardingTopic (spaceID : string) : string :=
"soren.v2.bin." ++ spaceID ++ ".5b37cdee-0fe9-4d1b-407e-b4b44cf05f30.onboarding".

Definition onboardMsg : Msg :=
{| Subject := onboardingTopic "S1";
   Data := Reference.dq
     "{'instanceUrl':'https://x.atlassian.net','email':'a@b.com','apiToken':'tok'}" |}.

Definition incompleteMsg : Msg :=
{| Subject := onboardingTopic "S1";
   Data := Reference.dq "{'instanceUrl':'https://x.atlassian.net','email':'a@b.com','apiToken':7}" |}.

Definition otherCreds : JiraCredentials :=
{| InstanceURL := "https://y.atlassian.net/"; Email := "c@d.com"; APIToken := "tok2" |}.

(** A store file that holds the JSON document [null]. *)
Definition nullWorld : World :=
{| credsFile := Contents "null"; writeErr := None; jobs := ∅; drawn := 0 |}.

(** A store file that does not decode. *)
Definition corruptWorld : World :=
{| credsFile := Contents "{"; writeErr := None; jobs := ∅; drawn := 0 |}.

Definition sampleIntro : PluginIntro :=
{| IntroName := "Jira Plugin"; IntroVersion := "1.0.0"; IntroAuthor := "Soren Team";
   IntroSummary := "Jira integration for managing projects and issues";
   IconBase64 := ""; Requirements := VNil;
   Meta := Some {[ "tier" := VString "internal" ]} |}.

(** The world after space [S2] was onboarded too. *)
Definition twoTenantsWorld : World :=
world_of (credentials.SaveCredentials (json := Reference.codec) "S2" otherCreds onboardedWorld).

(** ** Notions of the further statements *)

(** A run that leaves the world alone and makes no remote call or one. *)
Definition at_most_one_call {A} (run : A * list Event * World) (w : World) : Prop :=
world_of run = w ∧ (trace_of run = [] ∨ ∃ req, trace_of run = [EvHTTP req]).

(** A value the copying loops of the client and of the handlers take:
    neither [nil] nor the empty string. *)
Definition usable (v : any) : bool :=
negb (is_nil v) && negb (is_empty_string v).

(** The shape of a business function's result: an error kind with its
    message and no [result], or [result: "success"] with a message and no
    [error]. *)
Definition well_shaped (r : gmap string any) : Prop :=
(∃ kind message,
   (kind = "validation_error" ∨ kind = "jira_api_error")
   ∧ r !! "error" = Some (VString kind)
   ∧ r !! "message" = Some (VString message)
   ∧ r !! "result" = None)
∨ (∃ message,
     r !! "result" = Some (VString "success")
     ∧ r !! "message" = Some (VString message)
     ∧ r !! "error" = None).

Section DeleteNotions.
Context {json : JSON} {env : Env}.

(** The flag and the request of [DeleteIssueHandler]'s function for a
    body. *)
Definition deleteSubtasksOf (body : gmap string any) : bool :=
match assert_bool (index body "deleteSubtasks") with
| (ds, true) => ds
| (_, false) => false
end.

Definition deleteRequest (creds : JiraCredentials) (body : gmap string any) : Request :=
client.requestOf (client.NewJiraClient creds) "DELETE"
  (if deleteSubtasksOf body
   then "/rest/api/2/issue/" ++ issues.stringField body "issueKey" ++ "?deleteSubtasks=true"
   else "/rest/api/2/issue/" ++ issues.stringField body "issueKey")
  None.

End DeleteNotions.

(** A Jira that deletes whatever it is asked to: 204, no content. *)
Definition deletingJira : Env := {|
  http_NewRequest _ _ := None;
  http_Do _ := ({| StatusCode := 204; RespBody := ""; ReadErr := None |}, None);
  uuid_New := jobName;
  sdk_hasPlugin := true;
|}.

Definition deleteBody : gmap string any :=
{[ "issueKey" := VString "COM-69"; "deleteSubtasks" := VString "true" ]}.

Definition deleteBodyWithSubtasks : gmap string any :=
{[ "issueKey" := VString "COM-69"; "deleteSubtasks" := VBool true ]}.

(** Does the text end in a slash? *)
Fixpoint trailingSlash (s : string) : bool :=
match s with
| EmptyString => false
| String c EmptyString => Ascii.eqb c "/"
| String _ s' => trailingSlash s'
end.

Section ReplyNotions.
Context {json : JSON}.

(** The bytes the direct revision replies for a business function's
    result: its serialisation, the [internal_error] mapping's when that
    fails. *)
Definition resultReply (result : gmap string any) : string :=
match sonic_Marshal (VMap result) with
| (response, None) => response
| (_, Some _) => (sonic_Marshal (VMap internalErrorBody)).1
end.

End ReplyNotions.

Section OnboardingNotions.
Context {json : JSON}.

(** The credentials an onboarding message submits: the three fields of its
    decoded payload, each [""] unless a string is there. *)
Definition submitted (msg : Msg) : JiraCredentials :=
{| InstanceURL := main.getStringValue (sonic_Unmarshal_map (Data msg)).1 "instanceUrl";
   Email := main.getStringValue (sonic_Unmarshal_map (Data msg)).1 "email";
   APIToken := main.getStringValue (sonic_Unmarshal_map (Data msg)).1 "apiToken" |}.

Definition complete (creds : JiraCredentials) : bool :=
negb (String.eqb (InstanceURL creds) "" || String.eqb (Email creds) ""
      || String.eqb (APIToken creds) "").

End OnboardingNotions.

(** * Properties *)

(** ** Topic router *)

Section RouterFacts.
Import Router.

Lemma Split_segment (e : string) :
  segment e → strings.Split e "."%char = [e].
Proof.
  unfold segment. induction e as [|c e IH]; simpl; [done|].
  destruct (Ascii.eqb c ".") eqn:Hc; simpl; [done|].
  intros He. by rewrite (IH He).
Qed.

Lemma Split_segment_dot (e t : string) :
  segment e → strings.Split (e ++ "." ++ t) "."%char = e :: strings.Split t "."%char.
Proof.
  unfold segment. induction e as [|c e IH]; simpl; [done|].
  destruct (Ascii.eqb c ".") eqn:Hc; simpl; [done|].
  intros He. by rewrite (IH He).
Qed.

Lemma Split_Join (segs : list string) :
  segs ≠ [] → Forall segment segs →
  strings.Split (topic_of segs) "."%char = segs.
Proof.
  unfold topic_of. induction segs as [|e [|e' es] IH]; [done| |].
  - intros _ He. simpl. apply Split_segment. by inversion He.
  - intros _ He. inversion He as [|? ? He1 He2]; subst.
    change (strings.Join (e :: e' :: es) ".") with (e ++ "." ++ strings.Join (e' :: es) ".").
    rewrite Split_segment_dot by done. f_equal. by apply IH.
Qed.

Lemma Split_nonempty (s : string) : strings.Split s "."%char ≠ [].
Proof.
  destruct s as [|c s]; simpl; [done|].
  destruct (Ascii.eqb c "."); [done|]. by destruct (strings.Split s ".").
Qed.

Lemma Join_Split (s : string) :
  strings.Join (strings.Split s "."%char) "." = s.
Proof.
  induction s as [|c s IH]; [done|].
  pose proof (Split_nonempty s) as Hne.
  cbn [strings.Split].
  destruct (Ascii.eqb c ".") eqn:Hc.
  - apply Ascii.eqb_eq in Hc as ->.
    destruct (strings.Split s ".") as [|p ps] eqn:Hs; [done|].
    change (strings.Join ("" :: p :: ps) ".") with ("" ++ "." ++ strings.Join (p :: ps) ".").
    by rewrite IH.
  - destruct (strings.Split s ".") as [|p [|p' ps]] eqn:Hs; [done| |].
    + simpl in *. by rewrite IH.
    + change (strings.Join (String c p :: p' :: ps) ".")
        with (String c (p ++ "." ++ strings.Join (p' :: ps) ".")).
      by rewrite <- IH.
Qed.

Lemma Split_segments (s : string) :
  strings.Split s "."%char ≠ [] ∧ Forall segment (strings.Split s "."%char).
Proof.
  induction s as [|c s [IH1 IH2]]; simpl.
  - split; [done|]. by constructor.
  - destruct (Ascii.eqb c ".") eqn:Hc.
    + split; [done|]. by constructor.
    + destruct (strings.Split s ".") as [|p ps]; [done|].
      split; [done|]. inversion IH2; subst. constructor; [|done].
      unfold segment in *. simpl. by rewrite Hc.
Qed.

Lemma scan_absent (parts rest : list string) (i : nat) :
  "bin" ∉ rest → scan parts i rest = "".
Proof.
  revert i. induction rest as [|p rest IH]; intros i Hn; simpl; [done|].
  apply not_elem_of_cons in Hn as [Hp Hrest].
  destruct (String.eqb_spec p "bin"); [congruence|]. simpl. by apply IH.
Qed.

Lemma scan_found (seen pre tl : list string) (next : string) :
  "bin" ∉ pre →
  scan (seen ++ pre ++ "bin" :: next :: tl) (length seen) (pre ++ "bin" :: next :: tl) = next.
Proof.
  revert seen. induction pre as [|p pre IH]; intros seen Hn.
  - cbn [scan app]. rewrite String.eqb_refl. cbn [andb].
    assert (Hlt : (length seen + 1 <? length (seen ++ "bin" :: next :: tl))%nat = true).
    { apply Nat.ltb_lt. rewrite length_app. simpl. lia. }
    rewrite Hlt.
    replace (seen ++ "bin" :: next :: tl)%list with ((seen ++ ["bin"]) ++ next :: tl)%list
      by by rewrite <- app_assoc.
    replace (length seen + 1)%nat with (length (seen ++ ["bin"])%list)
      by (rewrite length_app; simpl; lia).
    by rewrite nth_middle.
  - apply not_elem_of_cons in Hn as [Hp Hpre]. simpl.
    destruct (String.eqb_spec p "bin"); [congruence|]. simpl.
    specialize (IH (seen ++ [p])%list Hpre).
    rewrite length_app in IH. simpl in IH.
    by rewrite <- app_assoc in IH.
Qed.

Lemma scan_last (seen pre : list string) :
  "bin" ∉ pre →
  scan (seen ++ pre ++ ["bin"]) (length seen) (pre ++ ["bin"]) = "".
Proof.
  revert seen. induction pre as [|p pre IH]; intros seen Hn.
  - cbn [scan app]. rewrite String.eqb_refl. cbn [andb].
    assert (Hlt : (length seen + 1 <? length (seen ++ ["bin"]))%nat = false).
    { apply Nat.ltb_ge. rewrite length_app. simpl. lia. }
    by rewrite Hlt.
  - apply not_elem_of_cons in Hn as [Hp Hpre]. simpl.
    destruct (String.eqb_spec p "bin"); [congruence|]. simpl.
    specialize (IH (seen ++ [p])%list Hpre).
    rewrite length_app in IH. simpl in IH.
    by rewrite <- app_assoc in IH.
Qed.

End RouterFacts.

(** C6. [extractSpaceIdFromSubject] is a total function of the topic. Every
    string is the dot-joined sequence of its segments; on such a topic the
    function returns the segment that follows the first ["bin"] segment,
    and the empty string when no segment is ["bin"] or when the first one is
    the last segment. In particular ["a.bin.T.rest"] gives ["T"], ["a.b.c"]
    gives [""] and ["x.bin"] gives [""]. *)
Theorem extractSpaceIdFromSubject_spec :
  (∀ subject, ∃ segs, segs ≠ [] ∧ Forall Router.segment segs ∧ subject = Router.topic_of segs)
  ∧ (∀ pre next rest,
       Forall Router.segment (pre ++ "bin" :: next :: rest) → "bin" ∉ pre →
       Router.extractSpaceIdFromSubject (Router.topic_of (pre ++ "bin" :: next :: rest)) = next)
  ∧ (∀ segs,
       segs ≠ [] → Forall Router.segment segs → "bin" ∉ segs →
       Router.extractSpaceIdFromSubject (Router.topic_of segs) = "")
  ∧ (∀ pre,
       Forall Router.segment (pre ++ ["bin"]) → "bin" ∉ pre →
       Router.extractSpaceIdFromSubject (Router.topic_of (pre ++ ["bin"])) = "")
  ∧ Router.extractSpaceIdFromSubject "a.bin.T.rest" = "T"
  ∧ Router.extractSpaceIdFromSubject "a.b.c" = ""
  ∧ Router.extractSpaceIdFromSubject "x.bin" = "".
Proof.
  repeat split.
  - intros subject. exists (strings.Split subject "."%char).
    destruct (Split_segments subject) as [Hne Hseg].
    repeat split; [done..|]. unfold Router.topic_of. by rewrite Join_Split.
  - intros pre next rest Hseg Hpre. unfold Router.extractSpaceIdFromSubject.
    rewrite Split_Join by (done || by destruct pre).
    apply (scan_found [] pre rest next Hpre).
  - intros segs Hne Hseg Hn. unfold Router.extractSpaceIdFromSubject.
    rewrite Split_Join by done. by apply scan_absent.
  - intros pre Hseg Hpre. unfold Router.extractSpaceIdFromSubject.
    rewrite Split_Join by (done || by destruct pre).
    apply (scan_last [] pre Hpre).
Qed.

Lemma extractSpaceIdFromSubject_spec_witness :
  Router.extractSpaceIdFromSubject (Router.topic_of (["soren"; "cpu"] ++ "bin" :: "S1" :: ["plugin"; "issues"; "create"])) = "S1"
  ∧ Router.extractSpaceIdFromSubject (Router.topic_of ["soren"; "cpu"; "S1"]) = ""
  ∧ Router.extractSpaceIdFromSubject (Router.topic_of (["soren"; "cpu"] ++ ["bin"])) = "".
Proof.
  destruct extractSpaceIdFromSubject_spec as (_ & Hnext & Habsent & Hlast & _).
  split; [|split].
  - apply Hnext; [by repeat constructor|].
    rewrite !not_elem_of_cons. repeat split; [done..|apply not_elem_of_nil].
  - apply Habsent; [done|by repeat constructor|].
    rewrite !not_elem_of_cons. repeat split; [done..|apply not_elem_of_nil].
  - apply Hlast; [by repeat constructor|].
    rewrite !not_elem_of_cons. repeat split; [done..|apply not_elem_of_nil].
Defined.

(** ** Credential store *)

Ltac unfold_M :=
  unfold os_ReadFile, os_WriteFile, mbind, mret, M_bind, M_ret, emit, gets, modify in *.

(** A computation that is silent and leaves the world alone runs like a
    [let]. *)
Lemma bind_silent {A B} (m : M A) (k : A → M B) (w : World) (a : A) :
  m w = (a, [], w) → (m ≫= k) w = k a w.
Proof.
  intros Hm. unfold mbind, M_bind. rewrite Hm.
  by destruct (k a w) as [[b t] w2].
Qed.

Lemma bind_run {A B} (m : M A) (k : A → M B) (w : World) :
  (m ≫= k) w =
    (value_of (k (value_of (m w)) (world_of (m w))),
     (trace_of (m w) ++ trace_of (k (value_of (m w)) (world_of (m w))))%list,
     world_of (k (value_of (m w)) (world_of (m w)))).
Proof.
  unfold mbind, M_bind, value_of, trace_of, world_of.
  destruct (m w) as [[a t1] w1]. simpl. by destruct (k a w1) as [[b t2] w2].
Qed.

(** What holds of every value of the continuation holds of the value of
    the whole. *)
Lemma bind_value {A B} (P : B → Prop) (m : M A) (k : A → M B) (w : World) :
  (∀ a w', P (value_of (k a w'))) → P (value_of ((m ≫= k) w)).
Proof. intros Hk. rewrite bind_run. apply Hk. Qed.

Section StoreFacts.
Context `{JSON}.
Import credentials.

(** Loading reads the file and changes nothing. *)
Lemma loadAllCredentials_silent (w : World) :
  loadAllCredentials w = (value_of (loadAllCredentials w), [], w).
Proof.
  unfold loadAllCredentials, value_of. unfold_M.
  destruct (credsFile w) as [|e|data]; simpl; try done.
  destruct (json_Unmarshal data) as [allCreds [err|]]; done.
Qed.

Lemma loadAllCredentials_NoFile (w : World) :
  credsFile w = NoFile →
  ∃ err, value_of (loadAllCredentials w) = (None, Some err) ∧ os_IsNotExist (Some err) = true.
Proof.
  intros Hf. unfold loadAllCredentials, value_of. unfold_M. rewrite Hf. simpl. eauto.
Qed.

Lemma loadAllCredentials_Contents (w : World) (data : string) :
  credsFile w = Contents data →
  value_of (loadAllCredentials w) =
    match json_Unmarshal data with
    | (_, Some err) => (None, Some (Errorf_w "failed to unmarshal credentials: " err))
    | (allCreds, None) => (allCreds, None)
    end.
Proof.
  intros Hf. unfold loadAllCredentials, value_of. unfold_M. rewrite Hf. simpl.
  destruct (json_Unmarshal data) as [allCreds [err|]]; done.
Qed.

Lemma GetCredentials_run (w : World) (spaceID : string) :
  GetCredentials spaceID w =
    (match value_of (loadAllCredentials w) with
     | (_, Some err) => inl err
     | (allCreds, None) =>
         match or_empty allCreds !! spaceKey spaceID with
         | None => inl (Errorf_s ("credentials not found for space: " ++ spaceKey spaceID))
         | Some creds => inr creds
         end
     end, [], w).
Proof.
  unfold GetCredentials. rewrite (bind_silent _ _ _ _ (loadAllCredentials_silent w)).
  destruct (value_of (loadAllCredentials w)) as [allCreds [err|]]; [done|].
  destruct (or_empty allCreds !! spaceKey spaceID); done.
Qed.

Lemma HasCredentials_run (w : World) (spaceID : string) :
  HasCredentials spaceID w =
    (match value_of (GetCredentials spaceID w) with inr _ => true | inl _ => false end, [], w).
Proof.
  unfold HasCredentials. rewrite (bind_silent _ _ _ _ (GetCredentials_run w spaceID)).
  by rewrite GetCredentials_run.
Qed.

(** What a successful save leaves on disk. *)
Lemma SaveCredentials_ok (w w' : World) (spaceID : string) (creds : JiraCredentials)
    (t : list Event) :
  SaveCredentials spaceID creds w = (None, t, w') →
  ∃ data,
    json_MarshalIndent (<[spaceKey spaceID := creds]> (stored_before w)) = (data, None)
    ∧ t = []
    ∧ w' = {| credsFile := Contents data; writeErr := writeErr w;
              jobs := jobs w; drawn := drawn w |}.
Proof.
  unfold SaveCredentials, stored_before.
  rewrite (bind_silent _ _ _ _ (loadAllCredentials_silent w)).
  destruct (value_of (loadAllCredentials w)) as [allCreds err] eqn:Hload.
  cbn [fst].
  assert (Hstore :
    (let '(data, err) := json_MarshalIndent (<[spaceKey spaceID := creds]> (or_empty allCreds)) in
     match err with
     | Some err => mret (Some (Errorf_w "failed to marshal credentials: " err))
     | None =>
         err ← os_WriteFile data;
         match err with
         | Some err => mret (Some (Errorf_w "failed to write credentials file: " err))
         | None => mret None
         end
     end) w = (None, t, w') →
    ∃ data, json_MarshalIndent (<[spaceKey spaceID := creds]> (or_empty allCreds)) = (data, None)
      ∧ t = []
      ∧ w' = {| credsFile := Contents data; writeErr := writeErr w;
                jobs := jobs w; drawn := drawn w |}).
  { destruct (json_MarshalIndent _) as [data [e|]]; unfold_M; [done|].
    destruct (writeErr w) as [[e|e n]|]; simpl; [done..|].
    intros [= <- <-]. eauto. }
  destruct err as [e|].
  - destruct (negb (os_IsNotExist (Some e))); [by unfold_M|].
    intros Hs. apply Hstore. destruct allCreds; exact Hs.
  - intros Hs. apply Hstore. destruct allCreds; exact Hs.
Qed.

End StoreFacts.

Section StoreTheorems.
Context `{JSON}.
Import credentials.

Lemma saved_file_loads (w : World) (data : string) (m : gmap string JiraCredentials) :
  credsFile w = Contents data →
  json_MarshalIndent m = (data, None) → decodes_back m →
  value_of (loadAllCredentials w) = (Some m, None).
Proof.
  intros Hf Hm Hback. rewrite (loadAllCredentials_Contents w data Hf).
  by rewrite (Hback data Hm).
Qed.

Lemma GetCredentials_loaded (w : World) (m : gmap string JiraCredentials) (spaceID : string) :
  value_of (loadAllCredentials w) = (Some m, None) →
  GetCredentials spaceID w =
    (match m !! spaceKey spaceID with
     | Some creds => inr creds
     | None => inl (Errorf_s ("credentials not found for space: " ++ spaceKey spaceID))
     end, [], w).
Proof.
  intros Hl. rewrite GetCredentials_run, Hl. simpl.
  by destruct (m !! spaceKey spaceID).
Qed.

Lemma HasCredentials_loaded (w : World) (m : gmap string JiraCredentials) (spaceID : string) :
  value_of (loadAllCredentials w) = (Some m, None) →
  HasCredentials spaceID w = (bool_decide (is_Some (m !! spaceKey spaceID)), [], w).
Proof.
  intros Hl. rewrite HasCredentials_run, (GetCredentials_loaded w m spaceID Hl).
  unfold value_of. simpl. destruct (m !! spaceKey spaceID) as [c|].
  - by rewrite bool_decide_eq_true_2.
  - rewrite bool_decide_eq_false_2; [done|]. by intros [? ?].
Qed.

Lemma HasCredentials_load_error (w : World) (spaceID : string) (err : error) :
  (value_of (loadAllCredentials w)).2 = Some err →
  HasCredentials spaceID w = (false, [], w).
Proof.
  intros Hl. rewrite HasCredentials_run, GetCredentials_run.
  destruct (value_of (loadAllCredentials w)) as [allCreds [e|]]; done.
Qed.

(** The invariant of a store that only saves have touched: the file is
    missing and nothing was saved, or the file decodes to what was saved. *)
Lemma saved_by_inv (w : World) (m : gmap string JiraCredentials) :
  saved_by w m →
  (credsFile w = NoFile ∧ m = ∅) ∨ value_of (loadAllCredentials w) = (Some m, None).
Proof.
  induction 1 as [w Hf | w m spaceID creds t w' Hsaved IH Hsave Hback].
  - by left.
  - right. apply SaveCredentials_ok in Hsave as (data & Hm & _ & ->).
    assert (Hbefore : stored_before w = m).
    { unfold stored_before. destruct IH as [[Hf ->] | ->]; [|done].
      by destruct (loadAllCredentials_NoFile w Hf) as (err & -> & _). }
    rewrite Hbefore in Hm. by eapply saved_file_loads.
Qed.

Lemma HasCredentials_saved_by (w : World) (m : gmap string JiraCredentials) (spaceID : string) :
  saved_by w m →
  HasCredentials spaceID w = (bool_decide (is_Some (m !! spaceKey spaceID)), [], w).
Proof.
  intros Hs. destruct (saved_by_inv w m Hs) as [[Hf ->] | Hl].
  - destruct (loadAllCredentials_NoFile w Hf) as (err & Hl & _).
    rewrite (HasCredentials_load_error w spaceID err) by by rewrite Hl.
    rewrite bool_decide_eq_false_2; [done|]. rewrite lookup_empty. by intros [? ?].
  - by apply HasCredentials_loaded.
Qed.

(** The keys a range over the collection appends. *)
Lemma range_keys {A} (m : gmap string A) :
  let spaces := map_fold (fun spaceID (_ : A) spaces => (spaces ++ [spaceID])%list) [] m in
  NoDup spaces ∧ ∀ k, k ∈ spaces ↔ is_Some (m !! k).
Proof.
  apply (map_fold_weak_ind
           (fun spaces (m : gmap string A) => NoDup spaces ∧ ∀ k, k ∈ spaces ↔ is_Some (m !! k))).
  - split; [constructor|]. intros k. rewrite lookup_empty, elem_of_nil.
    split; [done|]. by intros [? ?].
  - intros i x m' r Hi [Hnd Hel]. split.
    + apply NoDup_app. split; [done|]. split; [|apply NoDup_singleton].
      intros k Hk. rewrite list_elem_of_singleton. intros ->.
      apply Hel in Hk. rewrite Hi in Hk. by destruct Hk.
    + intros k. rewrite elem_of_app, list_elem_of_singleton, Hel.
      destruct (decide (i = k)) as [->|Hne].
      * rewrite lookup_insert_eq. split; [eauto|]. by right.
      * rewrite lookup_insert_ne by done. split; [by intros [?|?]|by left].
Qed.

(** Reading after a successful save whose file decodes back. *)
Lemma GetCredentials_after_save (w w' : World) (T : string) (B : JiraCredentials)
    (t : list Event) :
  SaveCredentials T B w = (None, t, w') →
  decodes_back (<[spaceKey T := B]> (stored_before w)) →
  GetCredentials T w' = (inr B, [], w').
Proof.
  intros Hsave Hback.
  apply SaveCredentials_ok in Hsave as (data & Hm & _ & ->).
  erewrite GetCredentials_loaded; [|by eapply saved_file_loads].
  by rewrite lookup_insert_eq.
Qed.

End StoreTheorems.

(** C3, as the code has it. After a successful [SaveCredentials(T, B)]
    whose file decodes back to the collection that was serialised, the
    next [GetCredentials(T)] returns exactly [B]; this includes [T = ""],
    which both operations store and look up under ["default"]. *)
Theorem save_then_get_roundtrip {json : JSON} (w w' : World) (T : string) (B : JiraCredentials)
    (t : list Event) :
  credentials.SaveCredentials T B w = (None, t, w') →
  decodes_back (<[credentials.spaceKey T := B]> (stored_before w)) →
  credentials.GetCredentials T w' = (inr B, [], w')
  ∧ (T = "" → credentials.spaceKey T = "default"
              ∧ credentials.GetCredentials "default" w' = (inr B, [], w')).
Proof.
  intros Hsave Hback. split.
  - by eapply GetCredentials_after_save.
  - intros ->. split; [done|]. by eapply (GetCredentials_after_save w w' "").
Qed.

Lemma save_then_get_roundtrip_witness :
  credentials.GetCredentials "" (world_of (credentials.SaveCredentials "" sampleCreds freshWorld))
  = (inr sampleCreds, [], world_of (credentials.SaveCredentials "" sampleCreds freshWorld))
  ∧ credentials.GetCredentials "S1" onboardedWorld = (inr sampleCreds, [], onboardedWorld).
Proof.
  split.
  - refine (proj1 (save_then_get_roundtrip (json := Reference.codec) freshWorld _ "" sampleCreds [] _ _)).
    + vm_compute. reflexivity.
    + intros data Hm. vm_compute in Hm. injection Hm as <-. vm_compute. reflexivity.
  - refine (proj1 (save_then_get_roundtrip (json := Reference.codec) freshWorld onboardedWorld "S1" sampleCreds [] _ _)).
    + vm_compute. reflexivity.
    + intros data Hm. vm_compute in Hm. injection Hm as <-. vm_compute. reflexivity.
Defined.

(** C3 as stated fails: [encoding/json] writes a byte that belongs to
    no UTF-8 sequence as the escape of U+FFFD. A bundle whose token ends
    in such a byte is saved without error, and the store then returns the
    token with U+FFFD in its place. *)
Lemma save_then_get_coerces :
  value_of (credentials.SaveCredentials (json := Reference.codec) "S1" brokenCreds freshWorld)
  = None
  ∧ credsFile (world_of (credentials.SaveCredentials (json := Reference.codec)
                           "S1" brokenCreds freshWorld))
    = Contents (Reference.print_collection {[ "S1" := brokenCreds ]})
  ∧ strings.Contains (Reference.print_collection {[ "S1" := brokenCreds ]})
      (Reference.dq "'apiToken': 'tok\ufffd'") = true
  ∧ value_of (credentials.GetCredentials (json := Reference.codec) "S1"
                (world_of (credentials.SaveCredentials (json := Reference.codec)
                             "S1" brokenCreds freshWorld)))
    = inr coercedCreds
  ∧ APIToken brokenCreds = "tok" ++ String "255"%char EmptyString
  ∧ APIToken coercedCreds
    = "tok" ++ String "239"%char (String "191"%char (String "189"%char EmptyString))
  ∧ String.eqb (APIToken coercedCreds) (APIToken brokenCreds) = false.
Proof. repeat split; vm_compute; reflexivity. Qed.

(** C7, as the code has it. [HasCredentials(T)] is [false] whenever
    [GetCredentials(T)] fails, whatever the error: when the store file is
    missing, unreadable or does not decode, and when the collection holds
    nothing under [T]'s key. In a store that only saves have written,
    each with a file that decodes back to the collection serialised, it
    is [false] for every [T] whose key (with [""] read as ["default"]) no
    save used; and it is [true] right after a successful
    [SaveCredentials(T, _)] whose file decodes back. *)
Theorem HasCredentials_spec {json : JSON} :
  (∀ w T err, value_of (credentials.GetCredentials T w) = inl err →
     credentials.HasCredentials T w = (false, [], w))
  ∧ (∀ w T, credsFile w = NoFile → credentials.HasCredentials T w = (false, [], w))
  ∧ (∀ w T err, credsFile w = Unreadable err → credentials.HasCredentials T w = (false, [], w))
  ∧ (∀ w T data err,
       credsFile w = Contents data → (json_Unmarshal data).2 = Some err →
       credentials.HasCredentials T w = (false, [], w))
  ∧ (∀ w T m,
       saved_by w m → m !! credentials.spaceKey T = None →
       credentials.HasCredentials T w = (false, [], w))
  ∧ (∀ w w' T B t,
       credentials.SaveCredentials T B w = (None, t, w') →
       decodes_back (<[credentials.spaceKey T := B]> (stored_before w)) →
       credentials.HasCredentials T w' = (true, [], w')).
Proof.
  repeat split.
  - intros w T err Hget. rewrite HasCredentials_run. by rewrite Hget.
  - intros w T Hf. destruct (loadAllCredentials_NoFile w Hf) as (err & Hl & _).
    apply (HasCredentials_load_error w T err). by rewrite Hl.
  - intros w T err Hf. apply (HasCredentials_load_error w T err).
    unfold credentials.loadAllCredentials, value_of. unfold_M. by rewrite Hf.
  - intros w T data err Hf Hdec.
    apply (HasCredentials_load_error w T (Errorf_w "failed to unmarshal credentials: " err)).
    rewrite (loadAllCredentials_Contents w data Hf).
    destruct (json_Unmarshal data) as [allCreds [e|]]; simpl in *; congruence.
  - intros w T m Hs Hm. rewrite (HasCredentials_saved_by w m T Hs).
    rewrite bool_decide_eq_false_2; [done|]. rewrite Hm. by intros [? ?].
  - intros w w' T B t Hsave Hback.
    rewrite HasCredentials_run.
    by rewrite (GetCredentials_after_save w w' T B t Hsave Hback).
Qed.

Lemma HasCredentials_spec_witness :
  credentials.HasCredentials "S1" freshWorld = (false, [], freshWorld)
  ∧ credentials.HasCredentials "S2" onboardedWorld = (false, [], onboardedWorld)
  ∧ credentials.HasCredentials "S1" onboardedWorld = (true, [], onboardedWorld).
Proof.
  destruct (HasCredentials_spec (json := Reference.codec))
    as (_ & Hmissing & _ & _ & Hnever & Hsaved).
  assert (Hsave : credentials.SaveCredentials "S1" sampleCreds freshWorld
                  = (None, [], onboardedWorld)) by (vm_compute; reflexivity).
  assert (Hback : decodes_back (<["S1" := sampleCreds]> ∅)).
  { intros data Hm. vm_compute in Hm. injection Hm as <-. vm_compute. reflexivity. }
  split; [|split].
  - by apply Hmissing.
  - apply (Hnever _ _ (<["S1" := sampleCreds]> ∅)); [|done].
    by apply (saved_step freshWorld ∅ "S1" sampleCreds [] onboardedWorld); [constructor|..].
  - by apply (Hsaved freshWorld _ "S1" sampleCreds []).
Defined.

(** C7 as stated fails: a save under a key that is a byte of no UTF-8
    sequence succeeds, and [HasCredentials] of that key is [false] right
    after it; the entry is under U+FFFD, a key no save used. *)
Lemma saved_key_not_found :
  value_of (credentials.SaveCredentials (json := Reference.codec)
              strayByte sampleCreds freshWorld) = None
  ∧ value_of (credentials.HasCredentials (json := Reference.codec) strayByte
                (world_of (credentials.SaveCredentials (json := Reference.codec)
                             strayByte sampleCreds freshWorld))) = false
  ∧ value_of (credentials.HasCredentials (json := Reference.codec) Reference.replacement
                (world_of (credentials.SaveCredentials (json := Reference.codec)
                             strayByte sampleCreds freshWorld))) = true
  ∧ String.eqb Reference.replacement strayByte = false.
Proof. repeat split; vm_compute; reflexivity. Qed.

(** What [GetAllSpaces] returns. When the store file loads: every tenant
    key present, each once, and no error. When loading fails: an empty
    sequence together with the load error. *)
Lemma GetAllSpaces_spec {json : JSON} (w : World) :
  (∀ allCreds, value_of (credentials.loadAllCredentials w) = (allCreds, None) →
     ∃ spaces, credentials.GetAllSpaces w = (spaces, None, [], w)
               ∧ NoDup spaces
               ∧ ∀ k, k ∈ spaces ↔ is_Some (or_empty allCreds !! k))
  ∧ (∀ err, (value_of (credentials.loadAllCredentials w)).2 = Some err →
       credentials.GetAllSpaces w = ([], Some err, [], w))
  ∧ (credsFile w = NoFile →
       ∃ err, credentials.GetAllSpaces w = ([], Some err, [], w)
              ∧ os_IsNotExist (Some err) = true).
Proof.
  assert (Herr : ∀ err, (value_of (credentials.loadAllCredentials w)).2 = Some err →
                        credentials.GetAllSpaces w = ([], Some err, [], w)).
  { intros err Hl. unfold credentials.GetAllSpaces.
    rewrite (bind_silent _ _ _ _ (loadAllCredentials_silent w)).
    destruct (value_of (credentials.loadAllCredentials w)) as [allCreds [e|]];
      simpl in Hl; [|done]. by injection Hl as ->. }
  split; [|split; [done|]].
  - intros allCreds Hl. unfold credentials.GetAllSpaces.
    rewrite (bind_silent _ _ _ _ (loadAllCredentials_silent w)), Hl.
    eexists. split; [reflexivity|]. apply range_keys.
  - intros Hf. destruct (loadAllCredentials_NoFile w Hf) as (err & Hl & Hne).
    exists err. split; [|done]. apply Herr. by rewrite Hl.
Qed.

Lemma GetAllSpaces_spec_witness :
  (∃ spaces, credentials.GetAllSpaces onboardedWorld = (spaces, None, [], onboardedWorld)
             ∧ NoDup spaces ∧ ∀ k, k ∈ spaces ↔ is_Some (({[ "S1" := sampleCreds ]} : gmap string JiraCredentials) !! k))
  ∧ (∃ err, credentials.GetAllSpaces freshWorld = ([], Some err, [], freshWorld)
            ∧ os_IsNotExist (Some err) = true).
Proof.
  split.
  - destruct (proj1 (GetAllSpaces_spec (json := Reference.codec) onboardedWorld)
                (Some {[ "S1" := sampleCreds ]})) as (spaces & Hrun & Hnd & Hel).
    { vm_compute. reflexivity. }
    exists spaces. exact (conj Hrun (conj Hnd Hel)).
  - exact (proj2 (proj2 (GetAllSpaces_spec (json := Reference.codec) freshWorld)) eq_refl).
Defined.

(** C4. On a fresh installation (no store file) [GetAllSpaces] returns
    the empty sequence together with the "does not exist" error of the
    read: the not-found condition reaches the caller, against the claim.
    [SaveCredentials] in the same world applies [os.IsNotExist] to the
    same load error and goes on with an empty collection; [GetAllSpaces]
    lacks that test. *)
Theorem GetAllSpaces_propagates_not_found :
  credentials.GetAllSpaces (json := Reference.codec) freshWorld
  = ([], Some (OsError true "open jira_credentials.json: no such file or directory"),
     [], freshWorld)
  ∧ os_IsNotExist (value_of (credentials.GetAllSpaces (json := Reference.codec) freshWorld)).2
    = true
  ∧ value_of (credentials.loadAllCredentials (json := Reference.codec) freshWorld)
    = (None, Some (OsError true "open jira_credentials.json: no such file or directory"))
  ∧ credentials.SaveCredentials (json := Reference.codec) "S1" sampleCreds freshWorld
    = (None, [], onboardedWorld).
Proof. repeat split; vm_compute; reflexivity. Qed.

(** ** Business functions *)

Section MapLoops.

(** A range loop that copies the entries passing a test into [target]. *)
Lemma fold_insert_if_lookup {A} (test : string → A → bool) (src target : gmap string A)
    (k : string) :
  map_fold (fun key value acc => if test key value then <[key := value]> acc else acc)
    target src !! k
  = match src !! k with
    | Some v => if test k v then Some v else target !! k
    | None => target !! k
    end.
Proof.
  revert k.
  apply (map_fold_weak_ind
           (fun acc (src : gmap string A) => ∀ k,
              acc !! k = match src !! k with
                         | Some v => if test k v then Some v else target !! k
                         | None => target !! k
                         end)).
  - intros k. by rewrite lookup_empty.
  - intros i x m r Hi IH k. destruct (decide (i = k)) as [->|Hne].
    + rewrite lookup_insert_eq. destruct (test k x).
      * by rewrite lookup_insert_eq.
      * rewrite IH. by rewrite Hi.
    + rewrite (lookup_insert_ne m) by done. destruct (test i x).
      * rewrite lookup_insert_ne by done. apply IH.
      * apply IH.
Qed.

Lemma addFields_lookup (additionalFields target : gmap string any) (k : string) :
  client.addFields additionalFields target !! k
  = match additionalFields !! k with
    | Some v => if negb (is_nil v) && negb (is_empty_string v) then Some v else target !! k
    | None => target !! k
    end.
Proof.
  unfold client.addFields.
  apply (fold_insert_if_lookup (fun _ v => negb (is_nil v) && negb (is_empty_string v))).
Qed.

Lemma mergeOtherFields_lookup (knownFields : gmap string bool) (body : gmap string any)
    (additionalFields : option (gmap string any)) (k : string) :
  issues.mergeOtherFields knownFields body additionalFields !! k
  = match body !! k with
    | Some v =>
        if negb (default false (knownFields !! k)) && negb (is_nil v) && negb (is_empty_string v)
        then Some v else or_empty additionalFields !! k
    | None => or_empty additionalFields !! k
    end.
Proof.
  unfold issues.mergeOtherFields.
  rewrite (fold_insert_if_lookup
             (fun key v => negb (default false (knownFields !! key))
                           && negb (is_nil v) && negb (is_empty_string v))).
  by destruct additionalFields.
Qed.

(** An extra top-level field reaches the map that a client function
    serialises, whatever that map held before. *)
Lemma extra_field_reaches (knownFields : gmap string bool) (body target : gmap string any)
    (additionalFields : option (gmap string any)) (k : string) (v : any) :
  body !! k = Some v → knownFields !! k = None →
  is_nil v = false → is_empty_string v = false →
  issues.mergeOtherFields knownFields body additionalFields !! k = Some v
  ∧ client.addFields
      (or_empty (Some (issues.mergeOtherFields knownFields body additionalFields))) target !! k
    = Some v.
Proof.
  intros Hk Hknown Hnil Hempty.
  assert (Hmerged : issues.mergeOtherFields knownFields body additionalFields !! k = Some v).
  { rewrite mergeOtherFields_lookup, Hk, Hknown, Hnil, Hempty. done. }
  split; [done|].
  rewrite addFields_lookup. simpl. by rewrite Hmerged, Hnil, Hempty.
Qed.

Lemma stringField_absent (body : gmap string any) (key : string) :
  body !! key = None → issues.stringField body key = "".
Proof. unfold issues.stringField, index. by intros ->. Qed.

(** The handler reads a string entry as it is, and the empty string for
    everything else. *)
Lemma stringField_string (body : gmap string any) (key s : string) :
  body !! key = Some (VString s) → issues.stringField body key = s.
Proof. unfold issues.stringField, index. by intros ->. Qed.

Lemma stringField_given (body : gmap string any) (key : string) :
  given body key → issues.stringField body key ≠ "".
Proof. intros (s & Hs & Hne). by rewrite (stringField_string body key s Hs). Qed.

Lemma stringField_missing (body : gmap string any) (key : string) :
  missing body key → issues.stringField body key = "".
Proof.
  unfold missing, issues.stringField, index. intros Hm.
  destruct (body !! key) as [[| | | |s| |]|]; try reflexivity.
  cbn. by apply Hm.
Qed.

End MapLoops.

Section ClientRuns.
Context `{JSON} `{Env}.

Lemma makeRequest_run (jc : client.JiraClient) (method endpoint : string)
    (body : option string) (w : World) :
  http_NewRequest method (client.requestURL jc endpoint) = None →
  ∃ r, client.makeRequest jc method endpoint body w
       = (r, [EvHTTP (client.requestOf jc method endpoint body)], w)
       ∧ r = match http_Do (client.requestOf jc method endpoint body) with
             | (_, Some err) => inl (Errorf_w "failed to make request: " err)
             | (resp, None) => inr resp
             end.
Proof.
  intros Hnew. unfold client.makeRequest.
  fold (client.requestURL jc endpoint). rewrite Hnew.
  fold (client.requestOf jc method endpoint body).
  destruct (http_Do (client.requestOf jc method endpoint body)) as [resp [err|]];
    eexists; (split; [reflexivity|done]).
Qed.

End ClientRuns.

Section ActionRuns.
Context `{JSON} `{Env}.

(** A computation followed by a pure continuation keeps its trace. *)
Lemma bind_pure {A B} (m : M A) (f : A → B) (w w1 : World) (a : A) (t : list Event) :
  m w = (a, t, w1) → (m ≫= fun x => mret (f x)) w = (f a, t, w1).
Proof.
  intros Hm. unfold mbind, M_bind, mret, M_ret. rewrite Hm.
  by rewrite app_nil_r.
Qed.

Lemma CreateIssue_sends (jc : client.JiraClient) (projectKey issueType summary description : string)
    (additionalFields : option (gmap string any)) (bodyBytes : string) (w : World) :
  sonic_Marshal
    (VMap {[ "fields" := VMap (client.issueFields projectKey issueType summary description
                                 additionalFields) ]}) = (bodyBytes, None) →
  http_NewRequest "POST" (client.requestURL jc "/rest/api/2/issue") = None →
  ∃ r, client.CreateIssue jc projectKey issueType summary description additionalFields w
       = (r, [EvHTTP (client.requestOf jc "POST" "/rest/api/2/issue" (Some bodyBytes))], w).
Proof.
  intros Hmarshal Hnew. unfold client.CreateIssue. rewrite Hmarshal.
  destruct (makeRequest_run jc "POST" "/rest/api/2/issue" (Some bodyBytes) w Hnew)
    as (r & Hrun & _).
  rewrite bind_run, Hrun. unfold value_of, trace_of, world_of. cbn [fst snd].
  destruct r as [err|resp]; [by eexists|].
  destruct (ReadErr resp); [by eexists|].
  destruct (negb (StatusCode resp =? 201)%Z); [by eexists|].
  destruct (sonic_Unmarshal_map (RespBody resp)) as [issue [err|]]; by eexists.
Qed.

Lemma AddComment_sends (jc : client.JiraClient) (issueKeyOrId commentBody : string)
    (visibility additionalFields : option (gmap string any)) (bodyBytes : string) (w : World) :
  sonic_Marshal (VMap (client.commentBodyOf commentBody visibility additionalFields))
    = (bodyBytes, None) →
  http_NewRequest "POST"
    (client.requestURL jc ("/rest/api/2/issue/" ++ issueKeyOrId ++ "/comment")) = None →
  ∃ r, client.AddComment jc issueKeyOrId commentBody visibility additionalFields w
       = (r, [EvHTTP (client.requestOf jc "POST"
                        ("/rest/api/2/issue/" ++ issueKeyOrId ++ "/comment")
                        (Some bodyBytes))], w).
Proof.
  intros Hmarshal Hnew. unfold client.AddComment. rewrite Hmarshal.
  destruct (makeRequest_run jc "POST" ("/rest/api/2/issue/" ++ issueKeyOrId ++ "/comment")
              (Some bodyBytes) w Hnew) as (r & Hrun & _).
  rewrite bind_run, Hrun. unfold value_of, trace_of, world_of. cbn [fst snd].
  destruct r as [err|resp]; [by eexists|].
  destruct (ReadErr resp); [by eexists|].
  destruct (negb (StatusCode resp =? 201)%Z); [by eexists|].
  destruct (sonic_Unmarshal_map (RespBody resp)) as [comment [err|]]; by eexists.
Qed.

(** The three checks of [CreateIssueHandler]'s function, in order. *)
Lemma CreateIssueAction_validation (creds : JiraCredentials) (body : gmap string any) (w : World) :
  (issues.stringField body "projectKey" = "" →
     issues.CreateIssueAction creds body w
     = (issues.validation_error "Project key is required", [], w))
  ∧ (issues.stringField body "projectKey" ≠ "" → issues.stringField body "issueType" = "" →
     issues.CreateIssueAction creds body w
     = (issues.validation_error "Issue type is required", [], w))
  ∧ (issues.stringField body "projectKey" ≠ "" → issues.stringField body "issueType" ≠ "" →
     issues.stringField body "summary" = "" →
     issues.CreateIssueAction creds body w
     = (issues.validation_error "Summary is required", [], w)).
Proof.
  unfold issues.CreateIssueAction. repeat split.
  - intros ->. done.
  - intros Hp ->. by destruct (String.eqb_spec (issues.stringField body "projectKey") "").
  - intros Hp Hi ->.
    destruct (String.eqb_spec (issues.stringField body "projectKey") ""); [done|].
    by destruct (String.eqb_spec (issues.stringField body "issueType") "").
Qed.

Lemma CreateIssueAction_sends (creds : JiraCredentials) (body : gmap string any)
    (bodyBytes : string) (w : World) :
  issues.stringField body "projectKey" ≠ "" →
  issues.stringField body "issueType" ≠ "" →
  issues.stringField body "summary" ≠ "" →
  sonic_Marshal (VMap {[ "fields" := VMap (createRequestFields body) ]}) = (bodyBytes, None) →
  http_NewRequest "POST" (URL (createRequest creds bodyBytes)) = None →
  ∃ result, issues.CreateIssueAction creds body w
            = (result, [EvHTTP (createRequest creds bodyBytes)], w).
Proof.
  intros Hp Hi Hs Hmarshal Hnew. unfold issues.CreateIssueAction.
  destruct (String.eqb_spec (issues.stringField body "projectKey") ""); [done|].
  destruct (String.eqb_spec (issues.stringField body "issueType") ""); [done|].
  destruct (String.eqb_spec (issues.stringField body "summary") ""); [done|].
  destruct (CreateIssue_sends (client.NewJiraClient creds) _ _ _ _ _ bodyBytes w Hmarshal Hnew)
    as (r & Hrun).
  rewrite bind_run, Hrun. unfold value_of, trace_of, world_of. cbn [fst snd].
  destruct r as [issue [err|]]; by eexists.
Qed.

Lemma AddCommentAction_sends (creds : JiraCredentials) (body : gmap string any)
    (bodyBytes : string) (w : World) :
  issues.stringField body "issueKey" ≠ "" →
  issues.stringField body "commentBody" ≠ "" →
  sonic_Marshal (VMap (commentRequestBody body)) = (bodyBytes, None) →
  http_NewRequest "POST" (URL (commentRequest creds body bodyBytes)) = None →
  ∃ result, issues.AddCommentAction creds body w
            = (result, [EvHTTP (commentRequest creds body bodyBytes)], w).
Proof.
  intros Hi Hc Hmarshal Hnew. unfold issues.AddCommentAction.
  destruct (String.eqb_spec (issues.stringField body "issueKey") ""); [done|].
  destruct (String.eqb_spec (issues.stringField body "commentBody") ""); [done|].
  destruct (AddComment_sends (client.NewJiraClient creds) _ _ _ _ bodyBytes w Hmarshal Hnew)
    as (r & Hrun).
  rewrite bind_run, Hrun. unfold value_of, trace_of, world_of. cbn [fst snd].
  destruct r as [comment [err|]]; by eexists.
Qed.

End ActionRuns.

(** C10. The function of [issues.create] checks [projectKey], then
    [issueType], then [summary]. A field is missing when the body holds
    no non-empty string under its name (no entry, an entry that is no
    string, or the empty string). The function returns one
    [validation_error] that names the first missing field in this order,
    without any remote call; a body in which all three are given is not
    answered with a [validation_error]. A body without [projectKey] and
    [summary] gets "Project key is required", not "Summary is
    required". *)
Theorem CreateIssue_validation_order {json : JSON} {env : Env}
    (creds : JiraCredentials) (body : gmap string any) (w : World) :
  (missing body "projectKey" →
     issues.CreateIssueAction creds body w
     = ({[ "error" := VString "validation_error";
           "message" := VString "Project key is required" ]}, [], w))
  ∧ (given body "projectKey" → missing body "issueType" →
     issues.CreateIssueAction creds body w
     = ({[ "error" := VString "validation_error";
           "message" := VString "Issue type is required" ]}, [], w))
  ∧ (given body "projectKey" → given body "issueType" → missing body "summary" →
     issues.CreateIssueAction creds body w
     = ({[ "error" := VString "validation_error";
           "message" := VString "Summary is required" ]}, [], w))
  ∧ (given body "projectKey" → given body "issueType" → given body "summary" →
     value_of (issues.CreateIssueAction creds body w) !! "error"
     ≠ Some (VString "validation_error"))
  ∧ (body !! "projectKey" = None → body !! "summary" = None →
     issues.CreateIssueAction creds body w
     = ({[ "error" := VString "validation_error";
           "message" := VString "Project key is required" ]}, [], w)
     ∧ value_of (issues.CreateIssueAction creds body w) !! "message"
       ≠ Some (VString "Summary is required")).
Proof.
  destruct (CreateIssueAction_validation creds body w) as (Hp & Hi & Hs).
  split; [|split; [|split; [|split]]].
  - intros Hmp. apply Hp. by apply stringField_missing.
  - intros Hgp Hmi. apply Hi; [by apply stringField_given|by apply stringField_missing].
  - intros Hgp Hgi Hms.
    apply Hs; [by apply stringField_given..|by apply stringField_missing].
  - intros Hgp Hgi Hgs.
    apply stringField_given in Hgp, Hgi, Hgs.
    unfold issues.CreateIssueAction.
    destruct (String.eqb_spec (issues.stringField body "projectKey") ""); [done|].
    destruct (String.eqb_spec (issues.stringField body "issueType") ""); [done|].
    destruct (String.eqb_spec (issues.stringField body "summary") ""); [done|].
    apply (bind_value (fun r : gmap string any =>
                         r !! "error" ≠ Some (VString "validation_error"))).
    intros [issue [err|]] w'.
    + unfold value_of, mret, M_ret, issues.jira_api_error. cbn [fst].
      rewrite lookup_insert_eq. discriminate.
    + unfold value_of, mret, M_ret. cbn [fst].
      rewrite lookup_insert_ne by done. rewrite lookup_insert_ne by done.
      rewrite lookup_insert_ne by done. rewrite lookup_insert_ne by done.
      by rewrite lookup_singleton_ne.
  - intros Hkey _. rewrite Hp by by apply stringField_absent.
    split; [done|]. vm_compute. discriminate.
Qed.

Lemma CreateIssue_validation_order_witness :
  issues.CreateIssueAction (json := Reference.codec) (env := acceptingJira) sampleCreds
    {[ "projectKey" := VString "P"; "issueType" := VInt 3 ]} onboardedWorld
  = ({[ "error" := VString "validation_error";
        "message" := VString "Issue type is required" ]}, [], onboardedWorld)
  ∧ issues.CreateIssueAction (json := Reference.codec) (env := acceptingJira) sampleCreds
      bodyWithoutSummary onboardedWorld
    = ({[ "error" := VString "validation_error";
          "message" := VString "Summary is required" ]}, [], onboardedWorld)
  ∧ issues.CreateIssueAction (json := Reference.codec) (env := acceptingJira) sampleCreds
      bodyWithoutKeyAndSummary onboardedWorld
    = ({[ "error" := VString "validation_error";
          "message" := VString "Project key is required" ]}, [], onboardedWorld)
  ∧ value_of (issues.CreateIssueAction (json := Reference.codec) (env := acceptingJira)
                sampleCreds bodyWithDueDate onboardedWorld) !! "error"
    ≠ Some (VString "validation_error").
Proof.
  split; [|split; [|split]].
  - apply (CreateIssue_validation_order (json := Reference.codec) (env := acceptingJira)
             sampleCreds {[ "projectKey" := VString "P"; "issueType" := VInt 3 ]}
             onboardedWorld).
    + exists "P". split; [reflexivity|discriminate].
    + intros s Hs. vm_compute in Hs. discriminate Hs.
  - apply (CreateIssue_validation_order (json := Reference.codec) (env := acceptingJira)
             sampleCreds bodyWithoutSummary onboardedWorld).
    + exists "P". split; [reflexivity|discriminate].
    + exists "Task". split; [reflexivity|discriminate].
    + intros s Hs. vm_compute in Hs. discriminate Hs.
  - apply (CreateIssue_validation_order (json := Reference.codec) (env := acceptingJira)
             sampleCreds bodyWithoutKeyAndSummary onboardedWorld); reflexivity.
  - apply (CreateIssue_validation_order (json := Reference.codec) (env := acceptingJira)
             sampleCreds bodyWithDueDate onboardedWorld).
    + exists "P". split; [reflexivity|discriminate].
    + exists "Task". split; [reflexivity|discriminate].
    + exists "s". split; [reflexivity|discriminate].
Defined.

(** C8, as the code has it. When [projectKey] and [issueType] are
    given (non-empty strings) and [summary] is missing, the function of
    [issues.create] returns
    [{"error":"validation_error","message":"Summary is required"}] and
    makes no call to the remote API. *)
Theorem CreateIssue_missing_summary {json : JSON} {env : Env}
    (creds : JiraCredentials) (body : gmap string any) (w : World) :
  issues.stringField body "projectKey" ≠ "" →
  issues.stringField body "issueType" ≠ "" →
  body !! "summary" = None ∨ issues.stringField body "summary" = "" →
  issues.CreateIssueAction creds body w
  = ({[ "error" := VString "validation_error";
        "message" := VString "Summary is required" ]}, [], w).
Proof.
  intros Hp Hi Hs.
  destruct (CreateIssueAction_validation creds body w) as (_ & _ & Hsum).
  apply Hsum; [done..|]. destruct Hs as [Hs|Hs]; [by apply stringField_absent|done].
Qed.

Lemma CreateIssue_missing_summary_witness :
  issues.CreateIssueAction (json := Reference.codec) (env := acceptingJira)
    sampleCreds bodyWithoutSummary onboardedWorld
  = ({[ "error" := VString "validation_error";
        "message" := VString "Summary is required" ]}, [], onboardedWorld).
Proof.
  apply (CreateIssue_missing_summary (json := Reference.codec) (env := acceptingJira)).
  - vm_compute. discriminate.
  - vm_compute. discriminate.
  - left. reflexivity.
Defined.

(** C8 as stated fails: a body without [summary] that also lacks
    [projectKey] is answered with "Project key is required". *)
Lemma missing_summary_other_message :
  bodyWithoutKeyAndSummary !! "summary" = None
  ∧ issues.CreateIssueAction (json := Reference.codec) (env := acceptingJira)
      sampleCreds bodyWithoutKeyAndSummary onboardedWorld
    = ({[ "error" := VString "validation_error";
          "message" := VString "Project key is required" ]}, [], onboardedWorld)
  ∧ ({[ "error" := VString "validation_error";
        "message" := VString "Project key is required" ]} : gmap string any) !! "message"
    ≠ ({[ "error" := VString "validation_error";
          "message" := VString "Summary is required" ]} : gmap string any) !! "message".
Proof.
  split; [reflexivity|]. split; [reflexivity|]. vm_compute. discriminate.
Qed.

Lemma createKnownFields_other (k : string) :
  k ∉ ["projectKey"; "issueType"; "summary"; "description"; "additionalFields"] →
  issues.createKnownFields !! k = None.
Proof.
  rewrite !not_elem_of_cons. intros (? & ? & ? & ? & ? & _).
  unfold issues.createKnownFields. by rewrite !lookup_insert_ne, lookup_singleton_ne.
Qed.

Lemma commentKnownFields_other (k : string) :
  k ∉ ["issueKey"; "commentBody"; "visibility"; "additionalFields"] →
  issues.commentKnownFields !! k = None.
Proof.
  rewrite !not_elem_of_cons. intros (? & ? & ? & ? & _).
  unfold issues.commentKnownFields. by rewrite !lookup_insert_ne, lookup_singleton_ne.
Qed.

(** C9. A top-level body field whose name is not one of the action's
    known names and whose value is neither [nil] nor the empty string is
    merged into [additionalFields] and is forwarded in the request to the
    remote API: it is a member of the [fields] object ([issues.create])
    or of the request body ([issues.comment]), and when the required
    fields are given (and the request can be built) the one call of the
    function is the [POST] whose body is the serialisation of that
    object. *)
Theorem extra_fields_forwarded {json : JSON} {env : Env}
    (creds : JiraCredentials) (body : gmap string any) (k : string) (v : any) (w : World) :
  body !! k = Some v → is_nil v = false → is_empty_string v = false →
  (k ∉ ["projectKey"; "issueType"; "summary"; "description"; "additionalFields"] →
     issues.mergeOtherFields issues.createKnownFields body
       (issues.objectField body "additionalFields") !! k = Some v
     ∧ createRequestFields body !! k = Some v
     ∧ ∀ bodyBytes,
         given body "projectKey" → given body "issueType" → given body "summary" →
         sonic_Marshal (VMap {[ "fields" := VMap (createRequestFields body) ]})
           = (bodyBytes, None) →
         http_NewRequest "POST"
           (strings.TrimSuffix (InstanceURL creds) "/" ++ "/rest/api/2/issue") = None →
         ∃ result,
           issues.CreateIssueAction creds body w
           = (result,
              [EvHTTP {| Method := "POST";
                         URL := strings.TrimSuffix (InstanceURL creds) "/"
                                ++ "/rest/api/2/issue";
                         Header := jiraHeaders (APIToken creds);
                         ReqBody := Some bodyBytes |}],
              w))
  ∧ (k ∉ ["issueKey"; "commentBody"; "visibility"; "additionalFields"] →
     issues.mergeOtherFields issues.commentKnownFields body
       (issues.objectField body "additionalFields") !! k = Some v
     ∧ commentRequestBody body !! k = Some v
     ∧ ∀ issueKey bodyBytes,
         body !! "issueKey" = Some (VString issueKey) → issueKey ≠ "" →
         given body "commentBody" →
         sonic_Marshal (VMap (commentRequestBody body)) = (bodyBytes, None) →
         http_NewRequest "POST"
           (strings.TrimSuffix (InstanceURL creds) "/"
            ++ "/rest/api/2/issue/" ++ issueKey ++ "/comment") = None →
         ∃ result,
           issues.AddCommentAction creds body w
           = (result,
              [EvHTTP {| Method := "POST";
                         URL := strings.TrimSuffix (InstanceURL creds) "/"
                                ++ "/rest/api/2/issue/" ++ issueKey ++ "/comment";
                         Header := jiraHeaders (APIToken creds);
                         ReqBody := Some bodyBytes |}],
              w)).
Proof.
  intros Hk Hnil Hempty. split.
  - intros Hknown. apply createKnownFields_other in Hknown.
    split; [|split].
    + by apply (extra_field_reaches _ body ∅).
    + unfold createRequestFields, client.issueFields.
      by apply extra_field_reaches.
    + intros bodyBytes Hp Hi Hs Hmarshal Hnew.
      apply stringField_given in Hp, Hi, Hs.
      exact (CreateIssueAction_sends creds body bodyBytes w Hp Hi Hs Hmarshal Hnew).
  - intros Hknown. apply commentKnownFields_other in Hknown.
    split; [|split].
    + by apply (extra_field_reaches _ body ∅).
    + unfold commentRequestBody, client.commentBodyOf.
      by apply extra_field_reaches.
    + intros issueKey bodyBytes Hkey Hne Hc Hmarshal Hnew.
      apply stringField_given in Hc.
      pose proof (stringField_string body "issueKey" issueKey Hkey) as Hfield.
      assert (Hi : issues.stringField body "issueKey" ≠ "") by by rewrite Hfield.
      destruct (AddCommentAction_sends creds body bodyBytes w Hi Hc Hmarshal) as [result Hrun].
      * unfold commentRequest. rewrite Hfield. exact Hnew.
      * exists result. rewrite Hrun. unfold commentRequest. rewrite Hfield. reflexivity.
Qed.

Lemma extra_fields_forwarded_witness :
  createRequestFields bodyWithDueDate !! "duedate" = Some (VString "2024-12-31")
  ∧ (∃ result,
       issues.CreateIssueAction (json := Reference.codec) (env := acceptingJira)
         sampleCreds bodyWithDueDate onboardedWorld
       = (result,
          [EvHTTP
             {| Method := "POST";
                URL := "https://x.atlassian.net/rest/api/2/issue";
                Header := [("Authorization", "Bearer tok");
                           ("Content-Type", "application/json");
                           ("Accept", "application/json")];
                ReqBody :=
                  Some (Reference.dq
                          "{'fields':{'summary':'s','issuetype':{'name':'Task'},'duedate':'2024-12-31','project':{'key':'P'}}}") |}],
          onboardedWorld))
  ∧ commentRequestBody commentWithExtra !! "properties" = Some (VArray [])
  ∧ (∃ result,
       issues.AddCommentAction (json := Reference.codec) (env := acceptingJira)
         sampleCreds commentWithExtra onboardedWorld
       = (result,
          [EvHTTP
             {| Method := "POST";
                URL := "https://x.atlassian.net/rest/api/2/issue/COM-69/comment";
                Header := [("Authorization", "Bearer tok");
                           ("Content-Type", "application/json");
                           ("Accept", "application/json")];
                ReqBody :=
                  Some (Reference.dq "{'body':'This is a comment','properties':[]}") |}],
          onboardedWorld)).
Proof.
  destruct (extra_fields_forwarded (json := Reference.codec) (env := acceptingJira)
              sampleCreds bodyWithDueDate "duedate" (VString "2024-12-31") onboardedWorld)
    as [Hcreate _]; [reflexivity..|].
  destruct Hcreate as (_ & Hfields & Hsend).
  { rewrite !not_elem_of_cons. repeat split; [done..|apply not_elem_of_nil]. }
  destruct (extra_fields_forwarded (json := Reference.codec) (env := acceptingJira)
              sampleCreds commentWithExtra "properties" (VArray []) onboardedWorld)
    as [_ Hcomment]; [reflexivity..|].
  destruct Hcomment as (_ & Hbody & Hsend').
  { rewrite !not_elem_of_cons. repeat split; [done..|apply not_elem_of_nil]. }
  split; [exact Hfields|]. split.
  { destruct (Hsend (Reference.dq
                "{'fields':{'summary':'s','issuetype':{'name':'Task'},'duedate':'2024-12-31','project':{'key':'P'}}}"))
      as [result Hrun].
    - exists "P". split; [reflexivity|discriminate].
    - exists "Task". split; [reflexivity|discriminate].
    - exists "s". split; [reflexivity|discriminate].
    - vm_compute. reflexivity.
    - reflexivity.
    - exists result. rewrite Hrun. vm_compute. reflexivity. }
  split; [exact Hbody|].
  destruct (Hsend' "COM-69" (Reference.dq "{'body':'This is a comment','properties':[]}"))
    as [result Hrun].
  - reflexivity.
  - discriminate.
  - exists "This is a comment". split; [reflexivity|discriminate].
  - vm_compute. reflexivity.
  - reflexivity.
  - exists result. rewrite Hrun. vm_compute. reflexivity.
Defined.

(** ** Dispatch pipeline *)

Section DispatchRuns.
Context {json : JSON} {env : Env}.

Lemma HasCredentials_silent (w : World) (spaceID : string) :
  credentials.HasCredentials spaceID w
  = (value_of (credentials.HasCredentials spaceID w), [], w).
Proof. by rewrite HasCredentials_run. Qed.

Lemma GetCredentials_silent (w : World) (spaceID : string) :
  credentials.GetCredentials spaceID w
  = (value_of (credentials.GetCredentials spaceID w), [], w).
Proof. by rewrite GetCredentials_run. Qed.

(** An undecodable payload is answered before the store is consulted. *)
Lemma undecodable_payload (msg : Msg) (actionName : string) (actionFunc : ActionFunc)
    (w : World) (err : error) :
  (0 < String.length (Data msg))%nat →
  (sonic_Unmarshal_request (Data msg)).2 = Some err →
  Direct.handleActionWithCredentialsCheckSync msg actionName actionFunc w
  = (tt, [EvRespond (sonic_Marshal (VMap Direct.invalidRequestBody)).1], w)
  ∧ Handshake.handleActionWithCredentialsCheckSync msg actionName actionFunc w
    = (tt, [EvReject Handshake.invalidRequestBody], w).
Proof.
  intros Hlen Herr. apply Nat.ltb_lt in Hlen.
  unfold Direct.handleActionWithCredentialsCheckSync,
    Handshake.handleActionWithCredentialsCheckSync.
  rewrite Hlen. destruct (sonic_Unmarshal_request (Data msg)) as [requestData e].
  simpl in Herr. subst e. done.
Qed.

(** A decodable payload goes on to the credentials check with its body. *)
Lemma decodable_payload (msg : Msg) (actionName : string) (actionFunc : ActionFunc) :
  payload_decodes msg →
  Direct.handleActionWithCredentialsCheckSync msg actionName actionFunc
  = Direct.authorized (Router.extractSpaceIdFromSubject (Subject msg)) actionName actionFunc
      (decoded_body msg)
  ∧ Handshake.handleActionWithCredentialsCheckSync msg actionName actionFunc
    = Handshake.authorized (Router.extractSpaceIdFromSubject (Subject msg)) actionName
        actionFunc (decoded_body msg).
Proof.
  unfold payload_decodes, decoded_body, Direct.handleActionWithCredentialsCheckSync,
    Handshake.handleActionWithCredentialsCheckSync.
  intros [Hempty | Hok].
  - by rewrite Hempty.
  - destruct (0 <? String.length (Data msg))%nat; [|done].
    destruct (sonic_Unmarshal_request (Data msg)) as [requestData e].
    simpl in *. subst e. by destruct (Body requestData).
Qed.

(** Without credentials the check ends the dispatch. *)
Lemma authorized_unconfigured (spaceID actionName : string) (actionFunc : ActionFunc)
    (body : gmap string any) (w : World) :
  value_of (credentials.HasCredentials spaceID w) = false →
  Direct.authorized spaceID actionName actionFunc body w
  = (tt, [EvRespond (sonic_Marshal (VMap (notConfiguredBody actionName spaceID))).1], w)
  ∧ Handshake.authorized spaceID actionName actionFunc body w
    = (tt, [EvReject (notConfiguredBody actionName spaceID)], w).
Proof.
  intros Hhas. unfold Direct.authorized, Handshake.authorized.
  rewrite !(bind_silent _ _ _ _ (HasCredentials_silent w spaceID)).
  by rewrite Hhas.
Qed.

(** With credentials, the handshake: job id, record, acknowledgement,
    pause, business function, completion. *)
Lemma authorized_handshake (spaceID actionName : string) (actionFunc : ActionFunc)
    (body : gmap string any) (w : World) (creds : JiraCredentials) (ackBytes : string) :
  value_of (credentials.GetCredentials spaceID w) = inr creds →
  sonic_Marshal (VMap (Handshake.initResponse (uuid_New (drawn w)))) = (ackBytes, None) →
  let jobID := uuid_New (drawn w) in
  let w1 := if sdk_hasPlugin then job_recorded w jobID spaceID
            else {| credsFile := credsFile w; writeErr := writeErr w;
                    jobs := jobs w; drawn := S (drawn w) |} in
  Handshake.authorized spaceID actionName actionFunc body w
  = (tt,
     ([EvRespond ackBytes; EvSleep 1] ++ trace_of (actionFunc creds body w1)
      ++ (if sdk_hasPlugin then [EvDone jobID (value_of (actionFunc creds body w1))] else []))%list,
     world_of (actionFunc creds body w1)).
Proof.
  intros Hget Hack jobID w1. unfold Handshake.authorized.
  rewrite (bind_silent _ _ _ _ (HasCredentials_silent w spaceID)).
  rewrite HasCredentials_run, Hget. unfold value_of at 1. cbn [fst negb].
  rewrite (bind_silent _ _ _ _ (GetCredentials_silent w spaceID)), Hget.
  unfold Handshake.uuid_draw, Handshake.sdk_StoreEntityIdForJob, Handshake.sdk_Done.
  unfold_M. subst jobID w1. cbn beta. rewrite Hack.
  unfold job_recorded, value_of, trace_of, world_of.
  destruct sdk_hasPlugin; simpl.
  - destruct (actionFunc creds body _) as [[result t] w2]. simpl. done.
  - destruct (actionFunc creds body _) as [[result t] w2]. simpl. by rewrite app_nil_r.
Qed.

End DispatchRuns.

(** Whatever the business function, a request of an unconfigured tenant
    ends in one reply event in either revision; the event is no API
    call. *)
Lemma unconfigured_run {json : JSON} {env : Env} (msg : Msg) (actionName : string) (w : World) :
  value_of (credentials.HasCredentials (Router.extractSpaceIdFromSubject (Subject msg)) w)
    = false →
  ∃ e1 e2,
    (∀ req, e1 ≠ EvHTTP req) ∧ (∀ req, e2 ≠ EvHTTP req)
    ∧ ∀ f : ActionFunc,
        Direct.handleActionWithCredentialsCheckSync msg actionName f w = (tt, [e1], w)
        ∧ Handshake.handleActionWithCredentialsCheckSync msg actionName f w = (tt, [e2], w).
Proof.
  intros Hhas.
  destruct (0 <? String.length (Data msg))%nat eqn:Hlen;
    [destruct (sonic_Unmarshal_request (Data msg)).2 as [err|] eqn:Herr|].
  - apply Nat.ltb_lt in Hlen.
    exists (EvRespond (sonic_Marshal (VMap Direct.invalidRequestBody)).1),
           (EvReject Handshake.invalidRequestBody).
    split; [intros req; discriminate|]. split; [intros req; discriminate|].
    intros f. exact (undecodable_payload msg actionName f w err Hlen Herr).
  - assert (Hdec : payload_decodes msg) by (right; exact Herr).
    exists (EvRespond (sonic_Marshal
                         (VMap (notConfiguredBody actionName
                                  (Router.extractSpaceIdFromSubject (Subject msg))))).1),
           (EvReject (notConfiguredBody actionName
                        (Router.extractSpaceIdFromSubject (Subject msg)))).
    split; [intros req; discriminate|]. split; [intros req; discriminate|].
    intros f. destruct (decodable_payload msg actionName f Hdec) as [Hd Hh].
    rewrite Hd, Hh. by apply authorized_unconfigured.
  - assert (Hdec : payload_decodes msg).
    { left. apply Nat.ltb_ge in Hlen. lia. }
    exists (EvRespond (sonic_Marshal
                         (VMap (notConfiguredBody actionName
                                  (Router.extractSpaceIdFromSubject (Subject msg))))).1),
           (EvReject (notConfiguredBody actionName
                        (Router.extractSpaceIdFromSubject (Subject msg)))).
    split; [intros req; discriminate|]. split; [intros req; discriminate|].
    intros f. destruct (decodable_payload msg actionName f Hdec) as [Hd Hh].
    rewrite Hd, Hh. by apply authorized_unconfigured.
Qed.

(** C1, as the code has it. For a request of a tenant without stored
    credentials: the business function is never invoked (the run does not
    depend on it) and no request goes to the remote API; and when the
    payload is empty or decodes, the one reply is the
    "credentials not configured" payload, which carries the tenant id and
    the action name. Both revisions of the helper behave so; the direct
    one replies with the serialised payload, the handshake one rejects
    with it. *)
Theorem unconfigured_tenant_rejected {json : JSON} {env : Env}
    (msg : Msg) (actionName : string) (actionFunc : ActionFunc) (w : World) :
  let spaceID := Router.extractSpaceIdFromSubject (Subject msg) in
  value_of (credentials.HasCredentials spaceID w) = false →
  (payload_decodes msg →
     Direct.handleActionWithCredentialsCheckSync msg actionName actionFunc w
     = (tt, [EvRespond (sonic_Marshal (VMap (notConfiguredBody actionName spaceID))).1], w)
     ∧ Handshake.handleActionWithCredentialsCheckSync msg actionName actionFunc w
       = (tt, [EvReject (notConfiguredBody actionName spaceID)], w))
  ∧ (∀ other : ActionFunc,
       Direct.handleActionWithCredentialsCheckSync msg actionName actionFunc w
       = Direct.handleActionWithCredentialsCheckSync msg actionName other w
       ∧ Handshake.handleActionWithCredentialsCheckSync msg actionName actionFunc w
         = Handshake.handleActionWithCredentialsCheckSync msg actionName other w)
  ∧ (∀ req,
       (EvHTTP req ∉ trace_of (Direct.handleActionWithCredentialsCheckSync msg actionName
                                 actionFunc w))
       ∧ (EvHTTP req ∉ trace_of (Handshake.handleActionWithCredentialsCheckSync msg actionName
                                   actionFunc w)))
  ∧ notConfiguredBody actionName spaceID !! "error" = Some (VString "credentials_not_configured")
  ∧ notConfiguredBody actionName spaceID !! "action" = Some (VString actionName)
  ∧ notConfiguredBody actionName spaceID !! "spaceId" = Some (VString spaceID).
Proof.
  intros spaceID Hhas. subst spaceID.
  destruct (unconfigured_run msg actionName w Hhas) as (e1 & e2 & He1 & He2 & Hrun).
  split; [|split; [|split]].
  - intros Hdec. destruct (decodable_payload msg actionName actionFunc Hdec) as [Hd Hh].
    rewrite Hd, Hh. by apply authorized_unconfigured.
  - intros other.
    destruct (Hrun actionFunc) as [Hd Hh]. destruct (Hrun other) as [Hd' Hh'].
    split; congruence.
  - intros req. destruct (Hrun actionFunc) as [Hd Hh]. rewrite Hd, Hh.
    unfold trace_of. cbn [fst snd]. rewrite !list_elem_of_singleton.
    split; intros Heq; symmetry in Heq; [by apply He1 in Heq|by apply He2 in Heq].
  - repeat split; reflexivity.
Qed.

Lemma unconfigured_tenant_rejected_witness :
  Direct.handleActionWithCredentialsCheckSync (json := Reference.codec)
    emptyMsg "issues.create" createAction freshWorld
  = (tt, [EvRespond (Reference.print (VMap (notConfiguredBody "issues.create" "S9")))],
     freshWorld)
  ∧ Handshake.handleActionWithCredentialsCheckSync (json := Reference.codec)
      (env := acceptingJira) emptyMsg "issues.create" createAction freshWorld
    = (tt, [EvReject (notConfiguredBody "issues.create" "S9")], freshWorld).
Proof.
  apply (unconfigured_tenant_rejected (json := Reference.codec) (env := acceptingJira)
           emptyMsg "issues.create" createAction freshWorld).
  - reflexivity.
  - left. reflexivity.
Defined.

(** C1 as stated fails: a payload that does not decode is answered with
    the "invalid request" payload, before the store is consulted; the reply
    names neither the tenant nor the action. *)
Lemma undecodable_payload_other_reply :
  value_of (credentials.HasCredentials (json := Reference.codec)
              (Router.extractSpaceIdFromSubject (Subject brokenMsg)) freshWorld) = false
  ∧ Direct.handleActionWithCredentialsCheckSync (json := Reference.codec)
      brokenMsg "issues.create" createAction freshWorld
    = (tt, [EvRespond (Reference.print (VMap Direct.invalidRequestBody))], freshWorld)
  ∧ Handshake.handleActionWithCredentialsCheckSync (json := Reference.codec)
      (env := acceptingJira) brokenMsg "issues.create" createAction freshWorld
    = (tt, [EvReject Handshake.invalidRequestBody], freshWorld)
  ∧ Reference.print (VMap Direct.invalidRequestBody)
    = Reference.dq "{'message':'Failed to parse request','error':'Invalid request data'}"
  ∧ Handshake.invalidRequestBody !! "error" = Some (VString "invalid_request")
  ∧ Handshake.invalidRequestBody !! "spaceId" = None
  ∧ Handshake.invalidRequestBody !! "action" = None.
Proof. repeat split; vm_compute; reflexivity. Qed.

(** C2. In the handshake revision, for every invocation that reaches the
    handshake (the payload decodes, the tenant's credentials are there) in
    a process with a plugin instance: the acknowledgement
    [{jobId: <the UUID just drawn>, progress: 0}] is replied first, then
    the pause, then whatever the business function does, then the
    completion event under the same job id with the function's result; and
    the function runs in a world where the job's tenant is already
    recorded. This holds for every business function. *)
Theorem handshake_ack_before_completion {json : JSON} {env : Env}
    (msg : Msg) (actionName : string) (actionFunc : ActionFunc) (w : World)
    (creds : JiraCredentials) (ackBytes : string) :
  let spaceID := Router.extractSpaceIdFromSubject (Subject msg) in
  let jobID := uuid_New (drawn w) in
  let run := actionFunc creds (decoded_body msg) (job_recorded w jobID spaceID) in
  payload_decodes msg →
  value_of (credentials.GetCredentials spaceID w) = inr creds →
  sdk_hasPlugin = true →
  sonic_Marshal (VMap {[ "jobId" := VString jobID; "progress" := VInt 0 ]}) = (ackBytes, None) →
  Handshake.handleActionWithCredentialsCheckSync msg actionName actionFunc w
  = (tt,
     ([EvRespond ackBytes; EvSleep 1] ++ trace_of run ++ [EvDone jobID (value_of run)])%list,
     world_of run)
  ∧ jobs (job_recorded w jobID spaceID) !! jobID = Some spaceID.
Proof.
  intros spaceID jobID run Hdec Hget Hplugin Hack. subst run jobID spaceID. split.
  - destruct (decodable_payload msg actionName actionFunc Hdec) as [_ ->].
    rewrite (authorized_handshake _ actionName actionFunc (decoded_body msg) w creds
               ackBytes Hget Hack).
    by rewrite Hplugin.
  - apply lookup_insert_eq.
Qed.

Lemma handshake_ack_before_completion_witness :
  ∃ request response,
    Handshake.handleActionWithCredentialsCheckSync (json := Reference.codec)
      (env := acceptingJira) createMsg "issues.create" createAction onboardedWorld
    = (tt,
       [EvRespond (Reference.dq "{'jobId':'job-0','progress':0}"); EvSleep 1;
        EvHTTP request; EvDone "job-0" response],
       job_recorded onboardedWorld "job-0" "S1").
Proof.
  destruct (handshake_ack_before_completion (json := Reference.codec) (env := acceptingJira)
              createMsg "issues.create" createAction onboardedWorld sampleCreds
              (Reference.dq "{'jobId':'job-0','progress':0}")) as [Hrun _].
  - right. vm_compute. reflexivity.
  - vm_compute. reflexivity.
  - reflexivity.
  - vm_compute. reflexivity.
  - rewrite Hrun. do 2 eexists. vm_compute. reflexivity.
Defined.

(** Without a plugin instance the acknowledgement is still sent and the
    function still runs, but no job is recorded and nothing is
    published. *)
Lemma handshake_without_plugin {json : JSON} {env : Env}
    (msg : Msg) (actionName : string) (actionFunc : ActionFunc) (w : World)
    (creds : JiraCredentials) (ackBytes : string) :
  let spaceID := Router.extractSpaceIdFromSubject (Subject msg) in
  let w1 := {| credsFile := credsFile w; writeErr := writeErr w;
               jobs := jobs w; drawn := S (drawn w) |} in
  let run := actionFunc creds (decoded_body msg) w1 in
  payload_decodes msg →
  value_of (credentials.GetCredentials spaceID w) = inr creds →
  sdk_hasPlugin = false →
  sonic_Marshal (VMap (Handshake.initResponse (uuid_New (drawn w)))) = (ackBytes, None) →
  Handshake.handleActionWithCredentialsCheckSync msg actionName actionFunc w
  = (tt, ([EvRespond ackBytes; EvSleep 1] ++ trace_of run)%list, world_of run).
Proof.
  intros spaceID w1 run Hdec Hget Hplugin Hack. subst run w1 spaceID.
  destruct (decodable_payload msg actionName actionFunc Hdec) as [_ ->].
  rewrite (authorized_handshake _ actionName actionFunc (decoded_body msg) w creds
             ackBytes Hget Hack).
  rewrite Hplugin. by rewrite app_nil_r.
Qed.

(** The scenario of the specification: once space [S1] is onboarded, an
    [issues.create] request with project key, issue type and summary
    reaches the business function, which issues one
    [POST /rest/api/2/issue]; the direct revision then replies once. *)
Example scenario_create_after_onboarding :
  credentials.SaveCredentials (json := Reference.codec) "S1" sampleCreds freshWorld
  = (None, [], onboardedWorld)
  ∧ ∃ request reply,
      Direct.CreateIssueHandler (json := Reference.codec) (env := acceptingJira)
        createMsg onboardedWorld
      = (tt, [EvHTTP request; EvRespond reply], onboardedWorld)
      ∧ Method request = "POST"
      ∧ URL request = "https://x.atlassian.net/rest/api/2/issue".
Proof.
  split; [vm_compute; reflexivity|].
  do 2 eexists. split; [vm_compute; reflexivity|]. split; reflexivity.
Qed.

(** ** API adapter *)

Section ClientErrors.
Context {json : JSON} {env : Env}.

(** [ListProjects] on any status but 200: the raw body, never decoded. *)
Lemma ListProjects_unexpected_status (jc : client.JiraClient) (w : World) (resp : Response) :
  http_NewRequest "GET" (client.requestURL jc "/rest/api/2/project") = None →
  http_Do (client.requestOf jc "GET" "/rest/api/2/project" None) = (resp, None) →
  StatusCode resp ≠ 200%Z →
  client.ListProjects jc w
  = ([], Some (client.apiError (StatusCode resp) (RespBody resp)),
     [EvHTTP (client.requestOf jc "GET" "/rest/api/2/project" None)], w).
Proof.
  intros Hnew Hdo Hstatus. unfold client.ListProjects.
  destruct (makeRequest_run jc "GET" "/rest/api/2/project" None w Hnew) as (r & Hrun & ->).
  rewrite bind_run, Hrun, Hdo. unfold value_of, trace_of, world_of. cbn [fst snd].
  by destruct (Z.eqb_spec (StatusCode resp) 200).
Qed.

(** The message the three other operations build from the sample error
    body, for every decoder that reads the body as its two members. *)
Lemma statusError_sample (label body : string) :
  sonic_Unmarshal_jiraError body
  = ({| ErrorMessages := ["bad"]; Errors := Some {[ "summary" := "required" ]} |}, None) →
  Error (client.statusError label 400 body)
  = "Jira API error (status 400): bad. " ++ label ++ "summary: required".
Proof.
  intros Hdec. unfold client.statusError. rewrite Hdec.
  unfold client.errorPartsOf, client.fieldErrorsOf, or_empty.
  cbn [ErrorMessages Errors from_option]. unfold id.
  rewrite map_size_singleton, map_fold_singleton.
  cbn [Nat.ltb Nat.leb length app strings.Join].
  unfold client.apiError, Errorf_s. cbn [Error].
  vm_compute. reflexivity.
Qed.

End ClientErrors.

(** C5, at the failing input. When the remote service answers
    [projects.list] with HTTP 400 and the sample error body,
    [ListProjects] returns the raw body after the status: the message
    contains ["bad"] but not ["summary: required"]. *)
Theorem ListProjects_keeps_raw_error_body :
  ∃ err request,
    client.ListProjects (json := Reference.codec) (env := refusingJira)
      (client.NewJiraClient sampleCreds) onboardedWorld
    = ([], Some err, [EvHTTP request], onboardedWorld)
    ∧ Error err = "Jira API error (status 400): " ++ sampleErrorBody
    ∧ strings.Contains (Error err) "bad" = true
    ∧ strings.Contains (Error err) "summary: required" = false.
Proof.
  do 2 eexists. split; [vm_compute; reflexivity|].
  repeat split; vm_compute; reflexivity.
Qed.

(** The three other operations, on the same answer: the decoded and
    joined message, which contains both. *)
Lemma other_operations_join_error_body :
  let jc := client.NewJiraClient sampleCreds in
  let joined (err : option error) :=
    match err with
    | Some err => strings.Contains (Error err) "bad"
                  && strings.Contains (Error err) "summary: required"
    | None => false
    end in
  joined (value_of (client.CreateIssue (json := Reference.codec) (env := refusingJira)
                      jc "P" "Task" "" "" None onboardedWorld)).2 = true
  ∧ joined (value_of (client.DeleteIssue (json := Reference.codec) (env := refusingJira)
                        jc "P-1" false onboardedWorld)) = true
  ∧ joined (value_of (client.AddComment (json := Reference.codec) (env := refusingJira)
                        jc "P-1" "hello" None None onboardedWorld)).2 = true
  ∧ Reference.unmarshal_jiraError sampleErrorBody
    = ({| ErrorMessages := ["bad"]; Errors := Some {[ "summary" := "required" ]} |}, None).
Proof. repeat split; vm_compute; reflexivity. Qed.

(** * Further properties *)

(** ** Credential store: how saves compose *)

Section StoreComposition.
Context {json : JSON}.
Import credentials.

(** The collection on disk after a successful save. *)
Lemma load_after_save (w w' : World) (T : string) (B : JiraCredentials) (t : list Event) :
  SaveCredentials T B w = (None, t, w') →
  decodes_back (<[spaceKey T := B]> (stored_before w)) →
  value_of (loadAllCredentials w') = (Some (<[spaceKey T := B]> (stored_before w)), None).
Proof.
  intros Hsave Hback.
  apply SaveCredentials_ok in Hsave as (data & Hm & _ & ->).
  by eapply saved_file_loads.
Qed.

Lemma stored_before_loaded (w : World) (m : gmap string JiraCredentials) :
  value_of (loadAllCredentials w) = (Some m, None) → stored_before w = m.
Proof. unfold stored_before. by intros ->. Qed.

(** A load that fails for another reason than a missing file stops the
    save. *)
Lemma SaveCredentials_load_error (w : World) (T : string) (B : JiraCredentials) (e : error) :
  (value_of (loadAllCredentials w)).2 = Some e →
  os_IsNotExist (Some e) = false →
  SaveCredentials T B w
  = (Some (Errorf_w "failed to load existing credentials: " e), [], w).
Proof.
  intros Hl Hne. unfold SaveCredentials.
  rewrite (bind_silent _ _ _ _ (loadAllCredentials_silent w)).
  destruct (value_of (loadAllCredentials w)) as [allCreds err]. cbn [snd] in Hl. subst err.
  by rewrite Hne.
Qed.

(** A failed load hands back a nil map. *)
Lemma loadAllCredentials_error_nil (w : World) (e : error) :
  (value_of (loadAllCredentials w)).2 = Some e →
  (value_of (loadAllCredentials w)).1 = None.
Proof.
  unfold loadAllCredentials, value_of. unfold_M.
  destruct (credsFile w) as [|err|data]; cbn; try done.
  by destruct (json_Unmarshal data) as [m [err|]].
Qed.

End StoreComposition.

(** X1. A successful save for one tenant does not change what any other
    tenant reads: for a key other than the saved one, [HasCredentials]
    answers as before, and when the store file loaded before the save,
    [GetCredentials] returns what it returned before. *)
Theorem save_keeps_other_tenants {json : JSON} (w w' : World) (T T' : string)
    (B : JiraCredentials) (t : list Event) :
  credentials.SaveCredentials T B w = (None, t, w') →
  decodes_back (<[credentials.spaceKey T := B]> (stored_before w)) →
  credentials.spaceKey T' ≠ credentials.spaceKey T →
  value_of (credentials.HasCredentials T' w') = value_of (credentials.HasCredentials T' w)
  ∧ ((value_of (credentials.loadAllCredentials w)).2 = None →
     value_of (credentials.GetCredentials T' w') = value_of (credentials.GetCredentials T' w)).
Proof.
  intros Hsave Hback Hne.
  pose proof (load_after_save w w' T B t Hsave Hback) as Hl'.
  assert (Hget' : value_of (credentials.GetCredentials T' w')
                  = match stored_before w !! credentials.spaceKey T' with
                    | Some creds => inr creds
                    | None => inl (Errorf_s ("credentials not found for space: "
                                             ++ credentials.spaceKey T'))
                    end).
  { rewrite (GetCredentials_loaded w' _ T' Hl'). unfold value_of. cbn [fst].
    by rewrite lookup_insert_ne. }
  split.
  - rewrite !HasCredentials_run. unfold value_of at 1 3. cbn [fst].
    rewrite Hget', GetCredentials_run. unfold value_of at 1. cbn [fst].
    unfold stored_before.
    destruct (value_of (credentials.loadAllCredentials w)) as [allCreds [e|]] eqn:Hload;
      cbn [fst].
    + assert (allCreds = None) as ->.
      { pose proof (loadAllCredentials_error_nil w e) as Hnil.
        rewrite Hload in Hnil. by apply Hnil. }
      cbn. by rewrite lookup_empty.
    + by destruct (or_empty allCreds !! credentials.spaceKey T').
  - intros Hok. rewrite Hget', GetCredentials_run. unfold value_of at 1. cbn [fst].
    unfold stored_before.
    destruct (value_of (credentials.loadAllCredentials w)) as [allCreds [e|]]; [done|].
    cbn [fst]. by destruct (or_empty allCreds !! credentials.spaceKey T').
Qed.

Section SaveRuns.
Context {json : JSON}.
Import credentials.

(** Every run of [SaveCredentials], by what it meets. *)
Lemma SaveCredentials_run (w : World) (T : string) (B : JiraCredentials) :
  SaveCredentials T B w =
    match (value_of (loadAllCredentials w)).2 with
    | Some e =>
        if negb (os_IsNotExist (Some e))
        then (Some (Errorf_w "failed to load existing credentials: " e), [], w)
        else
          store_run w (json_MarshalIndent (<[spaceKey T := B]> (stored_before w)))
    | None => store_run w (json_MarshalIndent (<[spaceKey T := B]> (stored_before w)))
    end.
Proof.
  unfold SaveCredentials, stored_before.
  rewrite (bind_silent _ _ _ _ (loadAllCredentials_silent w)).
  destruct (value_of (loadAllCredentials w)) as [allCreds err]. cbn [fst snd].
  assert (Hstore :
    (let '(data, err) := json_MarshalIndent (<[spaceKey T := B]> (or_empty allCreds)) in
     match err with
     | Some err => mret (Some (Errorf_w "failed to marshal credentials: " err))
     | None =>
         err ← os_WriteFile data;
         match err with
         | Some err => mret (Some (Errorf_w "failed to write credentials file: " err))
         | None => mret None
         end
     end) w =
    store_run w (json_MarshalIndent (<[spaceKey T := B]> (or_empty allCreds)))).
  { unfold store_run. destruct (json_MarshalIndent _) as [data [e|]]; unfold_M; [done|].
    by destruct (writeErr w) as [[e|e n]|]. }
  destruct err as [e|].
  - destruct (negb (os_IsNotExist (Some e))); [done|].
    rewrite <- Hstore. by destruct allCreds.
  - rewrite <- Hstore. by destruct allCreds.
Qed.

(** What a successful save has met: a store that loads or is missing,
    and a file that can be written. *)
Lemma SaveCredentials_ok_inv (w w' : World) (T : string) (B : JiraCredentials)
    (t : list Event) :
  SaveCredentials T B w = (None, t, w') →
  writeErr w = None
  ∧ match (value_of (loadAllCredentials w)).2 with
    | Some e => os_IsNotExist (Some e) = true
    | None => True
    end.
Proof.
  rewrite SaveCredentials_run. unfold store_run.
  destruct ((value_of (loadAllCredentials w)).2) as [e|].
  - destruct (os_IsNotExist (Some e)); cbn [negb]; [|done].
    destruct (json_MarshalIndent _) as [d [e1|]]; [done|].
    by destruct (writeErr w) as [[e2|e2 n]|].
  - destruct (json_MarshalIndent _) as [d [e1|]]; [done|].
    by destruct (writeErr w) as [[e2|e2 n]|].
Qed.

End SaveRuns.

Lemma save_keeps_other_tenants_witness :
  value_of (credentials.HasCredentials (json := Reference.codec) "S1" twoTenantsWorld) = true
  ∧ value_of (credentials.GetCredentials (json := Reference.codec) "S1" twoTenantsWorld)
    = inr sampleCreds.
Proof.
  destruct (save_keeps_other_tenants (json := Reference.codec) onboardedWorld twoTenantsWorld
              "S2" "S1" otherCreds []) as [Hhas Hget].
  - vm_compute. reflexivity.
  - intros data Hm. vm_compute in Hm. injection Hm as <-. vm_compute. reflexivity.
  - vm_compute. discriminate.
  - split.
    + rewrite Hhas. vm_compute. reflexivity.
    + rewrite Hget by (vm_compute; reflexivity). vm_compute. reflexivity.
Defined.

(** X2. Saving twice under one key keeps one bundle, the second, when
    the files the saves write decode back to the collections serialised:
    the store is left exactly as a single save of the second bundle
    leaves it, and [GetCredentials] returns the second bundle. *)
Theorem save_overwrites_wholesale {json : JSON} (w w1 w2 : World) (T : string)
    (B1 B2 : JiraCredentials) (t1 t2 : list Event) :
  credentials.SaveCredentials T B1 w = (None, t1, w1) →
  credentials.SaveCredentials T B2 w1 = (None, t2, w2) →
  decodes_back (<[credentials.spaceKey T := B1]> (stored_before w)) →
  decodes_back (<[credentials.spaceKey T := B2]> (stored_before w)) →
  credentials.SaveCredentials T B2 w = (None, [], w2)
  ∧ credentials.GetCredentials T w2 = (inr B2, [], w2).
Proof.
  intros Hs1 Hs2 Hb1 Hb2.
  pose proof (load_after_save w w1 T B1 t1 Hs1 Hb1) as Hl1.
  pose proof (stored_before_loaded w1 _ Hl1) as Hm1.
  assert (Hsingle : credentials.SaveCredentials T B2 w = (None, [], w2)).
  { destruct (SaveCredentials_ok_inv w w1 T B1 t1 Hs1) as [Hwe Hload].
    apply SaveCredentials_ok in Hs1 as (data1 & _ & _ & ->).
    apply SaveCredentials_ok in Hs2 as (data2 & Hmar2 & _ & ->).
    rewrite Hm1, insert_insert_eq in Hmar2.
    rewrite SaveCredentials_run. unfold store_run. rewrite Hmar2, Hwe.
    cbn [writeErr jobs drawn].
    destruct ((value_of (credentials.loadAllCredentials w)).2) as [e|]; [|reflexivity].
    rewrite Hload. reflexivity. }
  split; [done|].
  by apply (GetCredentials_after_save w w2 T B2 []).
Qed.

Lemma save_overwrites_wholesale_witness :
  credentials.GetCredentials (json := Reference.codec) "S1" onboardedWorld
  = (inr sampleCreds, [], onboardedWorld)
  ∧ credentials.SaveCredentials (json := Reference.codec) "S1" sampleCreds freshWorld
    = (None, [], onboardedWorld).
Proof.
  destruct (save_overwrites_wholesale (json := Reference.codec) freshWorld
              (world_of (credentials.SaveCredentials (json := Reference.codec)
                           "S1" otherCreds freshWorld))
              onboardedWorld "S1" otherCreds sampleCreds [] []) as [Hsingle Hget].
  - vm_compute. reflexivity.
  - vm_compute. reflexivity.
  - intros data Hm. vm_compute in Hm. injection Hm as <-. vm_compute. reflexivity.
  - intros data Hm. vm_compute in Hm. injection Hm as <-. vm_compute. reflexivity.
  - exact (conj Hget Hsingle).
Defined.

(** X3. A save never overwrites a store file it cannot read or decode:
    when reading fails for another reason than a missing file, or the
    contents do not decode, it returns the load error wrapped in
    "failed to load existing credentials: " and leaves the file as it
    is. *)
Theorem save_refuses_unloadable_store {json : JSON} (w : World) (T : string)
    (B : JiraCredentials) :
  (∀ err, credsFile w = Unreadable err → os_IsNotExist (Some err) = false →
     credentials.SaveCredentials T B w
     = (Some (Errorf_w "failed to load existing credentials: " err), [], w))
  ∧ (∀ data err, credsFile w = Contents data → (json_Unmarshal data).2 = Some err →
     credentials.SaveCredentials T B w
     = (Some (Errorf_w "failed to load existing credentials: "
                (Errorf_w "failed to unmarshal credentials: " err)), [], w)).
Proof.
  split.
  - intros err Hf Hne. apply SaveCredentials_load_error; [|done].
    unfold credentials.loadAllCredentials, value_of. unfold_M. by rewrite Hf.
  - intros data err Hf Hdec. apply SaveCredentials_load_error; [|done].
    rewrite (loadAllCredentials_Contents w data Hf).
    destruct (json_Unmarshal data) as [m [e|]]; cbn in *; congruence.
Qed.

Lemma save_refuses_unloadable_store_witness :
  ∃ err,
    credentials.SaveCredentials (json := Reference.codec) "S1" sampleCreds corruptWorld
    = (Some (Errorf_w "failed to load existing credentials: "
               (Errorf_w "failed to unmarshal credentials: " err)), [], corruptWorld).
Proof.
  eexists.
  apply (proj2 (save_refuses_unloadable_store (json := Reference.codec) corruptWorld "S1"
                  sampleCreds) "{").
  - reflexivity.
  - vm_compute. reflexivity.
Defined.

(** X4. On a missing store file, and on one that holds the JSON document
    [null], a save creates the collection: when the bundle serialises and
    the file can be written, the file afterwards holds the collection with
    exactly the saved bundle, under the tenant's key. *)
Theorem save_creates_store {json : JSON} (w : World) (T : string) (B : JiraCredentials)
    (data : string) :
  credsFile w = NoFile
  ∨ (∃ data0, credsFile w = Contents data0 ∧ json_Unmarshal data0 = (None, None)) →
  json_MarshalIndent {[ credentials.spaceKey T := B ]} = (data, None) →
  writeErr w = None →
  credentials.SaveCredentials T B w
  = (None, [], {| credsFile := Contents data; writeErr := None;
                  jobs := jobs w; drawn := drawn w |}).
Proof.
  intros Hfile Hmar Hwe. rewrite SaveCredentials_run.
  assert (Hbefore : stored_before w = ∅
                    ∧ match (value_of (credentials.loadAllCredentials w)).2 with
                      | Some e => os_IsNotExist (Some e) = true
                      | None => True
                      end).
  { unfold stored_before. destruct Hfile as [Hf | (data0 & Hf & Hnull)].
    - destruct (loadAllCredentials_NoFile w Hf) as (err & -> & Hne). done.
    - rewrite (loadAllCredentials_Contents w data0 Hf), Hnull. done. }
  destruct Hbefore as [-> Hload]. unfold store_run. rewrite insert_empty, Hmar, Hwe.
  destruct ((value_of (credentials.loadAllCredentials w)).2) as [e|]; [|done].
  by rewrite Hload.
Qed.

Lemma save_creates_store_witness :
  credentials.SaveCredentials (json := Reference.codec) "" sampleCreds freshWorld
  = (None, [], {| credsFile := Contents (Reference.print_collection {[ "default" := sampleCreds ]});
                  writeErr := None; jobs := ∅; drawn := 0 |})
  ∧ credentials.SaveCredentials (json := Reference.codec) "S1" sampleCreds nullWorld
    = (None, [], onboardedWorld).
Proof.
  split.
  - apply (save_creates_store (json := Reference.codec) freshWorld "" sampleCreds).
    + left. reflexivity.
    + reflexivity.
    + reflexivity.
  - apply (save_creates_store (json := Reference.codec) nullWorld "S1" sampleCreds).
    + right. exists "null". split; [reflexivity|vm_compute; reflexivity].
    + reflexivity.
    + reflexivity.
Defined.

(** X5. A store file that holds the JSON document [null] reads as an
    empty collection: no tenant is listed and none has credentials, and
    no error is reported by the listing. *)
Theorem null_store_reads_empty {json : JSON} (w : World) (T data : string) :
  credsFile w = Contents data → json_Unmarshal data = (None, None) →
  credentials.GetAllSpaces w = ([], None, [], w)
  ∧ credentials.HasCredentials T w = (false, [], w)
  ∧ credentials.GetCredentials T w
    = (inl (Errorf_s ("credentials not found for space: " ++ credentials.spaceKey T)), [], w).
Proof.
  intros Hf Hnull.
  assert (Hl : value_of (credentials.loadAllCredentials w) = (None, None)).
  { by rewrite (loadAllCredentials_Contents w data Hf), Hnull. }
  assert (Hget : credentials.GetCredentials T w
                 = (inl (Errorf_s ("credentials not found for space: "
                                   ++ credentials.spaceKey T)), [], w)).
  { rewrite GetCredentials_run, Hl. cbn. by rewrite lookup_empty. }
  split; [|split; [|done]].
  - unfold credentials.GetAllSpaces.
    rewrite (bind_silent _ _ _ _ (loadAllCredentials_silent w)), Hl.
    cbn. by rewrite map_fold_empty.
  - rewrite HasCredentials_run. by rewrite Hget.
Qed.

Lemma null_store_reads_empty_witness :
  credentials.GetAllSpaces (json := Reference.codec) nullWorld = ([], None, [], nullWorld)
  ∧ credentials.HasCredentials (json := Reference.codec) "S1" nullWorld
    = (false, [], nullWorld).
Proof.
  destruct (null_store_reads_empty (json := Reference.codec) nullWorld "S1" "null")
    as (Hlist & Hhas & _).
  - reflexivity.
  - vm_compute. reflexivity.
  - exact (conj Hlist Hhas).
Defined.

(** X6. After a successful save the listing holds the saved tenant's key
    ([""] as ["default"]) together with the keys that were stored before,
    each once, and reports no error. *)
Theorem list_after_save {json : JSON} (w w' : World) (T : string) (B : JiraCredentials)
    (t : list Event) :
  credentials.SaveCredentials T B w = (None, t, w') →
  decodes_back (<[credentials.spaceKey T := B]> (stored_before w)) →
  ∃ spaces,
    credentials.GetAllSpaces w' = (spaces, None, [], w')
    ∧ NoDup spaces
    ∧ ∀ k, k ∈ spaces ↔ k = credentials.spaceKey T ∨ is_Some (stored_before w !! k).
Proof.
  intros Hsave Hback.
  pose proof (load_after_save w w' T B t Hsave Hback) as Hl.
  unfold credentials.GetAllSpaces.
  rewrite (bind_silent _ _ _ _ (loadAllCredentials_silent w')), Hl.
  eexists. split; [reflexivity|].
  destruct (range_keys (<[credentials.spaceKey T := B]> (stored_before w))) as [Hnd Hel].
  split; [exact Hnd|]. intros k. cbn [or_empty default from_option] in *.
  rewrite (Hel k). destruct (decide (credentials.spaceKey T = k)) as [<-|Hne].
  - rewrite lookup_insert_eq. split; [by left|eauto].
  - rewrite lookup_insert_ne by done. split; [by right|]. by intros [->|?].
Qed.

Lemma list_after_save_witness :
  ∃ spaces,
    credentials.GetAllSpaces (json := Reference.codec) twoTenantsWorld
    = (spaces, None, [], twoTenantsWorld)
    ∧ NoDup spaces
    ∧ ∀ k, k ∈ spaces ↔ k = "S2" ∨ is_Some (stored_before (json := Reference.codec) onboardedWorld !! k).
Proof.
  apply (list_after_save (json := Reference.codec) onboardedWorld twoTenantsWorld "S2"
           otherCreds []).
  - vm_compute. reflexivity.
  - intros data Hm. vm_compute in Hm. injection Hm as <-. vm_compute. reflexivity.
Defined.

(** ** Topic router: what it returns *)

Section RouterRange.
Import Router.

Lemma scan_in_parts (parts rest : list string) (i : nat) :
  scan parts i rest = "" ∨ scan parts i rest ∈ parts.
Proof.
  revert i. induction rest as [|part rest IH]; intros i; cbn [scan]; [by left|].
  destruct (String.eqb part "bin" && (i + 1 <? length parts)%nat) eqn:Hc; [|apply IH].
  right. apply andb_true_iff in Hc as [_ Hlt]. apply Nat.ltb_lt in Hlt.
  apply list_elem_of_In, nth_In, Hlt.
Qed.

End RouterRange.

(** X7. The tenant identifier the router returns is either empty or one
    of the topic's segments; it never holds a dot. *)
Theorem extracted_space_is_a_segment (subject : string) :
  Router.segment (Router.extractSpaceIdFromSubject subject)
  ∧ (Router.extractSpaceIdFromSubject subject = ""
     ∨ Router.extractSpaceIdFromSubject subject ∈ strings.Split subject "."%char).
Proof.
  unfold Router.extractSpaceIdFromSubject.
  destruct (scan_in_parts (strings.Split subject ".") (strings.Split subject ".") 0)
    as [Hempty | Hin].
  - rewrite Hempty. split; [reflexivity|by left].
  - split; [|by right].
    destruct (Split_segments subject) as [_ Hall].
    rewrite Forall_forall in Hall. by apply Hall.
Qed.

(** ** API adapter: the request and the error message *)

Section Strings.

Lemma TrimSuffix_cons (c c' : ascii) (s : string) (x : ascii) :
  strings.TrimSuffix (String c (String c' s)) x
  = String c (strings.TrimSuffix (String c' s) x).
Proof. reflexivity. Qed.

Lemma TrimSuffix_snoc (s : string) :
  strings.TrimSuffix (s ++ "/") "/"%char = s.
Proof.
  induction s as [|c s IH]; [reflexivity|].
  change (String c s ++ "/") with (String c (s ++ "/")).
  assert (Hs : ∃ c' s', s ++ "/" = String c' s') by (destruct s; cbn; eauto).
  destruct Hs as (c' & s' & Hs).
  rewrite Hs, TrimSuffix_cons, <- Hs. by rewrite IH.
Qed.

Lemma TrimSuffix_id (s : string) :
  trailingSlash s = false → strings.TrimSuffix s "/"%char = s.
Proof.
  induction s as [|c s IH]; [reflexivity|].
  destruct s as [|c' s'].
  - cbn. by intros ->.
  - intros Hs. by rewrite TrimSuffix_cons, IH.
Qed.

Lemma HasPrefix_nil (s : string) : strings.HasPrefix s "" = true.
Proof. by destruct s. Qed.

Lemma HasPrefix_app (p s : string) : strings.HasPrefix (p ++ s) p = true.
Proof.
  induction p as [|c p IH]; [by destruct s|].
  change (String c p ++ s) with (String c (p ++ s)).
  cbn [strings.HasPrefix]. by rewrite Ascii.eqb_refl, IH.
Qed.

Lemma HasPrefix_app_l (s t p : string) :
  strings.HasPrefix s p = true → strings.HasPrefix (s ++ t) p = true.
Proof.
  revert s. induction p as [|c p IH]; intros s; [by destruct s, t|].
  destruct s as [|c' s]; [done|].
  change (String c' s ++ t) with (String c' (s ++ t)).
  cbn [strings.HasPrefix].
  intros Hp. apply andb_true_iff in Hp as [-> Hp]. by rewrite IH.
Qed.

Lemma Contains_app_l (s t p : string) :
  strings.Contains s p = true → strings.Contains (s ++ t) p = true.
Proof.
  induction s as [|c s IH].
  - cbn [strings.Contains]. rewrite orb_false_r. intros Hp.
    destruct p; [by destruct t|done].
  - change (String c s ++ t) with (String c (s ++ t)).
    cbn [strings.Contains]. intros Hp. apply orb_true_iff in Hp as [Hp|Hp].
    + apply (HasPrefix_app_l _ t) in Hp.
      change (String c s ++ t) with (String c (s ++ t)) in Hp. by rewrite Hp.
    + rewrite (IH Hp). apply orb_true_r.
Qed.

Lemma Contains_app_r (s t p : string) :
  strings.Contains t p = true → strings.Contains (s ++ t) p = true.
Proof.
  intros Hp. induction s as [|c s IH]; [done|].
  change (String c s ++ t) with (String c (s ++ t)).
  cbn [strings.Contains]. rewrite IH. apply orb_true_r.
Qed.

Lemma append_empty_r (s : string) : s ++ "" = s.
Proof.
  induction s as [|a s IH]; [done|].
  change (String a s ++ "") with (String a (s ++ "")). by rewrite IH.
Qed.

Lemma Contains_refl (p : string) : strings.Contains p p = true.
Proof.
  pose proof (HasPrefix_app p "") as Hp. rewrite append_empty_r in Hp.
  destruct p as [|c p]; [reflexivity|].
  cbn [strings.Contains]. by rewrite Hp.
Qed.

(** A text that one of the joined parts contains is in the joined text. *)
Lemma Contains_Join (parts : list string) (sep part p : string) :
  part ∈ parts → strings.Contains part p = true →
  strings.Contains (strings.Join parts sep) p = true.
Proof.
  intros Hin Hp. induction parts as [|e [|e' es] IH].
  - by apply elem_of_nil in Hin.
  - apply list_elem_of_singleton in Hin as ->. done.
  - change (strings.Join (e :: e' :: es) sep)
      with (e ++ sep ++ strings.Join (e' :: es) sep).
    apply elem_of_cons in Hin as [->|Hin].
    + by apply Contains_app_l.
    + apply Contains_app_r, Contains_app_r. by apply IH.
Qed.

End Strings.

(** X8. [makeRequest] builds the same URL whether or not the base URL
    ends in a slash and whether or not the endpoint starts with one: one
    trailing slash of the base URL is dropped (one only) and the endpoint
    gets its leading slash. *)
Theorem requestURL_normalises (base endpoint email token : string) :
  let jc := fun b => {| client.BaseURL := b; client.ClientEmail := email;
                        client.ClientAPIToken := token |} in
  strings.HasPrefix endpoint "/" = false →
  trailingSlash base = false →
  client.requestURL (jc base) endpoint = base ++ "/" ++ endpoint
  ∧ client.requestURL (jc (base ++ "/")) endpoint = base ++ "/" ++ endpoint
  ∧ client.requestURL (jc base) ("/" ++ endpoint) = base ++ "/" ++ endpoint
  ∧ client.requestURL (jc (base ++ "/")) ("/" ++ endpoint) = base ++ "/" ++ endpoint
  ∧ client.requestURL (jc ((base ++ "/") ++ "/")) endpoint = (base ++ "/") ++ "/" ++ endpoint.
Proof.
  intros jc Hend Hbase. unfold client.requestURL. subst jc. cbn [client.BaseURL].
  rewrite !TrimSuffix_snoc, (TrimSuffix_id base Hbase), Hend.
  assert (Hslash : strings.HasPrefix ("/" ++ endpoint) "/" = true).
  { change ("/" ++ endpoint) with (String "/" endpoint). cbn [strings.HasPrefix].
    by rewrite Ascii.eqb_refl, HasPrefix_nil. }
  rewrite Hslash. cbn [negb]. done.
Qed.

Lemma requestURL_normalises_witness :
  client.requestURL (client.NewJiraClient sampleCreds) "rest/api/2/project"
  = "https://x.atlassian.net/rest/api/2/project"
  ∧ client.requestURL (client.NewJiraClient otherCreds) "/rest/api/2/project"
    = "https://y.atlassian.net/rest/api/2/project".
Proof.
  destruct (requestURL_normalises "https://x.atlassian.net" "rest/api/2/project"
              "a@b.com" "tok") as (H1 & _); [reflexivity..|].
  destruct (requestURL_normalises "https://y.atlassian.net" "rest/api/2/project"
              "c@d.com" "tok2") as (_ & _ & _ & H4 & _); [reflexivity..|].
  split; [exact H1|exact H4].
Defined.

Section OneCall.
Context {json : JSON} {env : Env}.

Lemma at_most_one_call_ret {A} (a : A) (w : World) :
  at_most_one_call ((mret a : M A) w) w.
Proof. split; [reflexivity|by left]. Qed.

(** A pure continuation adds no call. *)
Lemma at_most_one_call_bind {A B} (m : M A) (k : A → M B) (w : World) :
  at_most_one_call (m w) w →
  (∀ a, ∃ b, k a = mret b) →
  at_most_one_call ((m ≫= k) w) w.
Proof.
  intros [Hw Ht] Hk. rewrite bind_run.
  destruct (Hk (value_of (m w))) as [b Hb]. rewrite Hb, Hw.
  unfold at_most_one_call, world_of, trace_of, mret, M_ret. cbn [fst snd].
  split; [reflexivity|]. by rewrite app_nil_r.
Qed.

Lemma makeRequest_one_call (jc : client.JiraClient) (method endpoint : string)
    (body : option string) (w : World) :
  at_most_one_call (client.makeRequest jc method endpoint body w) w.
Proof.
  unfold client.makeRequest.
  destruct (http_NewRequest method (client.requestURL jc endpoint)) as [err|].
  - apply at_most_one_call_ret.
  - destruct (http_Do (client.requestOf jc method endpoint body)) as [resp [err|]];
      (split; [reflexivity|right; eexists; reflexivity]).
Qed.

Lemma ListProjects_one_call (jc : client.JiraClient) (w : World) :
  at_most_one_call (client.ListProjects jc w) w.
Proof.
  unfold client.ListProjects.
  apply at_most_one_call_bind; [apply makeRequest_one_call|].
  intros [err|resp]; [by eexists|].
  destruct (negb (StatusCode resp =? 200)%Z); [by eexists|].
  destruct (ReadErr resp); [by eexists|].
  destruct (sonic_Unmarshal_maps (RespBody resp)) as [projects [err|]]; by eexists.
Qed.

Lemma CreateIssue_one_call (jc : client.JiraClient)
    (projectKey issueType summary description : string)
    (additionalFields : option (gmap string any)) (w : World) :
  at_most_one_call
    (client.CreateIssue jc projectKey issueType summary description additionalFields w) w.
Proof.
  unfold client.CreateIssue.
  destruct (sonic_Marshal _) as [bodyBytes [err|]]; [apply at_most_one_call_ret|].
  apply at_most_one_call_bind; [apply makeRequest_one_call|].
  intros [err|resp]; [by eexists|].
  destruct (ReadErr resp); [by eexists|].
  destruct (negb (StatusCode resp =? 201)%Z); [by eexists|].
  destruct (sonic_Unmarshal_map (RespBody resp)) as [issue [err|]]; by eexists.
Qed.

Lemma DeleteIssue_one_call (jc : client.JiraClient) (issueKeyOrId : string)
    (deleteSubtasks : bool) (w : World) :
  at_most_one_call (client.DeleteIssue jc issueKeyOrId deleteSubtasks w) w.
Proof.
  unfold client.DeleteIssue.
  apply at_most_one_call_bind; [apply makeRequest_one_call|].
  intros [err|resp]; [by eexists|].
  destruct (ReadErr resp); [by eexists|].
  destruct (negb (StatusCode resp =? 204)%Z && negb (StatusCode resp =? 200)%Z); by eexists.
Qed.

Lemma AddComment_one_call (jc : client.JiraClient) (issueKeyOrId commentBody : string)
    (visibility additionalFields : option (gmap string any)) (w : World) :
  at_most_one_call
    (client.AddComment jc issueKeyOrId commentBody visibility additionalFields w) w.
Proof.
  unfold client.AddComment.
  destruct (sonic_Marshal _) as [bodyBytes [err|]]; [apply at_most_one_call_ret|].
  apply at_most_one_call_bind; [apply makeRequest_one_call|].
  intros [err|resp]; [by eexists|].
  destruct (ReadErr resp); [by eexists|].
  destruct (negb (StatusCode resp =? 201)%Z); [by eexists|].
  destruct (sonic_Unmarshal_map (RespBody resp)) as [comment [err|]]; by eexists.
Qed.

Lemma ListProjectsAction_one_call (creds : JiraCredentials) (body : gmap string any)
    (w : World) :
  at_most_one_call (projects.ListProjectsAction creds body w) w.
Proof.
  unfold projects.ListProjectsAction.
  apply at_most_one_call_bind; [apply ListProjects_one_call|].
  intros [projects [err|]]; by eexists.
Qed.

Lemma CreateIssueAction_one_call (creds : JiraCredentials) (body : gmap string any)
    (w : World) :
  at_most_one_call (issues.CreateIssueAction creds body w) w.
Proof.
  unfold issues.CreateIssueAction.
  destruct (String.eqb _ ""); [apply at_most_one_call_ret|].
  destruct (String.eqb _ ""); [apply at_most_one_call_ret|].
  destruct (String.eqb _ ""); [apply at_most_one_call_ret|].
  apply at_most_one_call_bind; [apply CreateIssue_one_call|].
  intros [issue [err|]]; by eexists.
Qed.

Lemma DeleteIssueAction_one_call (creds : JiraCredentials) (body : gmap string any)
    (w : World) :
  at_most_one_call (issues.DeleteIssueAction creds body w) w.
Proof.
  unfold issues.DeleteIssueAction.
  destruct (String.eqb _ ""); [apply at_most_one_call_ret|].
  apply at_most_one_call_bind; [apply DeleteIssue_one_call|].
  intros [err|]; by eexists.
Qed.

Lemma AddCommentAction_one_call (creds : JiraCredentials) (body : gmap string any)
    (w : World) :
  at_most_one_call (issues.AddCommentAction creds body w) w.
Proof.
  unfold issues.AddCommentAction.
  destruct (String.eqb _ ""); [apply at_most_one_call_ret|].
  destruct (String.eqb _ ""); [apply at_most_one_call_ret|].
  apply at_most_one_call_bind; [apply AddComment_one_call|].
  intros [comment [err|]]; by eexists.
Qed.

End OneCall.

(** X9. Each business function ([projects.list], [issues.create],
    [issues.delete], [issues.comment]) makes no remote call or exactly
    one, whatever the body and whatever the remote service answers, and
    leaves the credentials file, the job table and the UUID source as
    they are: nothing is retried. *)
Theorem business_functions_call_once {json : JSON} {env : Env}
    (creds : JiraCredentials) (body : gmap string any) (w : World) :
  at_most_one_call (projects.ListProjectsAction creds body w) w
  ∧ at_most_one_call (issues.CreateIssueAction creds body w) w
  ∧ at_most_one_call (issues.DeleteIssueAction creds body w) w
  ∧ at_most_one_call (issues.AddCommentAction creds body w) w.
Proof.
  split; [|split; [|split]].
  - apply ListProjectsAction_one_call.
  - apply CreateIssueAction_one_call.
  - apply DeleteIssueAction_one_call.
  - apply AddCommentAction_one_call.
Qed.

(** X10. [DeleteIssue] returns no error exactly when the request could
    be built, the transport answered, the body could be read and the
    status is 204 or 200. The request goes to
    [/rest/api/2/issue/<key>], with [?deleteSubtasks=true] appended when
    the flag is set. *)
Theorem DeleteIssue_succeeds_iff {json : JSON} {env : Env}
    (jc : client.JiraClient) (key : string) (flag : bool) (w : World) :
  let endpoint := if flag then "/rest/api/2/issue/" ++ key ++ "?deleteSubtasks=true"
                  else "/rest/api/2/issue/" ++ key in
  value_of (client.DeleteIssue jc key flag w) = None
  ↔ http_NewRequest "DELETE" (client.requestURL jc endpoint) = None
    ∧ ∃ resp,
        http_Do (client.requestOf jc "DELETE" endpoint None) = (resp, None)
        ∧ ReadErr resp = None
        ∧ (StatusCode resp = 204 ∨ StatusCode resp = 200)%Z.
Proof.
  intros endpoint. unfold client.DeleteIssue.
  assert (Hend : (if flag then ("/rest/api/2/issue/" ++ key) ++ "?deleteSubtasks=true"
                  else "/rest/api/2/issue/" ++ key) = endpoint).
  { subst endpoint. destruct flag; reflexivity. }
  cbv zeta. rewrite Hend. clearbody endpoint.
  rewrite bind_run. unfold client.makeRequest.
  destruct (http_NewRequest "DELETE" (client.requestURL jc endpoint)) as [e|].
  { unfold value_of, mret, M_ret. cbn. split; [done|]. by intros [? _]. }
  destruct (http_Do (client.requestOf jc "DELETE" endpoint None)) as [resp [e|]] eqn:Hdo.
  { unfold value_of, world_of, mbind, M_bind, mret, M_ret, emit. cbn.
    split; [done|]. by intros (_ & resp' & ? & _). }
  unfold value_of, world_of, mbind, M_bind, mret, M_ret, emit. cbn.
  destruct (ReadErr resp) as [e|] eqn:Hread; cbn.
  { split; [done|]. intros (_ & resp' & [= <-] & Hr & _). congruence. }
  destruct (Z.eqb_spec (StatusCode resp) 204) as [H204|H204];
    destruct (Z.eqb_spec (StatusCode resp) 200) as [H200|H200]; cbn.
  - split; [|done]. intros _. split; [done|]. exists resp. auto.
  - split; [|done]. intros _. split; [done|]. exists resp. auto.
  - split; [|done]. intros _. split; [done|]. exists resp. auto.
  - split; [done|]. intros (_ & resp' & [= <-] & _ & [?|?]); done.
Qed.

Lemma DeleteIssue_succeeds_iff_witness :
  value_of (client.DeleteIssue (json := Reference.codec) (env := deletingJira)
              (client.NewJiraClient sampleCreds) "COM-69" true onboardedWorld) = None.
Proof.
  apply (DeleteIssue_succeeds_iff (json := Reference.codec) (env := deletingJira)
           (client.NewJiraClient sampleCreds) "COM-69" true onboardedWorld).
  split; [reflexivity|].
  exists {| StatusCode := 204; RespBody := ""; ReadErr := None |}.
  split; [reflexivity|]. split; [reflexivity|]. by left.
Defined.

Section ErrorMessage.
Context {json : JSON}.

(** The range over [Errors] appends one "field: message" per entry. *)
Lemma fieldErrorsOf_elem (errors : option (gmap string string)) (field msg : string) :
  or_empty errors !! field = Some msg →
  (field ++ ": " ++ msg) ∈ client.fieldErrorsOf errors.
Proof.
  unfold client.fieldErrorsOf. generalize (or_empty errors) as m. intros m. revert field msg.
  apply (map_fold_weak_ind
           (fun (r : list string) (m : gmap string string) =>
              ∀ field msg, m !! field = Some msg → (field ++ ": " ++ msg) ∈ r)).
  - intros field msg. by rewrite lookup_empty.
  - intros i x m' r Hi IH field msg. rewrite elem_of_app, list_elem_of_singleton.
    destruct (decide (i = field)) as [->|Hne].
    + rewrite lookup_insert_eq. intros [= ->]. by right.
    + rewrite lookup_insert_ne by done. intros Hf. left. by apply IH.
Qed.

Lemma errorPartsOf_messages (label : string) (je : jiraError) (m : string) :
  m ∈ ErrorMessages je → m ∈ client.errorPartsOf label je.
Proof.
  intros Hm. unfold client.errorPartsOf.
  destruct (0 <? size (or_empty (Errors je)))%nat; [|done].
  destruct (0 <? length (client.fieldErrorsOf (Errors je)))%nat; [|done].
  apply elem_of_app. by left.
Qed.

Lemma errorPartsOf_fields (label : string) (je : jiraError) (field msg : string) :
  or_empty (Errors je) !! field = Some msg →
  ∃ part, part ∈ client.errorPartsOf label je
          ∧ strings.Contains part (field ++ ": " ++ msg) = true.
Proof.
  intros Hf. pose proof (fieldErrorsOf_elem (Errors je) field msg Hf) as Hin.
  unfold client.errorPartsOf.
  assert (Hsize : (0 <? size (or_empty (Errors je)))%nat = true).
  { apply Nat.ltb_lt. destruct (size (or_empty (Errors je))) eqn:Hs; [|lia].
    apply map_size_empty_inv in Hs. rewrite Hs, lookup_empty in Hf. done. }
  assert (Hlen : (0 <? length (client.fieldErrorsOf (Errors je)))%nat = true).
  { apply Nat.ltb_lt. destruct (client.fieldErrorsOf (Errors je)); [|cbn; lia].
    by apply elem_of_nil in Hin. }
  rewrite Hsize, Hlen. eexists. split.
  - apply elem_of_app. right. apply list_elem_of_singleton. reflexivity.
  - apply Contains_app_r. eapply Contains_Join; [exact Hin|apply Contains_refl].
Qed.

Lemma statusError_joined (label body : string) (status : Z) (je : jiraError) (part : string) :
  sonic_Unmarshal_jiraError body = (je, None) →
  part ∈ client.errorPartsOf label je →
  Error (client.statusError label status body)
  = "Jira API error (status " ++ itoa status ++ "): "
    ++ strings.Join (client.errorPartsOf label je) ". ".
Proof.
  intros Hdec Hin. unfold client.statusError. rewrite Hdec.
  destruct (client.errorPartsOf label je) as [|p ps]; [by apply elem_of_nil in Hin|].
  reflexivity.
Qed.

End ErrorMessage.

(** X11. When the error body of an unexpected status decodes, the
    message [CreateIssue], [DeleteIssue] and [AddComment] return contains
    every error message of the body and, for every field error, the text
    "<field>: <message>". *)
Theorem statusError_reports_everything {json : JSON}
    (label body : string) (status : Z) (je : jiraError) :
  sonic_Unmarshal_jiraError body = (je, None) →
  (∀ m, m ∈ ErrorMessages je →
     strings.Contains (Error (client.statusError label status body)) m = true)
  ∧ (∀ field msg, or_empty (Errors je) !! field = Some msg →
       strings.Contains (Error (client.statusError label status body))
         (field ++ ": " ++ msg) = true).
Proof.
  intros Hdec. split.
  - intros m Hm. pose proof (errorPartsOf_messages label je m Hm) as Hin.
    rewrite (statusError_joined label body status je m Hdec Hin).
    apply Contains_app_r, Contains_app_r, Contains_app_r.
    eapply Contains_Join; [exact Hin|apply Contains_refl].
  - intros field msg Hf.
    destruct (errorPartsOf_fields label je field msg Hf) as (part & Hin & Hpart).
    rewrite (statusError_joined label body status je part Hdec Hin).
    apply Contains_app_r, Contains_app_r, Contains_app_r.
    eapply Contains_Join; [exact Hin|exact Hpart].
Qed.

Lemma statusError_reports_everything_witness :
  strings.Contains
    (Error (client.statusError (json := Reference.codec) "Errors: " 404 sampleErrorBody))
    "bad" = true
  ∧ strings.Contains
      (Error (client.statusError (json := Reference.codec) "Errors: " 404 sampleErrorBody))
      ("summary" ++ ": " ++ "required") = true.
Proof.
  destruct (statusError_reports_everything (json := Reference.codec) "Errors: " sampleErrorBody
              404 {| ErrorMessages := ["bad"]; Errors := Some {[ "summary" := "required" ]} |})
    as [Hmsg Hfield].
  - vm_compute. reflexivity.
  - split.
    + apply Hmsg. apply list_elem_of_singleton. reflexivity.
    + apply Hfield. vm_compute. reflexivity.
Defined.

(** X12. The raw response body is the fallback: when the error body
    does not decode, or decodes to no error message and no field error,
    the message is "Jira API error (status <code>): " followed by the body
    as received. *)
Theorem statusError_raw_fallback {json : JSON} (label body : string) (status : Z) :
  (∀ err, (sonic_Unmarshal_jiraError body).2 = Some err →
     client.statusError label status body = client.apiError status body)
  ∧ (∀ je, sonic_Unmarshal_jiraError body = (je, None) →
       ErrorMessages je = [] → or_empty (Errors je) = ∅ →
       client.statusError label status body = client.apiError status body).
Proof.
  unfold client.statusError. split.
  - intros err Herr. destruct (sonic_Unmarshal_jiraError body) as [je e].
    cbn in Herr. by subst e.
  - intros je -> Hm He. unfold client.errorPartsOf. rewrite Hm, He.
    by rewrite map_size_empty.
Qed.

Lemma statusError_raw_fallback_witness :
  Error (client.statusError (json := Reference.codec) "Errors: " 502 "Bad Gateway")
  = "Jira API error (status 502): Bad Gateway"
  ∧ Error (client.statusError (json := Reference.codec) "Errors: " 500 "{}")
    = "Jira API error (status 500): {}".
Proof.
  destruct (statusError_raw_fallback (json := Reference.codec) "Errors: " "Bad Gateway" 502)
    as [Hraw _].
  destruct (statusError_raw_fallback (json := Reference.codec) "Errors: " "{}" 500)
    as [_ Hempty].
  split.
  - rewrite (Hraw (LibError "json: invalid character or unexpected end of input"));
      [|vm_compute; reflexivity].
    vm_compute. reflexivity.
  - rewrite (Hempty {| ErrorMessages := []; Errors := None |});
      [|vm_compute; reflexivity|reflexivity|reflexivity].
    vm_compute. reflexivity.
Defined.

Section Precedence.

Lemma usable_spec (v : any) :
  usable v = negb (is_nil v) && negb (is_empty_string v).
Proof. reflexivity. Qed.

End Precedence.

(** X13. In the [fields] object of a create request, an entry of
    [additionalFields] that is neither [nil] nor the empty string takes
    the place of the core field of the same name ([project], [summary],
    [issuetype], [description]); an entry that is [nil] or the empty
    string is dropped and leaves the core field; and [description] is
    absent when it is empty and no such entry gives it. *)
Theorem issueFields_precedence (projectKey issueType summary description : string)
    (additionalFields : option (gmap string any)) (k : string) :
  let fields := client.issueFields projectKey issueType summary description additionalFields in
  (∀ v, or_empty additionalFields !! k = Some v → usable v = true → fields !! k = Some v)
  ∧ ((or_empty additionalFields !! "summary" = None
      ∨ ∃ v, or_empty additionalFields !! "summary" = Some v ∧ usable v = false) →
     fields !! "summary" = Some (VString summary))
  ∧ ((or_empty additionalFields !! "project" = None
      ∨ ∃ v, or_empty additionalFields !! "project" = Some v ∧ usable v = false) →
     fields !! "project" = Some (VMap {[ "key" := VString projectKey ]}))
  ∧ ((or_empty additionalFields !! "issuetype" = None
      ∨ ∃ v, or_empty additionalFields !! "issuetype" = Some v ∧ usable v = false) →
     fields !! "issuetype" = Some (VMap {[ "name" := VString issueType ]}))
  ∧ ((or_empty additionalFields !! "description" = None
      ∨ ∃ v, or_empty additionalFields !! "description" = Some v ∧ usable v = false) →
     fields !! "description"
     = if String.eqb description "" then None else Some (VString description)).
Proof.
  intros fields. subst fields. unfold client.issueFields.
  assert (Hkeep : ∀ key (target : gmap string any),
    (or_empty additionalFields !! key = None
     ∨ ∃ v, or_empty additionalFields !! key = Some v ∧ usable v = false) →
    client.addFields (or_empty additionalFields) target !! key = target !! key).
  { intros key target Hk. rewrite addFields_lookup.
    destruct Hk as [-> | (v & -> & Hv)]; [done|].
    rewrite usable_spec in Hv. by rewrite Hv. }
  split; [|split; [|split; [|split]]].
  - intros v Hk Hv. rewrite addFields_lookup, Hk. rewrite usable_spec in Hv. by rewrite Hv.
  - intros Hk. rewrite (Hkeep _ _ Hk). by destruct (negb (String.eqb description "")).
  - intros Hk. rewrite (Hkeep _ _ Hk). by destruct (negb (String.eqb description "")).
  - intros Hk. rewrite (Hkeep _ _ Hk). by destruct (negb (String.eqb description "")).
  - intros Hk. rewrite (Hkeep _ _ Hk). by destruct (String.eqb description "").
Qed.

Lemma issueFields_precedence_witness :
  client.issueFields "P" "Task" "s" ""
    (Some {[ "summary" := VString "other"; "project" := VNil ]}) !! "summary"
  = Some (VString "other")
  ∧ client.issueFields "P" "Task" "s" ""
      (Some {[ "summary" := VString "other"; "project" := VNil ]}) !! "project"
    = Some (VMap {[ "key" := VString "P" ]})
  ∧ client.issueFields "P" "Task" "s" ""
      (Some {[ "summary" := VString "other"; "project" := VNil ]}) !! "description"
    = None.
Proof.
  destruct (issueFields_precedence "P" "Task" "s" ""
              (Some {[ "summary" := VString "other"; "project" := VNil ]}) "summary")
    as (Hover & _ & Hproject & _ & Hdesc).
  split; [|split].
  - apply Hover; reflexivity.
  - apply Hproject. right. exists VNil. split; reflexivity.
  - apply Hdesc. left. reflexivity.
Defined.

(** X14. The merge of top-level fields keeps the entries of the
    [additionalFields] object: under a key that the body does not hold at
    top level, or holds as a known field, or holds with [nil] or the empty
    string, the merged map has what the object has. A known field never
    enters the merged map from the top level. *)
Theorem merge_keeps_additionalFields (knownFields : gmap string bool)
    (body : gmap string any) (additionalFields : option (gmap string any)) (k : string) :
  (body !! k = None
   ∨ knownFields !! k = Some true
   ∨ ∃ v, body !! k = Some v ∧ usable v = false) →
  issues.mergeOtherFields knownFields body additionalFields !! k
  = or_empty additionalFields !! k.
Proof.
  intros Hk. rewrite mergeOtherFields_lookup.
  destruct (body !! k) as [v|] eqn:Hb; [|done].
  destruct Hk as [Hk | [Hk | (v' & [= <-] & Hv)]]; [done| |].
  - by rewrite Hk.
  - rewrite usable_spec in Hv.
    destruct (negb (default false (knownFields !! k))); [|done].
    cbn [andb]. by rewrite Hv.
Qed.

Lemma merge_keeps_additionalFields_witness :
  issues.mergeOtherFields issues.createKnownFields
    {[ "summary" := VString "s"; "labels" := VString "" ]}
    (Some {[ "summary" := VString "inner"; "labels" := VArray [VString "a"] ]}) !! "summary"
  = Some (VString "inner")
  ∧ issues.mergeOtherFields issues.createKnownFields
      {[ "summary" := VString "s"; "labels" := VString "" ]}
      (Some {[ "summary" := VString "inner"; "labels" := VArray [VString "a"] ]}) !! "labels"
    = Some (VArray [VString "a"]).
Proof.
  split.
  - rewrite merge_keeps_additionalFields; [reflexivity|].
    right. left. reflexivity.
  - rewrite merge_keeps_additionalFields; [reflexivity|].
    right. right. exists (VString ""). split; reflexivity.
Defined.

(** ** Business functions: requests and results *)

Section DeleteAction.
Context {json : JSON} {env : Env}.

Lemma DeleteIssueAction_sends (creds : JiraCredentials) (body : gmap string any) (w : World) :
  issues.stringField body "issueKey" ≠ "" →
  http_NewRequest "DELETE" (URL (deleteRequest creds body)) = None →
  ∃ result, issues.DeleteIssueAction creds body w
            = (result, [EvHTTP (deleteRequest creds body)], w).
Proof.
  intros Hkey Hnew. unfold issues.DeleteIssueAction.
  destruct (String.eqb_spec (issues.stringField body "issueKey") ""); [done|].
  fold (deleteSubtasksOf body). unfold client.DeleteIssue.
  set (endpoint := if deleteSubtasksOf body
                   then ("/rest/api/2/issue/" ++ issues.stringField body "issueKey")
                        ++ "?deleteSubtasks=true"
                   else "/rest/api/2/issue/" ++ issues.stringField body "issueKey").
  assert (Hreq : client.requestOf (client.NewJiraClient creds) "DELETE" endpoint None
                 = deleteRequest creds body).
  { unfold deleteRequest. subst endpoint. by destruct (deleteSubtasksOf body). }
  assert (Hnew' : http_NewRequest "DELETE"
                    (client.requestURL (client.NewJiraClient creds) endpoint) = None).
  { rewrite <- Hreq in Hnew. exact Hnew. }
  destruct (makeRequest_run (client.NewJiraClient creds) "DELETE" endpoint None w Hnew')
    as (r & Hrun & _).
  cbv zeta. fold endpoint. rewrite !bind_run, Hrun, Hreq.
  unfold value_of, trace_of, world_of. cbn [fst snd].
  destruct r as [err|resp]; [by eexists|].
  destruct (ReadErr resp); [by eexists|].
  destruct (negb (StatusCode resp =? 204)%Z && negb (StatusCode resp =? 200)%Z); by eexists.
Qed.

End DeleteAction.

(** X15. The function of [issues.delete] answers a body without
    [issueKey] with the validation error and no remote call; otherwise its
    one call is a [DELETE] of [/rest/api/2/issue/<issueKey>], with
    [?deleteSubtasks=true] exactly when the body's [deleteSubtasks] is the
    JSON boolean [true] (any other value, the string ["true"] included,
    leaves the flag off). *)
Theorem DeleteIssueAction_request {json : JSON} {env : Env}
    (creds : JiraCredentials) (body : gmap string any) (w : World) :
  (issues.stringField body "issueKey" = "" →
     issues.DeleteIssueAction creds body w
     = (issues.validation_error "Issue key or ID is required", [], w))
  ∧ (issues.stringField body "issueKey" ≠ "" →
     http_NewRequest "DELETE" (URL (deleteRequest creds body)) = None →
     trace_of (issues.DeleteIssueAction creds body w) = [EvHTTP (deleteRequest creds body)])
  ∧ (deleteSubtasksOf body = true ↔ body !! "deleteSubtasks" = Some (VBool true)).
Proof.
  split; [|split].
  - intros Hkey. unfold issues.DeleteIssueAction. by rewrite Hkey.
  - intros Hkey Hnew.
    destruct (DeleteIssueAction_sends creds body w Hkey Hnew) as [result ->]. reflexivity.
  - unfold deleteSubtasksOf, index.
    destruct (body !! "deleteSubtasks") as [[| [|] | | | | |]|]; cbn; split; congruence.
Qed.

Lemma DeleteIssueAction_request_witness :
  trace_of (issues.DeleteIssueAction (json := Reference.codec) (env := deletingJira)
              sampleCreds deleteBody onboardedWorld)
  = [EvHTTP {| Method := "DELETE"; URL := "https://x.atlassian.net/rest/api/2/issue/COM-69";
               Header := [("Authorization", "Bearer tok");
                          ("Content-Type", "application/json");
                          ("Accept", "application/json")];
               ReqBody := None |}]
  ∧ URL (deleteRequest sampleCreds deleteBodyWithSubtasks)
    = "https://x.atlassian.net/rest/api/2/issue/COM-69?deleteSubtasks=true".
Proof.
  destruct (DeleteIssueAction_request (json := Reference.codec) (env := deletingJira)
              sampleCreds deleteBody onboardedWorld) as (_ & Hsend & _).
  split.
  - rewrite Hsend; [vm_compute; reflexivity|vm_compute; discriminate|reflexivity].
  - vm_compute. reflexivity.
Defined.

(** X16. The function of [issues.comment] checks [issueKey], then
    [commentBody], and answers the first missing one (absent, not a
    string, or empty) with its validation error and no remote call. *)
Theorem AddComment_validation_order {json : JSON} {env : Env}
    (creds : JiraCredentials) (body : gmap string any) (w : World) :
  (issues.stringField body "issueKey" = "" →
     issues.AddCommentAction creds body w
     = (issues.validation_error "Issue key or ID is required", [], w))
  ∧ (issues.stringField body "issueKey" ≠ "" → issues.stringField body "commentBody" = "" →
     issues.AddCommentAction creds body w
     = (issues.validation_error "Comment body is required", [], w))
  ∧ (body !! "issueKey" = None →
     issues.AddCommentAction creds body w
     = (issues.validation_error "Issue key or ID is required", [], w)).
Proof.
  unfold issues.AddCommentAction. split; [|split].
  - by intros ->.
  - intros Hk ->. by destruct (String.eqb_spec (issues.stringField body "issueKey") "").
  - intros Hk. by rewrite (stringField_absent body "issueKey" Hk).
Qed.

Lemma AddComment_validation_order_witness :
  issues.AddCommentAction (json := Reference.codec) (env := acceptingJira) sampleCreds
    {[ "issueKey" := VString "COM-69"; "commentBody" := VInt 7 ]} onboardedWorld
  = (issues.validation_error "Comment body is required", [], onboardedWorld)
  ∧ issues.AddCommentAction (json := Reference.codec) (env := acceptingJira) sampleCreds
      ∅ onboardedWorld
    = (issues.validation_error "Issue key or ID is required", [], onboardedWorld).
Proof.
  split.
  - apply (AddComment_validation_order (json := Reference.codec) (env := acceptingJira)).
    + vm_compute. discriminate.
    + reflexivity.
  - apply (AddComment_validation_order (json := Reference.codec) (env := acceptingJira)).
    reflexivity.
Defined.

Section Shapes.

Lemma validation_error_shaped (message : string) :
  well_shaped (issues.validation_error message).
Proof.
  left. exists "validation_error", message. repeat split; [by left|reflexivity..].
Qed.

Lemma jira_api_error_shaped (message : string) :
  well_shaped (issues.jira_api_error message).
Proof.
  left. exists "jira_api_error", message. repeat split; [by right|reflexivity..].
Qed.

Lemma shaped_bind {A} (m : M A) (k : A → M (gmap string any)) (w : World) :
  (∀ a w', well_shaped (value_of (k a w'))) → well_shaped (value_of ((m ≫= k) w)).
Proof.
  intros Hk. rewrite bind_run. apply Hk.
Qed.

Lemma success_shaped (message : string) (r : gmap string any) :
  r !! "result" = Some (VString "success") → r !! "message" = Some (VString message) →
  r !! "error" = None → well_shaped r.
Proof.
  intros Hr Hm He. right. exists message. by repeat split.
Qed.

End Shapes.

(** X17. Every result of a business function is an error mapping or a
    success mapping, never both: it carries [error] (["validation_error"]
    or ["jira_api_error"]) with a message and no [result], or
    [result: "success"] with a message and no [error]. A failure of the
    remote call is returned in this shape, not raised. *)
Theorem results_well_shaped {json : JSON} {env : Env}
    (creds : JiraCredentials) (body : gmap string any) (w : World) :
  well_shaped (value_of (projects.ListProjectsAction creds body w))
  ∧ well_shaped (value_of (issues.CreateIssueAction creds body w))
  ∧ well_shaped (value_of (issues.DeleteIssueAction creds body w))
  ∧ well_shaped (value_of (issues.AddCommentAction creds body w)).
Proof.
  split; [|split; [|split]].
  - unfold projects.ListProjectsAction. apply shaped_bind. intros [projects0 [err|]] w'.
    + apply jira_api_error_shaped.
    + eapply success_shaped; reflexivity.
  - unfold issues.CreateIssueAction.
    destruct (String.eqb _ ""); [apply validation_error_shaped|].
    destruct (String.eqb _ ""); [apply validation_error_shaped|].
    destruct (String.eqb _ ""); [apply validation_error_shaped|].
    apply shaped_bind. intros [issue [err|]] w'.
    + apply jira_api_error_shaped.
    + eapply success_shaped; reflexivity.
  - unfold issues.DeleteIssueAction.
    destruct (String.eqb _ ""); [apply validation_error_shaped|].
    apply shaped_bind. intros [err|] w'.
    + apply jira_api_error_shaped.
    + eapply success_shaped; reflexivity.
  - unfold issues.AddCommentAction.
    destruct (String.eqb _ ""); [apply validation_error_shaped|].
    destruct (String.eqb _ ""); [apply validation_error_shaped|].
    apply shaped_bind. intros [comment [err|]] w'.
    + apply jira_api_error_shaped.
    + eapply success_shaped; reflexivity.
Qed.

(** ** Dispatch: replies and what a dispatch leaves behind *)

Section DispatchOutcomes.
Context {json : JSON} {env : Env}.

(** The direct revision from its credentials check on. *)
Lemma Direct_authorized_run (spaceID actionName : string) (actionFunc : ActionFunc)
    (body : gmap string any) (w : World) :
  Direct.authorized spaceID actionName actionFunc body w
  = match value_of (credentials.GetCredentials spaceID w) with
    | inl _ =>
        (tt, [EvRespond (sonic_Marshal (VMap (notConfiguredBody actionName spaceID))).1], w)
    | inr creds =>
        (tt,
         (trace_of (actionFunc creds body w)
          ++ [EvRespond (resultReply (value_of (actionFunc creds body w)))])%list,
         world_of (actionFunc creds body w))
    end.
Proof.
  unfold Direct.authorized.
  rewrite (bind_silent _ _ _ _ (HasCredentials_silent w spaceID)).
  rewrite HasCredentials_run. unfold value_of at 1. cbn [fst].
  destruct (value_of (credentials.GetCredentials spaceID w)) as [err|creds] eqn:Hget.
  - reflexivity.
  - cbn [negb]. rewrite (bind_silent _ _ _ _ (GetCredentials_silent w spaceID)), Hget.
    rewrite bind_run. unfold resultReply.
    destruct (sonic_Marshal (VMap (value_of (actionFunc creds body w)))) as [response [e|]];
      reflexivity.
Qed.

(** The handshake revision from its credentials check on. *)
Lemma Handshake_authorized_run (spaceID actionName : string) (actionFunc : ActionFunc)
    (body : gmap string any) (w : World) :
  let jobID := uuid_New (drawn w) in
  let w1 := if sdk_hasPlugin then job_recorded w jobID spaceID
            else {| credsFile := credsFile w; writeErr := writeErr w;
                    jobs := jobs w; drawn := S (drawn w) |} in
  Handshake.authorized spaceID actionName actionFunc body w
  = match value_of (credentials.GetCredentials spaceID w) with
    | inl _ => (tt, [EvReject (notConfiguredBody actionName spaceID)], w)
    | inr creds =>
        match sonic_Marshal (VMap (Handshake.initResponse jobID)) with
        | (_, Some _) => (tt, [EvReject internalErrorBody], w1)
        | (ackBytes, None) =>
            (tt,
             ([EvRespond ackBytes; EvSleep 1] ++ trace_of (actionFunc creds body w1)
              ++ (if sdk_hasPlugin
                  then [EvDone jobID (value_of (actionFunc creds body w1))] else []))%list,
             world_of (actionFunc creds body w1))
        end
    end.
Proof.
  intros jobID w1.
  destruct (value_of (credentials.GetCredentials spaceID w)) as [err|creds] eqn:Hget.
  - apply authorized_unconfigured. rewrite HasCredentials_run, Hget. reflexivity.
  - destruct (sonic_Marshal (VMap (Handshake.initResponse jobID))) as [ackBytes [e|]] eqn:Hack.
    + unfold Handshake.authorized.
      rewrite (bind_silent _ _ _ _ (HasCredentials_silent w spaceID)).
      rewrite HasCredentials_run, Hget. unfold value_of at 1. cbn [fst negb].
      rewrite (bind_silent _ _ _ _ (GetCredentials_silent w spaceID)), Hget.
      unfold Handshake.uuid_draw, Handshake.sdk_StoreEntityIdForJob,
        Handshake.sdk_RejectWithBody.
      unfold_M. subst jobID w1. cbn beta. rewrite Hack.
      unfold job_recorded. by destruct sdk_hasPlugin.
    + apply (authorized_handshake spaceID actionName actionFunc body w creds ackBytes Hget Hack).
Qed.

(** The body either revision passes on, for every payload it does not
    refuse. *)
Lemma dispatch_cases (msg : Msg) :
  ((0 < String.length (Data msg))%nat ∧ ∃ err, (sonic_Unmarshal_request (Data msg)).2 = Some err)
  ∨ payload_decodes msg.
Proof.
  unfold payload_decodes.
  destruct (String.length (Data msg)) as [|n] eqn:Hlen; [by right; left|].
  destruct (sonic_Unmarshal_request (Data msg)).2 as [err|] eqn:Herr.
  - left. split; [lia|by exists err].
  - right. by right.
Qed.

Lemma Direct_replies_once (msg : Msg) (actionName : string) (actionFunc : ActionFunc)
    (w : World) :
  (∀ creds body w', at_most_one_call (actionFunc creds body w') w') →
  ∃ calls response,
    Direct.handleActionWithCredentialsCheckSync msg actionName actionFunc w
    = (tt, (calls ++ [EvRespond response])%list, w)
    ∧ (calls = [] ∨ ∃ req, calls = [EvHTTP req]).
Proof.
  intros Hf. destruct (dispatch_cases msg) as [[Hlen [err Herr]]|Hdec].
  - destruct (undecodable_payload msg actionName actionFunc w err Hlen Herr) as [-> _].
    exists [], (sonic_Marshal (VMap Direct.invalidRequestBody)).1. split; [reflexivity|by left].
  - destruct (decodable_payload msg actionName actionFunc Hdec) as [-> _].
    rewrite Direct_authorized_run.
    destruct (value_of (credentials.GetCredentials _ w)) as [err|creds].
    + eexists [], _. split; [reflexivity|by left].
    + destruct (Hf creds (decoded_body msg) w) as [Hw Ht]. rewrite Hw.
      eexists _, _. split; [reflexivity|exact Ht].
Qed.

Lemma Handshake_outcomes (msg : Msg) (actionName : string) (actionFunc : ActionFunc)
    (w : World) :
  (∀ creds body w', at_most_one_call (actionFunc creds body w') w') →
  credsFile (world_of (Handshake.handleActionWithCredentialsCheckSync msg actionName
                         actionFunc w)) = credsFile w
  ∧ ((∃ body, trace_of (Handshake.handleActionWithCredentialsCheckSync msg actionName
                          actionFunc w) = [EvReject body])
     ∨ ∃ ackBytes calls result,
         trace_of (Handshake.handleActionWithCredentialsCheckSync msg actionName
                     actionFunc w)
         = ([EvRespond ackBytes; EvSleep 1] ++ calls
            ++ (if sdk_hasPlugin then [EvDone (uuid_New (drawn w)) result] else []))%list
         ∧ (calls = [] ∨ ∃ req, calls = [EvHTTP req])).
Proof.
  intros Hf. destruct (dispatch_cases msg) as [[Hlen [err Herr]]|Hdec].
  - destruct (undecodable_payload msg actionName actionFunc w err Hlen Herr) as [_ ->].
    split; [reflexivity|]. left. by eexists.
  - destruct (decodable_payload msg actionName actionFunc Hdec) as [_ ->].
    rewrite Handshake_authorized_run.
    destruct (value_of (credentials.GetCredentials _ w)) as [err|creds].
    + split; [reflexivity|]. left. by eexists.
    + destruct (sonic_Marshal (VMap (Handshake.initResponse _))) as [ackBytes [e|]].
      * split; [by destruct sdk_hasPlugin|]. left. by eexists.
      * match goal with
        | |- context [actionFunc creds ?b ?w1] =>
            destruct (Hf creds b w1) as [Hw Ht]; rewrite Hw
        end.
        split; [by destruct sdk_hasPlugin|]. right.
        eexists _, _, _. split; [reflexivity|exact Ht].
Qed.

End DispatchOutcomes.

(** X18. In the direct-reply revision, an invocation whose payload
    decodes and whose tenant has credentials runs the business function
    with these credentials and the decoded body in the current world, and
    then replies once: the function's result serialised, or the
    [internal_error] mapping when the result cannot be serialised. No job
    id is drawn and nothing is acknowledged beforehand. *)
Theorem direct_replies_with_result {json : JSON} {env : Env}
    (msg : Msg) (actionName : string) (actionFunc : ActionFunc) (w : World)
    (creds : JiraCredentials) :
  payload_decodes msg →
  value_of (credentials.GetCredentials (Router.extractSpaceIdFromSubject (Subject msg)) w)
    = inr creds →
  Direct.handleActionWithCredentialsCheckSync msg actionName actionFunc w
  = (tt,
     (trace_of (actionFunc creds (decoded_body msg) w)
      ++ [EvRespond (resultReply (value_of (actionFunc creds (decoded_body msg) w)))])%list,
     world_of (actionFunc creds (decoded_body msg) w))
  ∧ (∀ result response, sonic_Marshal (VMap result) = (response, None) →
       resultReply result = response)
  ∧ (∀ result response err, sonic_Marshal (VMap result) = (response, Some err) →
       resultReply result = (sonic_Marshal (VMap internalErrorBody)).1).
Proof.
  intros Hdec Hget. split; [|split].
  - destruct (decodable_payload msg actionName actionFunc Hdec) as [-> _].
    by rewrite Direct_authorized_run, Hget.
  - intros result response Hm. unfold resultReply. by rewrite Hm.
  - intros result response err Hm. unfold resultReply. by rewrite Hm.
Qed.

Lemma direct_replies_with_result_witness :
  ∃ request,
    Direct.handleActionWithCredentialsCheckSync (json := Reference.codec)
      createMsg "issues.create" createAction onboardedWorld
    = (tt,
       [EvHTTP request;
        EvRespond (resultReply (json := Reference.codec)
                     (value_of (createAction sampleCreds (decoded_body (json := Reference.codec)
                                                            createMsg) onboardedWorld)))],
       onboardedWorld)
    ∧ Method request = "POST"
    ∧ URL request = "https://x.atlassian.net/rest/api/2/issue".
Proof.
  destruct (direct_replies_with_result (json := Reference.codec) (env := acceptingJira)
              createMsg "issues.create" createAction onboardedWorld sampleCreds) as [Hrun _].
  - right. vm_compute. reflexivity.
  - vm_compute. reflexivity.
  - eexists. rewrite Hrun. split; [|split].
    + vm_compute. reflexivity.
    + vm_compute. reflexivity.
    + vm_compute. reflexivity.
Defined.

(** X19. Each handler of package [issues] ([issues.create],
    [issues.delete], [issues.comment]), run through the direct-reply
    revision of the package's helper, answers every message exactly once,
    as its last event, after no remote call or exactly one, and leaves
    the credentials file, the job table and the UUID source as they were:
    whatever the payload, the store and the remote service. *)
Theorem direct_handlers_reply_once {json : JSON} {env : Env} (msg : Msg) (w : World) :
  ∀ handler,
    handler ∈ [Direct.CreateIssueHandler; Direct.DeleteIssueHandler;
               Direct.AddCommentHandler] →
    ∃ calls response,
      handler msg w = (tt, (calls ++ [EvRespond response])%list, w)
      ∧ (calls = [] ∨ ∃ req, calls = [EvHTTP req]).
Proof.
  intros handler Hin.
  repeat (apply elem_of_cons in Hin as [->|Hin]); [..|by apply elem_of_nil in Hin].
  - apply Direct_replies_once. apply CreateIssueAction_one_call.
  - apply Direct_replies_once. apply DeleteIssueAction_one_call.
  - apply Direct_replies_once. apply AddCommentAction_one_call.
Qed.

(** X20. Each handler of the handshake revision ([issues.create],
    [issues.delete], [issues.comment]) ends every invocation in one of two
    ways: one rejection and nothing else, or the acknowledgement, the
    pause, no remote call or exactly one, and (with a plugin instance) one
    completion event under the job id drawn for this invocation. A
    rejected invocation never reaches the remote service, and no
    invocation changes the credentials file. *)
Theorem handshake_handlers_outcomes {json : JSON} {env : Env} (msg : Msg) (w : World) :
  ∀ handler,
    handler ∈ [Handshake.CreateIssueHandler; Handshake.DeleteIssueHandler;
               Handshake.AddCommentHandler] →
    credsFile (world_of (handler msg w)) = credsFile w
    ∧ ((∃ body, trace_of (handler msg w) = [EvReject body])
       ∨ ∃ ackBytes calls result,
           trace_of (handler msg w)
           = ([EvRespond ackBytes; EvSleep 1] ++ calls
              ++ (if sdk_hasPlugin then [EvDone (uuid_New (drawn w)) result] else []))%list
           ∧ (calls = [] ∨ ∃ req, calls = [EvHTTP req])).
Proof.
  intros handler Hin.
  repeat (apply elem_of_cons in Hin as [->|Hin]); [..|by apply elem_of_nil in Hin].
  - apply Handshake_outcomes. apply CreateIssueAction_one_call.
  - apply Handshake_outcomes. apply DeleteIssueAction_one_call.
  - apply Handshake_outcomes. apply AddCommentAction_one_call.
Qed.

Lemma direct_handlers_reply_once_witness :
  ∃ calls response,
    Direct.CreateIssueHandler (json := Reference.codec) (env := acceptingJira)
      createMsg onboardedWorld
    = (tt, (calls ++ [EvRespond response])%list, onboardedWorld)
    ∧ (calls = [] ∨ ∃ req, calls = [EvHTTP req]).
Proof.
  apply (direct_handlers_reply_once (json := Reference.codec) (env := acceptingJira)
           createMsg onboardedWorld).
  left.
Defined.

Lemma handshake_handlers_outcomes_witness :
  credsFile (world_of (Handshake.DeleteIssueHandler (json := Reference.codec)
                         (env := deletingJira) brokenMsg onboardedWorld))
  = credsFile onboardedWorld.
Proof.
  apply (handshake_handlers_outcomes (json := Reference.codec) (env := deletingJira)
           brokenMsg onboardedWorld).
  right. left.
Defined.

(** ** Onboarding *)

Section Onboarding.
Context {json : JSON} {std : StdJSON}.

(** A save that fails leaves the world as it was, unless it is the write
    that failed, after the open: then the file is cut short. *)
Lemma SaveCredentials_failure (w : World) (T : string) (B : JiraCredentials) (e : error) :
  value_of (credentials.SaveCredentials T B w) = Some e →
  world_of (credentials.SaveCredentials T B w) = w
  ∨ ∃ err written data,
      writeErr w = Some (WriteFails err written)
      ∧ json_MarshalIndent (<[credentials.spaceKey T := B]> (stored_before w)) = (data, None)
      ∧ world_of (credentials.SaveCredentials T B w) = cut_short w data written.
Proof.
  assert (Hstore :
    value_of (store_run w (json_MarshalIndent
                             (<[credentials.spaceKey T := B]> (stored_before w)))) = Some e →
    world_of (store_run w (json_MarshalIndent
                             (<[credentials.spaceKey T := B]> (stored_before w)))) = w
    ∨ ∃ err written data,
        writeErr w = Some (WriteFails err written)
        ∧ json_MarshalIndent (<[credentials.spaceKey T := B]> (stored_before w)) = (data, None)
        ∧ world_of (store_run w (json_MarshalIndent
                                   (<[credentials.spaceKey T := B]> (stored_before w))))
          = cut_short w data written).
  { unfold store_run.
    destruct (json_MarshalIndent _) as [d [e1|]]; [by left|].
    destruct (writeErr w) as [[e2|e2 n]|] eqn:Hwe.
    - by left.
    - intros _. right. exists e2, n, d. unfold cut_short. by rewrite Hwe.
    - done. }
  rewrite SaveCredentials_run.
  destruct ((value_of (credentials.loadAllCredentials w)).2) as [e0|]; [|exact Hstore].
  destruct (negb (os_IsNotExist (Some e0))); [by left|exact Hstore].
Qed.

Lemma SaveCredentials_trace (w : World) (T : string) (B : JiraCredentials) :
  trace_of (credentials.SaveCredentials T B w) = [].
Proof.
  rewrite SaveCredentials_run. unfold store_run.
  destruct ((value_of (credentials.loadAllCredentials w)).2) as [e0|];
    [destruct (negb (os_IsNotExist (Some e0))); [done|]|];
    (destruct (json_MarshalIndent _) as [d [e1|]]; [done|];
     by destruct (writeErr w) as [[e2|e2 n]|]).
Qed.

(** The handler past its two checks. *)
Lemma onboarding_saves (msg : Msg) (w : World) :
  (sonic_Unmarshal_map (Data msg)).2 = None →
  complete (submitted msg) = true →
  main.onboardingHandler msg w
  = (tt,
     [EvRespond
        (json_Marshal
           (VMap match value_of (credentials.SaveCredentials
                                   (Router.extractSpaceIdFromSubject (Subject msg))
                                   (submitted msg) w) with
                 | Some err => main.errorReply ("Failed to save credentials: " ++ Error err)
                 | None => main.acceptedReply
                 end)).1],
     world_of (credentials.SaveCredentials (Router.extractSpaceIdFromSubject (Subject msg))
                 (submitted msg) w)).
Proof.
  unfold complete, submitted, main.onboardingHandler.
  destruct (sonic_Unmarshal_map (Data msg)) as [onboardingData err]. cbn [fst snd].
  intros -> Hc. apply negb_true_iff in Hc. rewrite Hc.
  rewrite bind_run, SaveCredentials_trace.
  by destruct (value_of (credentials.SaveCredentials _ _ w)).
Qed.

Lemma onboarding_refuses (msg : Msg) (w : World) :
  (sonic_Unmarshal_map (Data msg)).2 = None →
  complete (submitted msg) = false →
  main.onboardingHandler msg w
  = (tt,
     [EvRespond
        (json_Marshal
           (VMap (main.errorReply
                    "Missing required fields: instanceUrl, email, and apiToken are required"))).1],
     w).
Proof.
  unfold complete, submitted, main.onboardingHandler.
  destruct (sonic_Unmarshal_map (Data msg)) as [onboardingData err]. cbn [fst snd].
  intros -> Hc. apply negb_false_iff in Hc. by rewrite Hc.
Qed.

Lemma getStringValue_empty (m : option (gmap string any)) (key : string) :
  main.getStringValue m key = ""
  ↔ ∀ s, or_empty m !! key = Some (VString s) → s = "".
Proof.
  unfold main.getStringValue.
  destruct (or_empty m !! key) as [[| | | |s| |]|]; cbn; split; try done.
  - intros -> s' [= <-]. done.
  - intros Hs. by apply Hs.
Qed.

End Onboarding.

(** X21. The onboarding handler answers every submission exactly once
    and does nothing else observable. It answers [accepted] only when the
    payload decoded, the three fields were non-empty strings and the save
    under the subject's space succeeded; the world is then the one the
    save left. Every other answer is an error mapping; the credentials
    file is then as it was, unless the write itself failed after the file
    had been opened: then the file holds only the part of the new
    collection that was written. *)
Theorem onboarding_outcomes {json : JSON} {std : StdJSON} (msg : Msg) (w : World) :
  ∃ reply,
    trace_of (main.onboardingHandler msg w) = [EvRespond (json_Marshal (VMap reply)).1]
    ∧ ((reply = main.acceptedReply
        ∧ (sonic_Unmarshal_map (Data msg)).2 = None
        ∧ complete (submitted msg) = true
        ∧ value_of (credentials.SaveCredentials
                      (Router.extractSpaceIdFromSubject (Subject msg)) (submitted msg) w) = None
        ∧ world_of (main.onboardingHandler msg w)
          = world_of (credentials.SaveCredentials
                        (Router.extractSpaceIdFromSubject (Subject msg)) (submitted msg) w))
       ∨ ((∃ text, reply = main.errorReply text)
          ∧ (world_of (main.onboardingHandler msg w) = w
             ∨ ∃ err written data,
                 writeErr w = Some (WriteFails err written)
                 ∧ json_MarshalIndent
                     (<[credentials.spaceKey (Router.extractSpaceIdFromSubject (Subject msg))
                        := submitted msg]> (stored_before w)) = (data, None)
                 ∧ world_of (main.onboardingHandler msg w) = cut_short w data written))).
Proof.
  destruct ((sonic_Unmarshal_map (Data msg)).2) as [err|] eqn:Herr.
  - exists (main.errorReply "Invalid request data").
    unfold main.onboardingHandler.
    destruct (sonic_Unmarshal_map (Data msg)) as [onboardingData e]. cbn [snd] in Herr.
    subst e. split; [reflexivity|]. right. split; [by eexists|by left].
  - destruct (complete (submitted msg)) eqn:Hc.
    + rewrite (onboarding_saves msg w Herr Hc).
      destruct (value_of (credentials.SaveCredentials _ (submitted msg) w)) as [e|] eqn:Hsave.
      * eexists. split; [reflexivity|]. right. split; [by eexists|].
        unfold world_of at 1 3. cbn [snd].
        exact (SaveCredentials_failure _ _ _ _ Hsave).
      * eexists. split; [reflexivity|]. left. done.
    + rewrite (onboarding_refuses msg w Herr Hc).
      eexists. split; [reflexivity|]. right. split; [by eexists|by left].
Qed.

(** The second case is real: on a disk that fills up during the write,
    the submission is answered with the error and the file that held the
    credentials of [S1] is left with the ten bytes that arrived. *)
Lemma onboarding_on_full_disk :
  main.onboardingHandler (json := Reference.codec) (std := ReferenceStd.codec)
    onboardMsg fullDiskWorld
  = (tt,
     [EvRespond
        (Reference.dq
           "{'error':'Failed to save credentials: failed to write credentials file: write jira_credentials.json: no space left on device','status':'error'}")],
     cut_short fullDiskWorld (Reference.print_collection {[ "S1" := sampleCreds ]}) 10)
  ∧ credsFile (cut_short fullDiskWorld (Reference.print_collection {[ "S1" := sampleCreds ]}) 10)
    = Contents ("{" ++ Reference.newline ++ Reference.dq "  'S1': ").
Proof. split; vm_compute; reflexivity. Qed.

(** X22. A submission in which [instanceUrl], [email] or [apiToken] is
    absent, not a string (a number, say) or the empty string is answered
    with the missing-fields error, and nothing is saved. *)
Theorem onboarding_requires_three_strings {json : JSON} {std : StdJSON}
    (msg : Msg) (w : World) (data : option (gmap string any)) (key : string) :
  sonic_Unmarshal_map (Data msg) = (data, None) →
  key ∈ ["instanceUrl"; "email"; "apiToken"] →
  (∀ s, or_empty data !! key = Some (VString s) → s = "") →
  main.onboardingHandler msg w
  = (tt,
     [EvRespond
        (json_Marshal
           (VMap (main.errorReply
                    "Missing required fields: instanceUrl, email, and apiToken are required"))).1],
     w).
Proof.
  intros Hdec Hkey Hval.
  apply onboarding_refuses; [by rewrite Hdec|].
  apply getStringValue_empty in Hval.
  unfold complete, submitted. rewrite Hdec. cbn [fst InstanceURL Email APIToken].
  repeat (apply elem_of_cons in Hkey as [->|Hkey]); [..|by apply elem_of_nil in Hkey];
    rewrite Hval; cbn; by rewrite ?orb_true_r.
Qed.

Lemma onboarding_requires_three_strings_witness :
  main.onboardingHandler (json := Reference.codec) (std := ReferenceStd.codec)
    incompleteMsg freshWorld
  = (tt,
     [EvRespond
        (Reference.dq
           "{'error':'Missing required fields: instanceUrl, email, and apiToken are required','status':'error'}")],
     freshWorld).
Proof.
  refine (eq_trans
            (onboarding_requires_three_strings (json := Reference.codec)
               (std := ReferenceStd.codec) incompleteMsg freshWorld
               (@sonic_Unmarshal_map Reference.codec (Data incompleteMsg)).1
               "apiToken" _ _ _) _).
  - vm_compute. reflexivity.
  - right. right. left.
  - intros s Hs. vm_compute in Hs. discriminate Hs.
  - vm_compute. reflexivity.
Defined.

(** X23. Onboarding, then dispatch: once a submission for a space was
    accepted (the save succeeded on a file the codec reads back), the
    store returns exactly the three submitted fields for that space, and a
    later invocation on a subject of the same space is not answered
    [credentials_not_configured]: the direct revision runs the business
    function with the submitted credentials and replies with its
    result. *)
Theorem onboarding_then_dispatch {json : JSON} {std : StdJSON} {env : Env}
    (msg next : Msg) (actionName : string) (actionFunc : ActionFunc) (w w' : World)
    (t : list Event) :
  (sonic_Unmarshal_map (Data msg)).2 = None →
  complete (submitted msg) = true →
  credentials.SaveCredentials (Router.extractSpaceIdFromSubject (Subject msg))
    (submitted msg) w = (None, t, w') →
  decodes_back (<[credentials.spaceKey (Router.extractSpaceIdFromSubject (Subject msg))
                  := submitted msg]> (stored_before w)) →
  Router.extractSpaceIdFromSubject (Subject next)
    = Router.extractSpaceIdFromSubject (Subject msg) →
  payload_decodes next →
  main.onboardingHandler msg w
  = (tt, [EvRespond (json_Marshal (VMap main.acceptedReply)).1], w')
  ∧ credentials.GetCredentials (Router.extractSpaceIdFromSubject (Subject msg)) w'
    = (inr (submitted msg), [], w')
  ∧ Direct.handleActionWithCredentialsCheckSync next actionName actionFunc w'
    = (tt,
       (trace_of (actionFunc (submitted msg) (decoded_body next) w')
        ++ [EvRespond (resultReply
                         (value_of (actionFunc (submitted msg) (decoded_body next) w')))])%list,
       world_of (actionFunc (submitted msg) (decoded_body next) w')).
Proof.
  intros Hdec Hc Hsave Hback Hspace Hnext.
  pose proof (GetCredentials_after_save _ _ _ _ _ Hsave Hback) as Hget.
  split; [|split].
  - rewrite (onboarding_saves msg w Hdec Hc), Hsave. reflexivity.
  - exact Hget.
  - destruct (decodable_payload next actionName actionFunc Hnext) as [-> _].
    rewrite Direct_authorized_run, Hspace, Hget. reflexivity.
Qed.

Lemma onboarding_then_dispatch_witness :
  main.onboardingHandler (json := Reference.codec) (std := ReferenceStd.codec)
    onboardMsg freshWorld
  = (tt,
     [EvRespond
        (Reference.dq "{'message':'Credentials saved successfully','status':'accepted'}")],
     onboardedWorld)
  ∧ credentials.GetCredentials (json := Reference.codec) "S1" onboardedWorld
    = (inr sampleCreds, [], onboardedWorld)
  ∧ ∃ request response,
      Direct.handleActionWithCredentialsCheckSync (json := Reference.codec)
        createMsg "issues.create" createAction onboardedWorld
      = (tt, [EvHTTP request; EvRespond response], onboardedWorld).
Proof.
  destruct (onboarding_then_dispatch (json := Reference.codec) (std := ReferenceStd.codec)
              (env := acceptingJira) onboardMsg createMsg "issues.create" createAction
              freshWorld onboardedWorld [])
    as (Hon & Hget & Hnext).
  - vm_compute. reflexivity.
  - vm_compute. reflexivity.
  - vm_compute. reflexivity.
  - intros data Hm. vm_compute in Hm. injection Hm as <-. vm_compute. reflexivity.
  - vm_compute. reflexivity.
  - right. vm_compute. reflexivity.
  - split; [|split].
    + rewrite Hon. vm_compute. reflexivity.
    + vm_compute in Hget. vm_compute. exact Hget.
    + eexists _, _. rewrite Hnext. vm_compute. reflexivity.
Defined.

(** ** The comment request body and the intro responder *)

(** X24. In the body of a comment request, [body] is the comment text
    and [visibility] is there exactly when the visibility mapping has an
    entry; an entry of [additionalFields] that is neither [nil] nor the
    empty string is written last and so takes the place of either; no
    other member is added. *)
Theorem commentBodyOf_contents (commentBody : string)
    (visibility additionalFields : option (gmap string any)) :
  (∀ k v, or_empty additionalFields !! k = Some v → usable v = true →
     client.commentBodyOf commentBody visibility additionalFields !! k = Some v)
  ∧ ((or_empty additionalFields !! "body" = None
      ∨ ∃ v, or_empty additionalFields !! "body" = Some v ∧ usable v = false) →
     client.commentBodyOf commentBody visibility additionalFields !! "body"
     = Some (VString commentBody))
  ∧ ((or_empty additionalFields !! "visibility" = None
      ∨ ∃ v, or_empty additionalFields !! "visibility" = Some v ∧ usable v = false) →
     client.commentBodyOf commentBody visibility additionalFields !! "visibility"
     = if (0 <? size (or_empty visibility))%nat
       then Some (VMap (or_empty visibility)) else None)
  ∧ (∀ k, k ≠ "body" → k ≠ "visibility" → or_empty additionalFields !! k = None →
     client.commentBodyOf commentBody visibility additionalFields !! k = None).
Proof.
  unfold client.commentBodyOf.
  assert (Hkeep : ∀ key (target : gmap string any),
    (or_empty additionalFields !! key = None
     ∨ ∃ v, or_empty additionalFields !! key = Some v ∧ usable v = false) →
    client.addFields (or_empty additionalFields) target !! key = target !! key).
  { intros key target Hk. rewrite addFields_lookup.
    destruct Hk as [-> | (v & -> & Hv)]; [done|].
    rewrite usable_spec in Hv. by rewrite Hv. }
  split; [|split; [|split]].
  - intros k v Hk Hv. rewrite addFields_lookup, Hk. rewrite usable_spec in Hv. by rewrite Hv.
  - intros Hk. rewrite (Hkeep _ _ Hk).
    by destruct (0 <? size (or_empty visibility))%nat.
  - intros Hk. rewrite (Hkeep _ _ Hk).
    destruct (0 <? size (or_empty visibility))%nat; [by rewrite lookup_insert_eq|done].
  - intros k Hb Hv Hk. rewrite (Hkeep _ _ (or_introl Hk)).
    destruct (0 <? size (or_empty visibility))%nat.
    + rewrite lookup_insert_ne by done. by apply lookup_singleton_ne.
    + by apply lookup_singleton_ne.
Qed.

Lemma commentBodyOf_contents_witness :
  client.commentBodyOf "hello" (Some ∅) (Some {[ "body" := VString "other" ]}) !! "body"
  = Some (VString "other")
  ∧ client.commentBodyOf "hello" (Some ∅) (Some {[ "body" := VString "other" ]}) !! "visibility"
    = None.
Proof.
  destruct (commentBodyOf_contents "hello" (Some ∅) (Some {[ "body" := VString "other" ]}))
    as (Hover & _ & Hvis & _).
  split.
  - apply Hover; reflexivity.
  - rewrite Hvis; [reflexivity|]. left. reflexivity.
Defined.

Lemma fold_insert_all {A} (m : gmap string A) :
  map_fold (fun key value (meta : gmap string A) => <[key := value]> meta) ∅ m = m.
Proof.
  apply (map_fold_weak_ind (fun (r : gmap string A) (m : gmap string A) => r = m)); [done|].
  intros k v m' r Hk ->. done.
Qed.

(** X25. The intro responder answers with the plugin's intro, every
    field but the meta as it is, and a meta mapping that holds
    [credentialsConfigured] (whether the store has credentials for the
    subject's space, so [false] too when the store cannot be read),
    [spaceId] (that space) and every other entry of the intro's own meta;
    an entry of the intro's meta under one of the two names is replaced.
    It emits nothing and changes nothing. *)
Theorem introResponder_meta {json : JSON} (intro : PluginIntro) (msg : Msg) (w : World) :
  ∃ meta,
    main.introResponder intro msg w
    = ({| IntroName := IntroName intro; IntroVersion := IntroVersion intro;
          IntroAuthor := IntroAuthor intro; IntroSummary := IntroSummary intro;
          IconBase64 := IconBase64 intro; Requirements := Requirements intro;
          Meta := Some meta |}, [], w)
    ∧ meta !! "credentialsConfigured"
      = Some (VBool (value_of (credentials.HasCredentials
                                 (Router.extractSpaceIdFromSubject (Subject msg)) w)))
    ∧ meta !! "spaceId" = Some (VString (Router.extractSpaceIdFromSubject (Subject msg)))
    ∧ (∀ k, k ≠ "credentialsConfigured" → k ≠ "spaceId" →
         meta !! k = or_empty (Meta intro) !! k)
    ∧ ((value_of (credentials.loadAllCredentials w)).2 ≠ None →
         meta !! "credentialsConfigured" = Some (VBool false)).
Proof.
  eexists. split; [|split; [|split; [|split]]].
  - unfold main.introResponder.
    rewrite (bind_silent _ _ _ _ (HasCredentials_silent w _)). reflexivity.
  - rewrite lookup_insert_ne by done. apply lookup_insert_eq.
  - apply lookup_insert_eq.
  - intros k Hc Hs. rewrite !lookup_insert_ne by done. by rewrite fold_insert_all.
  - intros Herr. rewrite lookup_insert_ne by done. rewrite lookup_insert_eq.
    destruct ((value_of (credentials.loadAllCredentials w)).2) as [err|] eqn:Hl; [|done].
    rewrite HasCredentials_run, GetCredentials_run.
    destruct (value_of (credentials.loadAllCredentials w)) as [allCreds e].
    cbn [snd] in Hl. subst e. reflexivity.
Qed.

Lemma introResponder_meta_witness :
  value_of (main.introResponder (json := Reference.codec) sampleIntro onboardMsg onboardedWorld)
  = {| IntroName := "Jira Plugin"; IntroVersion := "1.0.0"; IntroAuthor := "Soren Team";
       IntroSummary := "Jira integration for managing projects and issues";
       IconBase64 := ""; Requirements := VNil;
       Meta := Some {[ "tier" := VString "internal";
                       "credentialsConfigured" := VBool true;
                       "spaceId" := VString "S1" ]} |}
  ∧ ∃ meta,
      Meta (value_of (main.introResponder (json := Reference.codec) sampleIntro onboardMsg
                        corruptWorld)) = Some meta
      ∧ meta !! "credentialsConfigured" = Some (VBool false).
Proof.
  split; [vm_compute; reflexivity|].
  destruct (introResponder_meta (json := Reference.codec) sampleIntro onboardMsg corruptWorld)
    as (meta & Hrun & _ & _ & _ & Hfalse).
  exists meta. rewrite Hrun. split; [reflexivity|].
  apply Hfalse. vm_compute. discriminate.
Defined.
